(** * Campus Resource Hub: booking engine and threaded messaging

    A shallow embedding of the data-access layer ([bookings_dao],
    [messages_dao], [resources_dao]) and of the request handlers that
    guard it ([controllers/bookings], [controllers/messaging],
    [controllers/admin]).

    The relational store is a record of tables, each table a list of rows
    in rowid order.  Every SQL statement of the source is one function on
    these tables; the statement is quoted above the function that models
    it.  Instants are kept as the ISO-8601 text the store holds, and are
    compared the way SQLite compares TEXT values: byte by byte. *)

From Stdlib Require Import ZArith String Ascii.
From stdpp Require Import base list gmap sorting strings pretty.

Local Open Scope Z_scope.

(** ** Exceptions and the state-and-error monad *)

Inductive Exn : Type :=
  | ValueError (msg : string)
  | OperationalError (msg : string)
  | MessagingSchemaError (msg : string)
  | AttributeError (msg : string)
  | HTTPException (code : Z).

Inductive Result (A : Type) : Type :=
  | Ok (a : A)
  | Raise (e : Exn).
Arguments Ok {A} a.
Arguments Raise {A} e.

(** A computation reads and writes a state [S]; an exception leaves the
    state as it was when it was raised ([db.execute] commits each write at
    once, so earlier writes are kept). *)
Definition M (S A : Type) : Type := S → Result A * S.

Definition ret {S A} (a : A) : M S A := λ s, (Ok a, s).

Definition bind {S A B} (m : M S A) (k : A → M S B) : M S B :=
  λ s, match m s with
       | (Ok a, s') => k a s'
       | (Raise e, s') => (Raise e, s')
       end.

Definition raise {S A} (e : Exn) : M S A := λ s, (Raise e, s).

Definition gets {S A} (f : S → A) : M S A := λ s, (Ok (f s), s).

Definition modify {S} (f : S → S) : M S unit := λ s, (Ok tt, f s).

(** [try m except h]: the handler [h] answers [None] for the exceptions
    the [except] clause does not name, which then propagate. *)
Definition try_except {S A} (m : M S A) (h : Exn → option (M S A)) : M S A :=
  λ s, match m s with
       | (Ok a, s') => (Ok a, s')
       | (Raise e, s') =>
           match h e with
           | Some k => k s'
           | None => (Raise e, s')
           end
       end.

Global Instance M_ret {S} : MRet (M S) := λ A, @ret S A.
Global Instance M_bind {S} : MBind (M S) := λ A B k m, @bind S A B m k.

(** A computation that writes nothing. *)
Definition read_only {S A} (m : M S A) : Prop := ∀ s, (m s).2 = s.

(** ** Text comparison of the store *)

Module Sql.

(** [a <= b] and [a < b] on TEXT values (BINARY collation). *)
Definition text_le (a b : string) : Prop := Is_true (String.leb a b).
Definition text_lt (a b : string) : Prop := Is_true (String.ltb a b).

(** The rowid given to a new row: one more than the largest in use. *)
Definition next_rowid (ids : list Z) : Z := 1 + foldr Z.max 0 ids.

(** [UPDATE t SET ... WHERE ...] touches every row the WHERE clause
    selects and no other. *)
Definition update {A} (where_ : A → bool) (set : A → A) (rows : list A) : list A :=
  (λ r, if where_ r then set r else r) <$> rows.

(** [cursor.fetchone()]: the first row of the result, if any. *)
Definition fetchone {A} (rows : list A) : option A := head rows.

(** [ORDER BY]: the rows in the order [R] of their keys.  Modelled from
    the spec: SQL leaves the order among rows with equal keys to the
    engine, which decides it by the indexes of the schema script, and that
    script is not among the sources; "stable secondary order by insertion
    sequence is recommended", so rows with equal keys keep the order in
    which the query meets them. *)
Fixpoint insert_row {A} (R : relation A) `{∀ x y, Decision (R x y)}
    (x : A) (rows : list A) : list A :=
  match rows with
  | [] => [x]
  | y :: rest => if decide (R x y) then x :: rows else y :: insert_row R x rest
  end.

Definition order_by {A} (R : relation A) `{∀ x y, Decision (R x y)}
    (rows : list A) : list A :=
  foldr (insert_row R) [] rows.

End Sql.

(** ** Text *)

Module Utf8.

(** A text is held as its UTF-8 bytes.  [len] is Python's [len] of the
    text, the number of its code points: every byte starts one, but for
    the continuation bytes [10xxxxxx]. *)
Definition is_continuation (c : ascii) : bool :=
  (128 <=? nat_of_ascii c)%nat && (nat_of_ascii c <? 192)%nat.

Fixpoint len (text : string) : nat :=
  match text with
  | EmptyString => 0%nat
  | String c rest => ((if is_continuation c then 0 else 1) + len rest)%nat
  end.

End Utf8.

(** ** Entities (models/entities.py) and rows *)

Module Booking.
Record t : Type := mk {
  booking_id : Z;
  resource_id : Z;
  requester_id : Z;
  start_datetime : string;
  end_datetime : string;
  status : string;
  approval_notes : option string;
  created_at : string;
  updated_at : string
}.
End Booking.

Module Resource.
(** The columns the booking and messaging code reads. *)
Record t : Type := mk {
  resource_id : Z;
  owner_id : Z;
  title : string;
  requires_approval : bool;
  status : string
}.
End Resource.

Module Thread.
Record t : Type := mk {
  thread_id : Z;
  context_type : string;
  context_id : option Z;
  created_by : Z;
  created_at : string
}.
End Thread.

Module MessageRow.
(** A row of [messages]; [thread_id] may be NULL in rows that predate
    threading, which [_row_to_message] allows for. *)
Record t : Type := mk {
  message_id : Z;
  thread_id : option Z;
  sender_id : Z;
  receiver_id : Z;
  content : string;
  timestamp : string
}.
End MessageRow.

Module Message.
Record t : Type := mk {
  message_id : Z;
  thread_id : Z;
  sender_id : Z;
  receiver_id : Z;
  content : string;
  timestamp : string
}.
End Message.

Module AdminLog.
Record t : Type := mk {
  admin_id : Z;
  action : string;
  target_table : string;
  details : option string
}.
End AdminLog.

Module UserRow.
(** The columns of [users] that the administrator's overview reads. *)
Record t : Type := mk {
  user_id : Z;
  name : string
}.
End UserRow.

(** ** The store *)

(** The messaging tables may be missing in a partially provisioned
    deployment ([None]); a statement that names a missing table raises
    [sqlite3.OperationalError]. *)
Record Store : Type := mkStore {
  tbl_bookings : list Booking.t;
  tbl_resources : list Resource.t;
  tbl_threads : option (list Thread.t);
  tbl_messages : option (list MessageRow.t);
  tbl_admin_logs : list AdminLog.t;
  tbl_users : list UserRow.t
}.

Definition set_bookings (f : list Booking.t → list Booking.t) (s : Store) : Store :=
  mkStore (f (tbl_bookings s)) (tbl_resources s) (tbl_threads s) (tbl_messages s)
          (tbl_admin_logs s) (tbl_users s).

Definition set_threads (rows : list Thread.t) (s : Store) : Store :=
  mkStore (tbl_bookings s) (tbl_resources s) (Some rows) (tbl_messages s)
          (tbl_admin_logs s) (tbl_users s).

Definition set_messages (rows : list MessageRow.t) (s : Store) : Store :=
  mkStore (tbl_bookings s) (tbl_resources s) (tbl_threads s) (Some rows)
          (tbl_admin_logs s) (tbl_users s).

Definition set_admin_logs (f : list AdminLog.t → list AdminLog.t) (s : Store) : Store :=
  mkStore (tbl_bookings s) (tbl_resources s) (tbl_threads s) (tbl_messages s)
          (f (tbl_admin_logs s)) (tbl_users s).

Definition no_such_table (name : string) : Exn :=
  OperationalError ("no such table: " +:+ name).

(** Reading a messaging table that may be absent. *)
Definition threads_table : M Store (list Thread.t) :=
  λ s, match tbl_threads s with
       | Some rows => (Ok rows, s)
       | None => (Raise (no_such_table "threads"), s)
       end.

Definition messages_table : M Store (list MessageRow.t) :=
  λ s, match tbl_messages s with
       | Some rows => (Ok rows, s)
       | None => (Raise (no_such_table "messages"), s)
       end.

(** ** data_access/bookings_dao.py *)

Module bookings_dao.
Import Booking.

(** [_parse] reads each of the four texts with [datetime.fromisoformat],
    a space standing for [T], and raises [ValueError] on a text that is no
    ISO date and time.  The entity here keeps the text it would parse,
    and the texts of the table are taken to be ISO texts, as those that
    [isoformat()] and the clock of the store write are: the row is copied
    field by field. *)
Definition _row_to_booking (row : Booking.t) : Booking.t :=
  Booking.mk (booking_id row) (resource_id row) (requester_id row)
             (start_datetime row) (end_datetime row) (status row)
             (approval_notes row) (created_at row) (updated_at row).

(** [status IN ('pending', 'approved')] *)
Definition is_active (b : Booking.t) : bool :=
  bool_decide (status b = "pending") || bool_decide (status b = "approved").

(** [NOT (end_datetime <= ? OR start_datetime >= ?)] with parameters
    [start_value], [end_value]. *)
Definition overlaps (b : Booking.t) (start_value end_value : string) : bool :=
  negb (String.leb (end_datetime b) start_value
        || String.leb end_value (start_datetime b)).

(** [if exclude_booking_id: query += " AND booking_id != ?"]; the test
    is Python truthiness, so [None] and [0] add no clause. *)
Definition not_excluded (exclude_booking_id : option Z) (b : Booking.t) : bool :=
  match exclude_booking_id with
  | Some x => if bool_decide (x = 0) then true else negb (bool_decide (booking_id b = x))
  | None => true
  end.

(** [SELECT 1 FROM bookings WHERE resource_id = ? AND status IN (...)
    AND NOT (end_datetime <= ? OR start_datetime >= ?)] *)
Definition conflict_rows (rid : Z) (start_value end_value : string)
    (exclude_booking_id : option Z) (rows : list Booking.t) : list Booking.t :=
  filter (λ b, Is_true (bool_decide (resource_id b = rid) && is_active b
                        && overlaps b start_value end_value
                        && not_excluded exclude_booking_id b)) rows.

Definition has_conflict (rid : Z) (start_value end_value : string)
    (exclude_booking_id : option Z) : M Store bool :=
  rows ← gets tbl_bookings;
  let row := Sql.fetchone (conflict_rows rid start_value end_value exclude_booking_id rows) in
  mret (bool_decide (row ≠ None)).

(** [SELECT * FROM bookings WHERE booking_id = ?] *)
Definition get_booking_by_id (bid : Z) : M Store (option Booking.t) :=
  rows ← gets tbl_bookings;
  let row := Sql.fetchone (filter (λ b, booking_id b = bid) rows) in
  mret (_row_to_booking <$> row).

(** Modelled from the spec: the declaration of the [bookings] table (the
    schema script is not among the sources).  [booking_id] is "unique,
    assigned on creation", here the rowid SQLite gives the row;
    [created_at] and [updated_at] are filled by the store with the time
    of the insert, [now]; the table puts no condition on the two
    instants of the row. *)
Definition new_booking_row (now : string) (rows : list Booking.t) (rid uid : Z)
    (start_value end_value status_ : string) (notes : option string) : Booking.t :=
  Booking.mk (Sql.next_rowid (booking_id <$> rows)) rid uid
             start_value end_value status_ notes now now.

(** [INSERT INTO bookings (resource_id, requester_id, start_datetime,
    end_datetime, status, approval_notes) VALUES (?, ?, ?, ?, ?, ?)];
    the answer is [cursor.lastrowid]. *)
Definition insert_booking (now : string) (rid uid : Z)
    (start_value end_value status_ : string) (notes : option string) : M Store Z :=
  rows ← gets tbl_bookings;
  let row := new_booking_row now rows rid uid start_value end_value status_ notes in
  modify (set_bookings (λ rows, rows ++ [row]));;
  mret (booking_id row).

Definition conflict_message : string :=
  "Booking conflicts with an existing reservation.".

(** [start_value] and [end_value] are the ISO texts; a [datetime]
    argument is turned into its [isoformat()] on entry. *)
Definition create_booking (now : string) (rid uid : Z)
    (start_value end_value : string) (requires_approval : bool)
    (notes : option string) : M Store (option Booking.t) :=
  conflict ← has_conflict rid start_value end_value None;
  if (conflict : bool) then raise (ValueError conflict_message)
  else
    let status_ := if requires_approval then "pending" else "approved" in
    lastrowid ← insert_booking now rid uid start_value end_value status_ notes;
    get_booking_by_id lastrowid.

Definition with_status (st : string) (now : string) (b : Booking.t) : Booking.t :=
  Booking.mk (booking_id b) (resource_id b) (requester_id b)
             (start_datetime b) (end_datetime b) st
             (approval_notes b) (created_at b) now.

Definition with_decision (st : string) (notes : option string) (now : string)
    (b : Booking.t) : Booking.t :=
  Booking.mk (booking_id b) (resource_id b) (requester_id b)
             (start_datetime b) (end_datetime b) st
             notes (created_at b) now.

(** [UPDATE bookings SET status = ?, updated_at = CURRENT_TIMESTAMP
    WHERE booking_id = ?] *)
Definition update_booking_status (now : string) (bid : Z) (st : string) : M Store unit :=
  modify (set_bookings (Sql.update (λ b, bool_decide (booking_id b = bid))
                                   (with_status st now))).

(** [INSERT INTO admin_logs (admin_id, action, target_table, details)
    VALUES (?, ?, ?, ?)] with [details] NULL. *)
Definition _log_admin_action (admin_id : Z) (target_table action : string) : M Store unit :=
  modify (set_admin_logs (λ rows, rows ++ [AdminLog.mk admin_id action target_table None])).

(** [f"Approved booking {booking_id}"]: the id in decimal. *)
Definition log_line (verb : string) (bid : Z) : string :=
  verb +:+ " booking " +:+ pretty bid.

(** [UPDATE bookings SET status = 'approved', approval_notes = ?,
    updated_at = CURRENT_TIMESTAMP WHERE booking_id = ? AND status = 'pending'] *)
Definition approve_booking (now : string) (bid approver_id : Z)
    (notes : option string) : M Store unit :=
  modify (set_bookings (Sql.update
    (λ b, bool_decide (booking_id b = bid) && bool_decide (status b = "pending"))
    (with_decision "approved" notes now)));;
  _log_admin_action approver_id "bookings" (log_line "Approved" bid).

(** [UPDATE bookings SET status = 'rejected', approval_notes = ?,
    updated_at = CURRENT_TIMESTAMP WHERE booking_id = ? AND status = 'pending'] *)
Definition reject_booking (now : string) (bid approver_id : Z)
    (notes : option string) : M Store unit :=
  modify (set_bookings (Sql.update
    (λ b, bool_decide (booking_id b = bid) && bool_decide (status b = "pending"))
    (with_decision "rejected" notes now)));;
  _log_admin_action approver_id "bookings" (log_line "Rejected" bid).

(** [UPDATE bookings SET status = 'cancelled', updated_at =
    CURRENT_TIMESTAMP WHERE booking_id = ?] *)
Definition cancel_booking (now : string) (bid : Z) : M Store unit :=
  modify (set_bookings (Sql.update (λ b, bool_decide (booking_id b = bid))
                                   (with_status "cancelled" now))).

(** [UPDATE bookings SET status = 'completed', updated_at =
    CURRENT_TIMESTAMP WHERE booking_id = ?] *)
Definition complete_booking (now : string) (bid : Z) : M Store unit :=
  modify (set_bookings (Sql.update (λ b, bool_decide (booking_id b = bid))
                                   (with_status "completed" now))).

(** What the WHERE clause of the conflict query selects. *)
Definition clashes (rid : Z) (start_value end_value : string) (b : Booking.t) : Prop :=
  resource_id b = rid
  ∧ (status b = "pending" ∨ status b = "approved")
  ∧ ¬ (Sql.text_le (end_datetime b) start_value
       ∨ Sql.text_le end_value (start_datetime b)).

(** The overlap law of the table, as the store compares the texts: of
    two distinct active bookings of one resource, one ends at or before
    the start of the other. *)
Definition no_overlap (rows : list Booking.t) : Prop :=
  ∀ i j a b, i ≠ j → rows !! i = Some a → rows !! j = Some b →
    resource_id a = resource_id b →
    (status a = "pending" ∨ status a = "approved") →
    (status b = "pending" ∨ status b = "approved") →
    Sql.text_le (end_datetime a) (start_datetime b)
    ∨ Sql.text_le (end_datetime b) (start_datetime a).

(** The fields of a booking that describe the request itself. *)
Definition same_request (b b' : Booking.t) : Prop :=
  booking_id b' = booking_id b ∧ resource_id b' = resource_id b
  ∧ requester_id b' = requester_id b
  ∧ start_datetime b' = start_datetime b ∧ end_datetime b' = end_datetime b
  ∧ created_at b' = created_at b.

(** A conditional transition: the pending booking [bid] takes the status
    [st] and the notes of the decision; every other row stays as it is. *)
Definition decided (st : string) (notes : option string) (now : string) (bid : Z)
    (b b' : Booking.t) : Prop :=
  (booking_id b = bid ∧ status b = "pending" →
     status b' = st ∧ approval_notes b' = notes ∧ updated_at b' = now ∧ same_request b b')
  ∧ (¬ (booking_id b = bid ∧ status b = "pending") → b' = b).

(** An unconditional transition: the booking [bid] takes the status [st]
    whatever its status was; every other row stays as it is. *)
Definition forced (st : string) (now : string) (bid : Z) (b b' : Booking.t) : Prop :=
  (booking_id b = bid →
     status b' = st ∧ updated_at b' = now ∧ approval_notes b' = approval_notes b
     ∧ same_request b b')
  ∧ (booking_id b ≠ bid → b' = b).

(** [ORDER BY start_datetime DESC] *)
Definition by_start_desc (a b : Booking.t) : Prop :=
  Sql.text_le (start_datetime b) (start_datetime a).

Global Instance by_start_desc_dec a b : Decision (by_start_desc a b).
Proof. unfold by_start_desc, Sql.text_le. apply _. Defined.

(** [ORDER BY created_at ASC] *)
Definition by_created_at (a b : Booking.t) : Prop :=
  Sql.text_le (created_at a) (created_at b).

Global Instance by_created_at_dec a b : Decision (by_created_at a b).
Proof. unfold by_created_at, Sql.text_le. apply _. Defined.

(** [SELECT * FROM bookings WHERE requester_id = ?
    ORDER BY start_datetime DESC] *)
Definition list_bookings_for_user (user_id : Z) : M Store (list Booking.t) :=
  rows ← gets tbl_bookings;
  mret (_row_to_booking <$>
          Sql.order_by by_start_desc (filter (λ b, requester_id b = user_id) rows)).

(** [SELECT * FROM bookings WHERE resource_id = ?
    ORDER BY start_datetime DESC] *)
Definition list_bookings_for_resource (rid : Z) : M Store (list Booking.t) :=
  rows ← gets tbl_bookings;
  mret (_row_to_booking <$>
          Sql.order_by by_start_desc (filter (λ b, resource_id b = rid) rows)).

(** [SELECT * FROM bookings WHERE status = 'pending' ORDER BY created_at ASC] *)
Definition list_pending_approvals : M Store (list Booking.t) :=
  rows ← gets tbl_bookings;
  mret (_row_to_booking <$>
          Sql.order_by by_created_at (filter (λ b, status b = "pending") rows)).

(** [SELECT b.* FROM bookings b JOIN resources r ON r.resource_id =
    b.resource_id WHERE b.status = 'pending' AND r.owner_id = ?
    ORDER BY b.created_at ASC]: one row for every pair of a booking and a
    resource that the join and the WHERE clause keep. *)
Definition list_pending_for_owner (owner_id : Z) : M Store (list Booking.t) :=
  rows ← gets tbl_bookings;
  resources ← gets tbl_resources;
  let joined :=
    b ← rows;
    r ← filter (λ r, Resource.resource_id r = resource_id b
                     ∧ status b = "pending"
                     ∧ Resource.owner_id r = owner_id) resources;
    [b] in
  mret (_row_to_booking <$> Sql.order_by by_created_at joined).

End bookings_dao.

(** ** data_access/resources_dao.py *)

Module resources_dao.
Import Resource.

(** [SELECT r.*, ROUND(AVG(rv.rating), 2) AS average_rating FROM resources r
    LEFT JOIN reviews rv ON rv.resource_id = r.resource_id
    WHERE r.resource_id = ?], with [AND r.status = 'published'] unless
    [include_unpublished], then [GROUP BY r.resource_id]. *)
Definition get_resource_by_id (rid : Z) (include_unpublished : bool) :
    M Store (option Resource.t) :=
  rows ← gets tbl_resources;
  mret (Sql.fetchone
          (filter (λ r, resource_id r = rid
                        ∧ (include_unpublished = false → status r = "published")) rows)).

End resources_dao.

(** ** data_access/messages_dao.py *)

Module ThreadSummary.
(** A row of the thread listings: the columns of the thread, the
    aggregate [last_activity] and the aggregate [message_count]. *)
Record t : Type := mk {
  thread : Thread.t;
  last_activity : option string;
  message_count : Z
}.
End ThreadSummary.

Module messages_dao.

Definition _SCHEMA_INSTRUCTIONS : string :=
  "Messaging tables are missing. Re-initialize the database with `flask --app src.app init-db` followed by `python -m src.data_access.seed`.".

(** [except sqlite3.OperationalError as exc:
      raise MessagingSchemaError(_SCHEMA_INSTRUCTIONS) from exc] *)
Definition schema_guard {A} (m : M Store A) : M Store A :=
  try_except m (λ e, match e with
                     | OperationalError _ =>
                         Some (raise (MessagingSchemaError _SCHEMA_INSTRUCTIONS))
                     | _ => None
                     end).

(** [timestamp] is read with [datetime.fromisoformat] as [_parse] of the
    bookings does; the entity keeps the text. *)
Definition _row_to_message (row : MessageRow.t) : Message.t :=
  let thread_id :=
    match MessageRow.thread_id row with
    | Some raw_thread_id => raw_thread_id
    | None => MessageRow.message_id row
    end in
  Message.mk (MessageRow.message_id row) thread_id (MessageRow.sender_id row)
             (MessageRow.receiver_id row) (MessageRow.content row)
             (MessageRow.timestamp row).

(** [created_at] is read the same way. *)
Definition _row_to_thread (row : Thread.t) : Thread.t :=
  Thread.mk (Thread.thread_id row) (Thread.context_type row) (Thread.context_id row)
            (Thread.created_by row) (Thread.created_at row).

(** [SELECT * FROM threads WHERE thread_id = ?] *)
Definition get_thread (tid : Z) : M Store (option Thread.t) :=
  row ← schema_guard (
    rows ← threads_table;
    mret (Sql.fetchone (filter (λ t, Thread.thread_id t = tid) rows)));
  mret (_row_to_thread <$> row).

(** [SELECT * FROM messages WHERE message_id = ?] *)
Definition get_message_by_id (mid : Z) : M Store (option Message.t) :=
  row ← schema_guard (
    rows ← messages_table;
    mret (Sql.fetchone (filter (λ m, MessageRow.message_id m = mid) rows)));
  mret (_row_to_message <$> row).

(** [ORDER BY timestamp ASC] compares the stored texts. *)
Definition by_timestamp (a b : MessageRow.t) : Prop :=
  Sql.text_le (MessageRow.timestamp a) (MessageRow.timestamp b).

Global Instance by_timestamp_dec a b : Decision (by_timestamp a b).
Proof. unfold by_timestamp, Sql.text_le. apply _. Defined.

(** The same order on the entities: [Message.timestamp] ascending. *)
Definition ascending : relation Message.t :=
  λ a b, Sql.text_le (Message.timestamp a) (Message.timestamp b).

(** [ORDER BY timestamp DESC] *)
Definition by_timestamp_desc (a b : MessageRow.t) : Prop := by_timestamp b a.

Global Instance by_timestamp_desc_dec a b : Decision (by_timestamp_desc a b).
Proof. unfold by_timestamp_desc. apply _. Defined.

(** Modelled from the spec: the declaration of the [threads] table (the
    schema script is not among the sources).  [thread_id] is the rowid of
    the new row and [created_at] the time of the insert, [now]. *)
Definition new_thread_row (now : string) (rows : list Thread.t)
    (context_type : string) (context_id : option Z) (created_by : Z) : Thread.t :=
  Thread.mk (Sql.next_rowid (Thread.thread_id <$> rows)) context_type context_id
            created_by now.

(** Modelled from the spec: the declaration of the [messages] table (the
    schema script is not among the sources).  [message_id] is the rowid
    of the new row; "timestamp is assigned by the store at insert time",
    [now]; the table puts no condition on [content]. *)
Definition new_message_row (now : string) (rows : list MessageRow.t)
    (tid sender_id receiver_id : Z) (content : string) : MessageRow.t :=
  MessageRow.mk (Sql.next_rowid (MessageRow.message_id <$> rows)) (Some tid)
                sender_id receiver_id content now.

(** [INSERT INTO threads (context_type, context_id, created_by)
    VALUES (?, ?, ?)], then [get_thread(cursor.lastrowid)]. *)
Definition create_thread (now : string) (context_type : string) (context_id : option Z)
    (created_by : Z) : M Store (option Thread.t) :=
  lastrowid ← schema_guard (
    rows ← threads_table;
    let row := new_thread_row now rows context_type context_id created_by in
    modify (set_threads (rows ++ [row]));;
    mret (Thread.thread_id row));
  get_thread lastrowid.

(** [INSERT INTO messages (thread_id, sender_id, receiver_id, content)
    VALUES (?, ?, ?, ?)], then [get_message_by_id(cursor.lastrowid)]. *)
Definition post_message (now : string) (tid sender_id receiver_id : Z)
    (content : string) : M Store (option Message.t) :=
  lastrowid ← schema_guard (
    rows ← messages_table;
    let row := new_message_row now rows tid sender_id receiver_id content in
    modify (set_messages (rows ++ [row]));;
    mret (MessageRow.message_id row));
  get_message_by_id lastrowid.

(** [SELECT * FROM messages WHERE thread_id = ? ORDER BY timestamp ASC] *)
Definition get_messages (tid : Z) : M Store (list Message.t) :=
  rows ← schema_guard (
    rows ← messages_table;
    mret (Sql.order_by by_timestamp
            (filter (λ m, MessageRow.thread_id m = Some tid) rows)));
  mret (_row_to_message <$> rows).

(** [SELECT * FROM messages WHERE thread_id = ? AND timestamp > ?
    ORDER BY timestamp ASC] *)
Definition get_messages_since (tid : Z) (timestamp : string) : M Store (list Message.t) :=
  rows ← schema_guard (
    rows ← messages_table;
    mret (Sql.order_by by_timestamp
            (filter (λ m, MessageRow.thread_id m = Some tid
                          ∧ Sql.text_lt timestamp (MessageRow.timestamp m)) rows)));
  mret (_row_to_message <$> rows).

(** [SELECT * FROM messages WHERE thread_id = ? ORDER BY timestamp DESC
    LIMIT 1] *)
Definition get_last_message (tid : Z) : M Store (option Message.t) :=
  row ← schema_guard (
    rows ← messages_table;
    mret (Sql.fetchone
            (Sql.order_by by_timestamp_desc
               (filter (λ m, MessageRow.thread_id m = Some tid) rows))));
  mret (_row_to_message <$> row).

(** [MAX(m.timestamp)]: the largest text of the group, NULL for an empty
    group. *)
Definition max_text (xs : list string) : option string :=
  foldr (λ x acc, match acc with
                  | None => Some x
                  | Some y => Some (if String.ltb y x then x else y)
                  end) None xs.

(** One row per group: [t.*, MAX(m.timestamp) AS last_activity,
    COUNT(m.message_id) AS message_count]. *)
Definition summarise (t : Thread.t) (group : list MessageRow.t) : ThreadSummary.t :=
  ThreadSummary.mk t (max_text (MessageRow.timestamp <$> group))
                   (Z.of_nat (length group)).

(** [ORDER BY (last_activity IS NULL), last_activity DESC] *)
Definition by_last_activity (a b : ThreadSummary.t) : Prop :=
  match ThreadSummary.last_activity a, ThreadSummary.last_activity b with
  | Some x, Some y => Sql.text_le y x
  | Some _, None => True
  | None, Some _ => False
  | None, None => True
  end.

Global Instance by_last_activity_dec a b : Decision (by_last_activity a b).
Proof.
  unfold by_last_activity, Sql.text_le.
  destruct (ThreadSummary.last_activity a), (ThreadSummary.last_activity b); apply _.
Defined.

(** [SELECT t.*, MAX(m.timestamp) AS last_activity, COUNT(m.message_id) AS
    message_count FROM threads t LEFT JOIN messages m ON m.thread_id =
    t.thread_id GROUP BY t.thread_id ORDER BY (last_activity IS NULL),
    last_activity DESC]; [thread_id] is the key of [threads], so each
    thread row is one group. *)
Definition list_threads_for_admin : M Store (list ThreadSummary.t) :=
  schema_guard (
    ts ← threads_table;
    ms ← messages_table;
    let joined t := filter (λ m, MessageRow.thread_id m = Some (Thread.thread_id t)) ms in
    mret (Sql.order_by by_last_activity ((λ t, summarise t (joined t)) <$> ts))).

(** The same with [JOIN messages m ON m.thread_id = t.thread_id WHERE
    m.sender_id = ? OR m.receiver_id = ?]: the WHERE clause filters the
    joined rows before they are grouped, and a thread without a joined
    row gives no group. *)
Definition list_threads_for_user (user_id : Z) : M Store (list ThreadSummary.t) :=
  schema_guard (
    ts ← threads_table;
    ms ← messages_table;
    let joined t :=
      filter (λ m, MessageRow.thread_id m = Some (Thread.thread_id t)
                   ∧ (MessageRow.sender_id m = user_id
                      ∨ MessageRow.receiver_id m = user_id)) ms in
    mret (Sql.order_by by_last_activity
            (omap (λ t, match joined t with
                        | [] => None
                        | group => Some (summarise t group)
                        end) ts))).

(** The messages of thread [t] that [user_id] sent or received. *)
Definition own_messages (user_id : Z) (ms : list MessageRow.t) (t : Thread.t) :
    list MessageRow.t :=
  filter (λ m, MessageRow.thread_id m = Some (Thread.thread_id t)
               ∧ (MessageRow.sender_id m = user_id ∨ MessageRow.receiver_id m = user_id)) ms.

End messages_dao.

(** ** Request handlers: shared parts *)

Module User.
Record t : Type := mk {
  user_id : Z;
  role : string
}.

(** The [is_admin] property of the entity. *)
Definition is_admin (u : t) : bool := bool_decide (role u = "admin").
End User.

(** The state a handler works on: the store and the messages flashed to
    the session, oldest first. *)
Record App : Type := mkApp {
  db : Store;
  flashes : list (string * string)
}.

Definition lift_db {A} (m : M Store A) : M App A :=
  λ a, let '(r, s') := m (db a) in (r, mkApp s' (flashes a)).

Definition flash (message category : string) : M App unit :=
  modify (λ a, mkApp (db a) (flashes a ++ [(message, category)])).

Definition abort {S A} (code : Z) : M S A := raise (HTTPException code).

(** A handler that leaves the store as it found it (it may flash). *)
Definition keeps_db {A} (m : M App A) : Prop := ∀ a, db (m a).2 = db a.

Inductive Response (C : Type) : Type :=
  | redirect (endpoint : string) (values : list (string * Z))
  | render_template (template : string) (context : C).
Arguments redirect {C} endpoint values.
Arguments render_template {C} template context.

(** [text or fallback]: Python takes the fallback for [None] and for the
    empty text. *)
Definition or_else (text : option string) (fallback : string) : string :=
  match text with
  | Some (String _ _ as given) => given
  | _ => fallback
  end.

(** Python truthiness of an optional integer id. *)
Definition truthy (x : option Z) : bool :=
  match x with
  | Some n => negb (bool_decide (n = 0))
  | None => false
  end.

(** ** controllers/messaging.py *)

Module controllers_messaging.
Import messages_dao.

(** [MessageForm]: what the request submitted.  [content] carries the
    validators [InputRequired()] and [Length(max=2000)]. *)
Record MessageForm : Type := mkMessageForm {
  is_submitted : bool;
  csrf_valid : bool;
  content : option string
}.

(** [InputRequired]: raw input is present and is not the empty string. *)
Definition InputRequired (raw : option string) : bool :=
  match raw with
  | Some (String _ _) => true
  | _ => false
  end.

(** [Length(max=n)]: [len(field.data) <= n], absent data counting as 0;
    [len] counts the characters of the text, not its bytes. *)
Definition Length_max (n : nat) (data : option string) : bool :=
  match data with
  | Some d => bool_decide (Utf8.len d ≤ n)%nat
  | None => true
  end.

Definition validate_on_submit (form : MessageForm) : bool :=
  is_submitted form && csrf_valid form
  && InputRequired (content form) && Length_max 2000 (content form).

Definition content_data (form : MessageForm) : string := default "" (content form).

(** A content the validators turn down: missing, empty, or longer than
    2000 characters. *)
Definition invalid_content (content : option string) : Prop :=
  content = None ∨ content = Some ""
  ∨ ∃ c, content = Some c ∧ (2000 < Utf8.len c)%nat.

(** [{msg.sender_id for msg in messages} | {msg.receiver_id for msg in messages}] *)
Definition history (messages : list Message.t) : gset Z :=
  list_to_set (Message.sender_id <$> messages)
  ∪ list_to_set (Message.receiver_id <$> messages).

Definition _thread_participants (thread_id : Z) : M Store (gset Z) :=
  thread ← get_thread thread_id;
  match thread with
  | None => abort 404
  | Some thread =>
      messages ← get_messages thread_id;
      let participants := history messages in
      if bool_decide (Thread.context_type thread = "resource")
         && truthy (Thread.context_id thread)
      then
        resource ← resources_dao.get_resource_by_id
                     (default 0 (Thread.context_id thread)) true;
        match resource with
        | Some resource => mret (participants ∪ {[Resource.owner_id resource]})
        | None => mret participants
        end
      else if bool_decide (Thread.context_type thread = "booking")
              && truthy (Thread.context_id thread)
      then
        booking ← bookings_dao.get_booking_by_id (default 0 (Thread.context_id thread));
        match booking with
        | Some booking =>
            let participants := participants ∪ {[Booking.requester_id booking]} in
            resource ← resources_dao.get_resource_by_id (Booking.resource_id booking) true;
            match resource with
            | Some resource => mret (participants ∪ {[Resource.owner_id resource]})
            | None => mret participants
            end
        | None => mret participants
        end
      else mret participants
  end.

Definition _ensure_thread_access (current_user : User.t) (thread_id : Z) :
    M Store (Thread.t * gset Z) :=
  thread ← get_thread thread_id;
  match thread with
  | None => abort 404
  | Some thread =>
      participants ← _thread_participants thread_id;
      if bool_decide (User.user_id current_user ∉ participants)
         && negb (User.is_admin current_user)
      then abort 403
      else mret (thread, participants)
  end.

(** The dictionary [_resolve_context] builds; a key that is not set and
    a key set to [None] are both [None] here. *)
Record Context : Type := mkContext {
  ctx_type : string;
  ctx_id : option Z;
  ctx_resource : option Resource.t;
  ctx_booking : option Booking.t
}.

Definition _resolve_context (thread : Thread.t) : M Store Context :=
  let type := Thread.context_type thread in
  let id := Thread.context_id thread in
  if bool_decide (type = "resource") && truthy id then
    resource ← resources_dao.get_resource_by_id (default 0 id) true;
    mret (mkContext type id resource None)
  else if bool_decide (type = "booking") && truthy id then
    booking ← bookings_dao.get_booking_by_id (default 0 id);
    match booking with
    | Some booking =>
        resource ← resources_dao.get_resource_by_id (Booking.resource_id booking) true;
        mret (mkContext type id resource (Some booking))
    | None => mret (mkContext type id None None)
    end
  else mret (mkContext type id None None).

(** What [messaging_thread.html] is rendered with, the form apart. *)
Record ThreadPage : Type := mkThreadPage {
  page_thread : Thread.t;
  page_messages : list Message.t;
  page_participants : gset Z;
  page_context : Context
}.

(** [except messages_dao.MessagingSchemaError as exc:
      flash(str(exc), "warning")], then the value [fallback]. *)
Definition warn_schema {A} (fallback : A) (e : Exn) : option (M App A) :=
  match e with
  | MessagingSchemaError msg => Some (flash msg "warning";; mret fallback)
  | _ => None
  end.

(** The view [thread]: shows a thread and handles a reply. *)
Definition thread (now : string) (current_user : User.t) (form : MessageForm)
    (thread_id : Z) : M App (Response ThreadPage) :=
  opened ← try_except
    (lift_db (
       access ← _ensure_thread_access current_user thread_id;
       messages ← get_messages thread_id;
       mret (Some (access, messages))))
    (warn_schema None);
  match opened with
  | None => mret (redirect "messaging.inbox" [])
  | Some (thread, participants, messages) =>
      if validate_on_submit form then
        match last messages with
        | None => abort 400
        | Some last_message =>
            let recipient :=
              if bool_decide (Message.sender_id last_message = User.user_id current_user)
              then Message.receiver_id last_message
              else Message.sender_id last_message in
            posted ← try_except
              (lift_db (post_message now thread_id (User.user_id current_user)
                          recipient (content_data form));;
               mret true)
              (warn_schema false);
            if (posted : bool) then
              flash "Message sent." "success";;
              mret (redirect "messaging.thread" [("thread_id", thread_id)])
            else mret (redirect "messaging.inbox" [])
        end
      else
        context ← lift_db (_resolve_context thread);
        mret (render_template "messaging_thread.html"
                (mkThreadPage thread messages participants context))
  end.

(** [ThreadStartForm]: the hidden fields arrive as text; [receiver_id],
    [context_type] and [content] carry [InputRequired()], [content] also
    [Length(max=2000)]. *)
Record ThreadStartForm : Type := mkThreadStartForm {
  start_is_submitted : bool;
  start_csrf_valid : bool;
  start_receiver_id : option string;
  start_context_type : option string;
  start_context_id : option string;
  start_content : option string
}.

Definition start_validate_on_submit (form : ThreadStartForm) : bool :=
  start_is_submitted form && start_csrf_valid form
  && InputRequired (start_receiver_id form)
  && InputRequired (start_context_type form)
  && InputRequired (start_content form) && Length_max 2000 (start_content form).

Definition THREAD_CONTEXTS : list string := ["resource"; "booking"; "general"].

Section start_view.

(** Python's [int] on text, [None] where it raises [ValueError]. *)
Variable int : string → option Z.

Definition parse_int {S} (text : string) : M S Z :=
  match int text with
  | Some n => mret n
  | None => raise (ValueError "invalid literal for int() with base 10")
  end.

(** The view [start]: opens a thread with a first message.  [referrer]
    is [request.referrer], and [back] the redirect to [request.referrer
    or url_for("resources.list_resources")]; a lookup by a NULL id finds
    no row. *)
Definition start (now : string) (current_user : User.t) (referrer : option string)
    (form : ThreadStartForm) : M App (Response unit) :=
  let back := redirect (or_else referrer "resources.list_resources") [] in
  if negb (start_validate_on_submit form) then
    flash "Unable to start conversation. Please try again." "danger";;
    mret back
  else
    let context_type := default "" (start_context_type form) in
    if bool_decide (context_type ∉ THREAD_CONTEXTS) then abort 400
    else
      receiver_id ← parse_int (default "" (start_receiver_id form));
      context_id ← match start_context_id form with
                   | Some (String _ _ as text) => n ← parse_int text; mret (Some n)
                   | _ => mret None
                   end;
      if bool_decide (receiver_id = User.user_id current_user) then
        flash "You cannot start a thread with yourself." "warning";;
        mret back
      else
        (if bool_decide (context_type = "resource") then
           resource ← match context_id with
                      | Some id => lift_db (resources_dao.get_resource_by_id id true)
                      | None => mret None
                      end;
           match resource with
           | None => abort 404
           | Some resource =>
               let allowed_participants : gset Z :=
                 {[Resource.owner_id resource; User.user_id current_user]} in
               if bool_decide (receiver_id ∉ allowed_participants) then abort 403
               else mret tt
           end
         else if bool_decide (context_type = "booking") then
           booking ← (if truthy context_id
                      then lift_db (bookings_dao.get_booking_by_id (default 0 context_id))
                      else mret None);
           match booking with
           | None => abort 404
           | Some booking =>
               resource ← lift_db (resources_dao.get_resource_by_id
                                     (Booking.resource_id booking) true);
               let allowed_participants : gset Z :=
                 {[Booking.requester_id booking]}
                 ∪ match resource with
                   | Some resource => {[Resource.owner_id resource]}
                   | None => ∅
                   end in
               if bool_decide (receiver_id ∉ allowed_participants)
                  || bool_decide (User.user_id current_user ∉ allowed_participants)
               then abort 403
               else mret tt
           end
         else if negb (User.is_admin current_user) then abort 403
         else mret tt);;
        started ← try_except
          (lift_db (
             thread ← create_thread now context_type context_id (User.user_id current_user);
             match thread with
             | None => raise (AttributeError "'NoneType' object has no attribute 'thread_id'")
             | Some thread =>
                 post_message now (Thread.thread_id thread) (User.user_id current_user)
                              receiver_id (default "" (start_content form));;
                 mret (Some thread)
             end))
          (warn_schema None);
        match started with
        | None => mret back
        | Some thread =>
            flash "Conversation started." "success";;
            mret (redirect "messaging.thread" [("thread_id", Thread.thread_id thread)])
        end.

End start_view.

(** An entry of the inbox. *)
Record InboxItem : Type := mkInboxItem {
  item_thread : Thread.t;
  item_context : Context;
  item_last_message : option Message.t;
  item_message_count : Z;
  item_has_unread : bool
}.

(** [for row in thread_rows: ...] of the view [inbox]; the answer [None]
    of a guarded read stands for [break]. *)
Fixpoint inbox_loop (current_user : User.t) (thread_rows : list ThreadSummary.t)
    (threads : list InboxItem) : M App (list InboxItem) :=
  match thread_rows with
  | [] => mret threads
  | row :: rest =>
      found ← try_except
        (thread ← lift_db (get_thread (Thread.thread_id (ThreadSummary.thread row)));
         mret (Some thread))
        (warn_schema None);
      match found with
      | None => mret threads
      | Some None => inbox_loop current_user rest threads
      | Some (Some thread) =>
          read ← try_except
            (last_message ← lift_db (get_last_message (Thread.thread_id thread));
             mret (Some last_message))
            (warn_schema None);
          match read with
          | None => mret threads
          | Some last_message =>
              context ← lift_db (_resolve_context thread);
              inbox_loop current_user rest
                (threads ++
                 [mkInboxItem thread context last_message
                    (ThreadSummary.message_count row)
                    (match last_message with
                     | Some m => negb (bool_decide (Message.sender_id m
                                                    = User.user_id current_user))
                     | None => false
                     end)])
          end
      end
  end.

(** The view [inbox]. *)
Definition inbox (current_user : User.t) : M App (Response (list InboxItem)) :=
  listed ← try_except
    (thread_rows ← lift_db (list_threads_for_user (User.user_id current_user));
     mret (Some thread_rows))
    (warn_schema None);
  match listed with
  | None => mret (render_template "messaging_inbox.html" [])
  | Some thread_rows =>
      threads ← inbox_loop current_user thread_rows [];
      mret (render_template "messaging_inbox.html" threads)
  end.

(** The view [thread_since]: the messages its JSON answer lists, in the
    order of the answer.  [ts] is [request.args.get("ts")]. *)
Definition thread_since (current_user : User.t) (ts : option string) (thread_id : Z) :
    M Store (list Message.t) :=
  allowed ← try_except
    (_ensure_thread_access current_user thread_id;; mret true)
    (λ e, match e with
          | MessagingSchemaError _ => Some (mret false)
          | _ => None
          end);
  if (allowed : bool) then
    match ts with
    | Some (String _ _ as since) =>
        try_except (get_messages_since thread_id since)
          (λ e, match e with
                | MessagingSchemaError _ => Some (mret [])
                | _ => None
                end)
    | _ => abort 400
    end
  else mret [].

End controllers_messaging.

(** ** controllers/auth.py *)

Module controllers_auth.

Definition ALLOWED_ROLES : list string := ["student"; "staff"; "admin"].

(** The decorator [role_required] around a view, for a signed-in user: the
    roles that are not in [ALLOWED_ROLES] are dropped first, and an empty
    remainder checks nothing. *)
Definition role_required {A} (roles : list string) (view : M App A)
    (current_user : User.t) : M App A :=
  let allowed_roles := filter (λ role, role ∈ ALLOWED_ROLES) roles in
  if bool_decide (allowed_roles ≠ [])
     && bool_decide (User.role current_user ∉ allowed_roles)
     && negb (User.is_admin current_user)
  then abort 403
  else view.

Definition role_in {A} (roles : list string) (view : M App A)
    (current_user : User.t) : M App A :=
  role_required (filter (λ role, role ∈ ALLOWED_ROLES) roles) view current_user.

End controllers_auth.

(** ** controllers/bookings.py *)

Module DateTime.
(** A naive [datetime] as [DateTimeLocalField] parses it with the format
    [%Y-%m-%dT%H:%M]: seconds and microseconds are zero. *)
Record t : Type := mk {
  year : Z;
  month : Z;
  day : Z;
  hour : Z;
  minute : Z
}.

Definition then_ (c1 c2 : comparison) : comparison :=
  match c1 with
  | Eq => c2
  | _ => c1
  end.

(** Python compares naive datetimes field by field. *)
Definition compare (a b : t) : comparison :=
  then_ (year a ?= year b)
    (then_ (month a ?= month b)
       (then_ (day a ?= day b)
          (then_ (hour a ?= hour b) (minute a ?= minute b)))).

(** [a >= b] *)
Definition geb (a b : t) : bool :=
  match compare a b with
  | Lt => false
  | _ => true
  end.

(** Decimal text of [n], padded with zeros on the left to [width]. *)
Definition zfill (width : nat) (n : Z) : string :=
  let digits := pretty n in
  String.concat "" (replicate (width - String.length digits) "0") +:+ digits.

(** [isoformat()]: [YYYY-MM-DDTHH:MM:SS]. *)
Definition isoformat (d : t) : string :=
  zfill 4 (year d) +:+ "-" +:+ zfill 2 (month d) +:+ "-" +:+ zfill 2 (day d)
  +:+ "T" +:+ zfill 2 (hour d) +:+ ":" +:+ zfill 2 (minute d) +:+ ":00".
End DateTime.

Module controllers_bookings.

(** [BookingRequestForm] after [validate_on_submit()]: either the form
    is rejected, with [form.errors] (field name and its messages), or it
    yields the two parsed instants. *)
Inductive BookingRequestForm : Type :=
  | rejected_form (errors : list (string * list string))
  | valid_form (start_datetime end_datetime : DateTime.t).

(** [for field, errors in form.errors.items(): for error in errors:
      flash(f"{field}: {error}", "danger")] *)
Fixpoint flash_errors (errors : list (string * list string)) : M App unit :=
  match errors with
  | [] => mret tt
  | (field, messages) :: rest =>
      (fix each (messages : list string) : M App unit :=
         match messages with
         | [] => mret tt
         | error :: more => flash (field +:+ ": " +:+ error) "danger";; each more
         end) messages;;
      flash_errors rest
  end.

(** The view [create]: requests a booking of a resource. *)
Definition create (now : string) (current_user : User.t) (form : BookingRequestForm)
    (resource_id : Z) : M App (Response unit) :=
  resource ← lift_db (resources_dao.get_resource_by_id resource_id true);
  match resource with
  | None => abort 404
  | Some resource =>
      if bool_decide (Resource.status resource = "archived") then abort 404
      else if bool_decide (Resource.status resource = "draft")
              && negb (bool_decide (Resource.owner_id resource = User.user_id current_user))
              && negb (User.is_admin current_user)
      then abort 403
      else
        match form with
        | rejected_form errors =>
            flash_errors errors;;
            mret (redirect "resources.detail" [("resource_id", resource_id)])
        | valid_form start end_ =>
            if DateTime.geb start end_ then
              flash "End time must be after start time." "danger";;
              mret (redirect "resources.detail" [("resource_id", resource_id)])
            else
              let requires_approval := Resource.requires_approval resource in
              booked ← try_except
                (lift_db (bookings_dao.create_booking now resource_id
                            (User.user_id current_user)
                            (DateTime.isoformat start) (DateTime.isoformat end_)
                            requires_approval
                            (if requires_approval then None else Some "Auto-approved"));;
                 mret true)
                (λ e, match e with
                      | ValueError _ =>
                          Some (flash "This time conflicts with an existing booking."
                                      "warning";;
                                mret false)
                      | _ => None
                      end);
              if (booked : bool) then
                (if requires_approval
                 then flash "Booking requested. Await approval from the resource owner."
                            "success"
                 else flash "Booking confirmed and auto-approved." "success");;
                mret (redirect "bookings.my_bookings" [])
              else mret (redirect "resources.detail" [("resource_id", resource_id)])
        end
  end.

Definition _ensure_owner_or_admin (current_user : User.t) (resource_owner_id : Z) :
    M App unit :=
  if bool_decide (User.user_id current_user ≠ resource_owner_id)
     && negb (User.is_admin current_user)
  then abort 403
  else mret tt.

(** [request.form.get("approval_notes") or None] *)
Definition notes_of (approval_notes : option string) : option string :=
  match approval_notes with
  | Some (String _ _ as notes) => Some notes
  | _ => None
  end.

(** The view [my_bookings]. *)
Definition my_bookings (current_user : User.t) : M App (Response (list Booking.t)) :=
  bookings ← lift_db (bookings_dao.list_bookings_for_user (User.user_id current_user));
  mret (render_template "bookings_my.html" bookings).

Fixpoint enrich (pending : list Booking.t) : M App (list (Booking.t * option Resource.t)) :=
  match pending with
  | [] => mret []
  | booking :: rest =>
      resource ← lift_db (resources_dao.get_resource_by_id
                            (Booking.resource_id booking) true);
      enriched ← enrich rest;
      mret ((booking, resource) :: enriched)
  end.

(** The view [pending_approvals], behind [role_in(["staff", "admin"])]. *)
Definition pending_approvals (current_user : User.t) :
    M App (Response (list (Booking.t * option Resource.t))) :=
  controllers_auth.role_in ["staff"; "admin"]
    (pending ← lift_db (if User.is_admin current_user
                        then bookings_dao.list_pending_approvals
                        else bookings_dao.list_pending_for_owner
                               (User.user_id current_user));
     enriched ← enrich pending;
     mret (render_template "bookings_pending.html" enriched))
    current_user.

(** The views [approve] and [reject]: [referrer] is [request.referrer],
    [approval_notes] the field of the posted form. *)
Definition approve (now : string) (current_user : User.t) (approval_notes : option string)
    (referrer : option string) (booking_id : Z) : M App (Response unit) :=
  booking ← lift_db (bookings_dao.get_booking_by_id booking_id);
  match booking with
  | None => abort 404
  | Some booking =>
      resource ← lift_db (resources_dao.get_resource_by_id
                            (Booking.resource_id booking) true);
      match resource with
      | None => abort 404
      | Some resource =>
          _ensure_owner_or_admin current_user (Resource.owner_id resource);;
          lift_db (bookings_dao.approve_booking now booking_id
                     (User.user_id current_user) (notes_of approval_notes));;
          flash "Booking approved." "success";;
          mret (redirect (or_else referrer "bookings.my_bookings") [])
      end
  end.

Definition reject (now : string) (current_user : User.t) (approval_notes : option string)
    (referrer : option string) (booking_id : Z) : M App (Response unit) :=
  booking ← lift_db (bookings_dao.get_booking_by_id booking_id);
  match booking with
  | None => abort 404
  | Some booking =>
      resource ← lift_db (resources_dao.get_resource_by_id
                            (Booking.resource_id booking) true);
      match resource with
      | None => abort 404
      | Some resource =>
          _ensure_owner_or_admin current_user (Resource.owner_id resource);;
          lift_db (bookings_dao.reject_booking now booking_id
                     (User.user_id current_user) (notes_of approval_notes));;
          flash "Booking rejected." "info";;
          mret (redirect (or_else referrer "bookings.my_bookings") [])
      end
  end.

(** The view [cancel]: for the requester or an administrator. *)
Definition cancel (now : string) (current_user : User.t) (booking_id : Z) :
    M App (Response unit) :=
  booking ← lift_db (bookings_dao.get_booking_by_id booking_id);
  match booking with
  | None => abort 404
  | Some booking =>
      if bool_decide (Booking.requester_id booking ≠ User.user_id current_user)
         && negb (User.is_admin current_user)
      then abort 403
      else
        lift_db (bookings_dao.cancel_booking now booking_id);;
        flash "Booking cancelled." "info";;
        mret (redirect "bookings.my_bookings" [])
  end.

(** The view [complete]: for the owner of the resource or an
    administrator. *)
Definition complete (now : string) (current_user : User.t) (referrer : option string)
    (booking_id : Z) : M App (Response unit) :=
  booking ← lift_db (bookings_dao.get_booking_by_id booking_id);
  match booking with
  | None => abort 404
  | Some booking =>
      resource ← lift_db (resources_dao.get_resource_by_id
                            (Booking.resource_id booking) true);
      match resource with
      | None => abort 404
      | Some resource =>
          _ensure_owner_or_admin current_user (Resource.owner_id resource);;
          lift_db (bookings_dao.complete_booking now booking_id);;
          flash "Booking marked as completed." "success";;
          mret (redirect (or_else referrer "bookings.my_bookings") [])
      end
  end.

End controllers_bookings.

(** ** controllers/admin.py *)

Module controllers_admin.
Import messages_dao.

(** [str.title()] on ASCII text: a letter that follows a letter is
    lowered, any other letter is raised. *)
Definition is_lower (c : ascii) : bool :=
  (97 <=? nat_of_ascii c)%nat && (nat_of_ascii c <=? 122)%nat.
Definition is_upper (c : ascii) : bool :=
  (65 <=? nat_of_ascii c)%nat && (nat_of_ascii c <=? 90)%nat.

Fixpoint title_from (after_letter : bool) (text : string) : string :=
  match text with
  | EmptyString => EmptyString
  | String c rest =>
      let c' :=
        if is_lower c && negb after_letter then ascii_of_nat (nat_of_ascii c - 32)
        else if is_upper c && after_letter then ascii_of_nat (nat_of_ascii c + 32)
        else c in
      String c' (title_from (is_lower c || is_upper c) rest)
  end.

Definition title (text : string) : string := title_from false text.

(** An entry of [recent_threads]. *)
Record RecentThread : Type := mkRecentThread {
  thread_id : Z;
  context_label : string;
  last_activity : option string;
  message_preview : option string;
  message_count : Z
}.

Definition context_label_of (thread : Thread.t) : M Store string :=
  let context_label := title (Thread.context_type thread) in
  if bool_decide (Thread.context_type thread = "resource")
     && truthy (Thread.context_id thread)
  then
    resource ← resources_dao.get_resource_by_id (default 0 (Thread.context_id thread)) true;
    match resource with
    | Some resource => mret (Resource.title resource)
    | None => mret context_label
    end
  else if bool_decide (Thread.context_type thread = "booking")
          && truthy (Thread.context_id thread)
  then
    booking ← bookings_dao.get_booking_by_id (default 0 (Thread.context_id thread));
    match booking with
    | Some booking =>
        resource ← resources_dao.get_resource_by_id (Booking.resource_id booking) true;
        match resource with
        | Some resource =>
            mret (Resource.title resource +:+ " (Booking #"
                  +:+ pretty (Booking.booking_id booking) +:+ ")")
        | None => mret ("Booking #" +:+ pretty (Booking.booking_id booking))
        end
    | None => mret context_label
    end
  else mret context_label.

(** [for row in thread_rows[:5]: ...]; the answer [None] of a guarded
    read stands for [break]. *)
Fixpoint recent_threads_loop (rows : list ThreadSummary.t) (recent_threads : list RecentThread) :
    M App (list RecentThread) :=
  match rows with
  | [] => mret recent_threads
  | row :: rest =>
      found ← try_except
        (thread ← lift_db (get_thread (Thread.thread_id (ThreadSummary.thread row)));
         mret (Some thread))
        (controllers_messaging.warn_schema None);
      match found with
      | None => mret recent_threads
      | Some None => recent_threads_loop rest recent_threads
      | Some (Some thread) =>
          context_label ← lift_db (context_label_of thread);
          read ← try_except
            (last_message ← lift_db (get_last_message (Thread.thread_id thread));
             mret (Some last_message))
            (controllers_messaging.warn_schema None);
          match read with
          | None => mret recent_threads
          | Some last_message =>
              recent_threads_loop rest
                (recent_threads ++
                 [mkRecentThread (Thread.thread_id thread) context_label
                    (ThreadSummary.last_activity row)
                    (Message.content <$> last_message)
                    (ThreadSummary.message_count row)])
          end
      end
  end.

(** A row of [recent_bookings]. *)
Record RecentBooking : Type := mkRecentBooking {
  recent_booking_id : Z;
  recent_status : string;
  recent_created_at : string;
  resource_title : string;
  requester_name : string
}.

(** [ORDER BY b.created_at DESC] *)
Definition by_recent (a b : RecentBooking) : Prop :=
  Sql.text_le (recent_created_at b) (recent_created_at a).

Global Instance by_recent_dec a b : Decision (by_recent a b).
Proof. unfold by_recent, Sql.text_le. apply _. Defined.

(** [SELECT b.booking_id, b.status, b.created_at, r.title AS
    resource_title, u.name AS requester_name FROM bookings b JOIN
    resources r ON r.resource_id = b.resource_id JOIN users u ON u.user_id
    = b.requester_id ORDER BY b.created_at DESC LIMIT 5] *)
Definition recent_bookings_query (s : Store) : list RecentBooking :=
  take 5 (Sql.order_by by_recent
            (b ← tbl_bookings s;
             r ← filter (λ r, Resource.resource_id r = Booking.resource_id b)
                        (tbl_resources s);
             u ← filter (λ u, UserRow.user_id u = Booking.requester_id b) (tbl_users s);
             [mkRecentBooking (Booking.booking_id b) (Booking.status b)
                              (Booking.created_at b) (Resource.title r)
                              (UserRow.name u)])).

(** What [admin_dashboard.html] is rendered with: the metrics, the
    recent bookings and the recent threads. *)
Record Dashboard : Type := mkDashboard {
  users_total : Z;
  resources_total : Z;
  active_bookings : Z;
  pending_approvals : Z;
  threads_total : Z;
  recent_bookings : list RecentBooking;
  recent_threads : list RecentThread
}.

Definition count {A} (P : A → Prop) `{∀ x, Decision (P x)} (rows : list A) : Z :=
  Z.of_nat (length (filter P rows)).

(** The view [dashboard], behind [role_required("admin")]. *)
Definition dashboard (current_user : User.t) : M App (Response Dashboard) :=
  controllers_auth.role_required ["admin"]
    (users_total ← lift_db (gets (λ s, Z.of_nat (length (tbl_users s))));
     resources_total ← lift_db (gets (λ s,
       count (λ r, Resource.status r = "published") (tbl_resources s)));
     active_bookings ← lift_db (gets (λ s,
       count (λ b, Booking.status b = "pending" ∨ Booking.status b = "approved")
             (tbl_bookings s)));
     pending_approvals ← lift_db (gets (λ s,
       count (λ b, Booking.status b = "pending") (tbl_bookings s)));
     threads_total ← try_except
       (rows ← lift_db threads_table; mret (Z.of_nat (length rows)))
       (λ e, match e with
             | OperationalError _ => Some (mret 0)
             | _ => None
             end);
     recent_bookings ← lift_db (gets recent_bookings_query);
     thread_rows ← try_except
       (lift_db list_threads_for_admin)
       (λ e, match e with
             | OperationalError msg | MessagingSchemaError msg =>
                 Some (flash msg "warning";; mret [])
             | _ => None
             end);
     recent_threads ← recent_threads_loop (take 5 thread_rows) [];
     mret (render_template "admin_dashboard.html"
             (mkDashboard users_total resources_total active_bookings pending_approvals
                          threads_total recent_bookings recent_threads)))
    current_user.

(** What [admin_thread_detail.html] is rendered with, the form and the
    user records of the participants apart. *)
Record ThreadDetail : Type := mkThreadDetail {
  detail_thread : Thread.t;
  detail_messages : list Message.t;
  detail_context : controllers_messaging.Context
}.

(** The view [thread_detail]: the administrator reads a thread and may
    reply in it. *)
Definition thread_detail (now : string) (current_user : User.t)
    (form : controllers_messaging.MessageForm) (thread_id : Z) :
    M App (Response ThreadDetail) :=
  thread ← lift_db (get_thread thread_id);
  match thread with
  | None => abort 404
  | Some thread =>
      messages ← lift_db (get_messages thread_id);
      match (if controllers_messaging.validate_on_submit form then last messages else None) with
      | Some last_message =>
          let recipient :=
            if negb (bool_decide (Message.sender_id last_message
                                  = User.user_id current_user))
            then Message.sender_id last_message
            else Message.receiver_id last_message in
          lift_db (post_message now thread_id (User.user_id current_user) recipient
                     (controllers_messaging.content_data form));;
          flash "Reply sent." "success";;
          mret (redirect "admin.thread_detail" [("thread_id", thread_id)])
      | None =>
          context ← lift_db (controllers_messaging._resolve_context thread);
          mret (render_template "admin_thread_detail.html"
                  (mkThreadDetail thread messages context))
      end
  end.

(** An entry of the administrator's inbox. *)
Record ThreadItem : Type := mkThreadItem {
  titem_thread : Thread.t;
  titem_context : controllers_messaging.Context;
  titem_message_count : Z;
  titem_last_message : option Message.t
}.

Fixpoint thread_items (rows : list ThreadSummary.t) (items : list ThreadItem) :
    M App (list ThreadItem) :=
  match rows with
  | [] => mret items
  | row :: rest =>
      thread ← lift_db (get_thread (Thread.thread_id (ThreadSummary.thread row)));
      match thread with
      | None => thread_items rest items
      | Some thread =>
          last_message ← lift_db (get_last_message (Thread.thread_id thread));
          context ← lift_db (controllers_messaging._resolve_context thread);
          thread_items rest
            (items ++ [mkThreadItem thread context (ThreadSummary.message_count row)
                                    last_message])
      end
  end.

(** The view [threads], behind [role_required("admin")]; its reads are
    not guarded. *)
Definition threads (current_user : User.t) : M App (Response (list ThreadItem)) :=
  controllers_auth.role_required ["admin"]
    (rows ← lift_db list_threads_for_admin;
     items ← thread_items rows [];
     mret (render_template "admin_threads.html" items))
    current_user.

(** The views [approve_booking] and [reject_booking] of the
    administrator, behind [role_required("admin")]. *)
Definition approve_booking (now : string) (current_user : User.t)
    (approval_notes : option string) (booking_id : Z) : M App (Response unit) :=
  controllers_auth.role_required ["admin"]
    (lift_db (bookings_dao.approve_booking now booking_id (User.user_id current_user)
                (controllers_bookings.notes_of approval_notes));;
     flash "Booking approved." "success";;
     mret (redirect "admin.bookings" []))
    current_user.

Definition reject_booking (now : string) (current_user : User.t)
    (approval_notes : option string) (booking_id : Z) : M App (Response unit) :=
  controllers_auth.role_required ["admin"]
    (lift_db (bookings_dao.reject_booking now booking_id (User.user_id current_user)
                (controllers_bookings.notes_of approval_notes));;
     flash "Booking rejected." "info";;
     mret (redirect "admin.bookings" []))
    current_user.

End controllers_admin.

(** ** The store as the data-access layer builds it *)

(** Rowids are handed out by the store, starting at 1. *)
Definition rowids_positive (s : Store) : Prop :=
  Forall (λ b, 0 < Booking.booking_id b) (tbl_bookings s).

(** ** Sample data *)

Module Sample.

Definition lab : Resource.t := Resource.mk 7 4 "Maker lab" true "published".

Definition asked : Booking.t :=
  Booking.mk 1 7 3 "2025-03-02T09:00:00" "2025-03-02T11:00:00" "pending" None
             "2025-03-01 08:00:00" "2025-03-01 08:00:00".

Definition about_booking : Thread.t :=
  Thread.mk 1 "booking" (Some 1) 3 "2025-03-01 09:00:00".

(** The requester 3 writes to the owner 4; the administrator 9 answers
    the requester, as the view [thread_detail] of the admin pages does. *)
Definition question : MessageRow.t :=
  MessageRow.mk 1 (Some 1) 3 4 "Is the lab free?" "2025-03-01 10:00:00".

Definition answer : MessageRow.t :=
  MessageRow.mk 2 (Some 1) 9 3 "Checking with the owner." "2025-03-01 11:00:00".

(** The requester, the owner of the lab and the administrator. *)
Definition people : list UserRow.t :=
  [UserRow.mk 3 "Sam"; UserRow.mk 4 "Olu"; UserRow.mk 9 "Ada"].

Definition empty : Store := mkStore [] [] (Some []) (Some []) [] [].

Definition unprovisioned : Store := mkStore [] [] None None [] people.

Definition campus : Store :=
  mkStore [asked] [lab] (Some [about_booking]) (Some [question; answer]) [] people.

(** The lab with a second booking, approved, that starts where the first
    one ends. *)
Definition booked : Booking.t :=
  Booking.mk 2 7 5 "2025-03-02T11:00:00" "2025-03-02T12:00:00" "approved"
             (Some "Auto-approved") "2025-03-01 08:30:00" "2025-03-01 08:30:00".

Definition busy : Store :=
  mkStore [asked; booked] [lab] (Some [about_booking]) (Some [question; answer]) [] people.

(** A booking thread nobody has written in yet. *)
Definition quiet : Store :=
  mkStore [asked] [lab] (Some [about_booking]) (Some []) [] people.

Definition long_text : string := String.concat "" (replicate 2001 "x").

(** 1001 accented letters: 2002 bytes. *)
Definition accented : string := String.concat "" (replicate 1001 "é").

(** A reading of [int] for the hidden fields: unsigned decimal text. *)
Fixpoint digits_value (acc : Z) (text : string) : option Z :=
  match text with
  | EmptyString => Some acc
  | String c rest =>
      let n := nat_of_ascii c in
      if (48 <=? n)%nat && (n <=? 57)%nat
      then digits_value (10 * acc + Z.of_nat (n - 48)) rest
      else None
  end.

Definition decimal (text : string) : option Z :=
  match text with
  | EmptyString => None
  | _ => digits_value 0 text
  end.

End Sample.

(** ** Further notions used by the properties *)

(** [after] is [before] without the bookings numbered [bid]. *)
Definition leaves_queue (bid : Z) (before after : list Booking.t) : Prop :=
  ∀ b, b ∈ after ↔ b ∈ before ∧ Booking.booking_id b ≠ bid.

(** The pending bookings as [list_pending_approvals] reports them. *)
Definition pending_queue (s : Store) : list Booking.t :=
  match (bookings_dao.list_pending_approvals s).1 with
  | Ok queue => queue
  | Raise _ => []
  end.

(** A user is related to the thread [t] as sender or receiver of one of
    its messages, as owner of the resource it is about, or as requester of
    the booking it is about or owner of that booking's resource. *)
Definition related (s : Store) (t : Thread.t) (u : Z) : Prop :=
  (∃ ms m, tbl_messages s = Some ms ∧ m ∈ ms
           ∧ MessageRow.thread_id m = Some (Thread.thread_id t)
           ∧ (MessageRow.sender_id m = u ∨ MessageRow.receiver_id m = u))
  ∨ (Thread.context_type t = "resource"
     ∧ ∃ r, r ∈ tbl_resources s ∧ Some (Resource.resource_id r) = Thread.context_id t
            ∧ Resource.owner_id r = u)
  ∨ (Thread.context_type t = "booking"
     ∧ ∃ b, b ∈ tbl_bookings s ∧ Some (Booking.booking_id b) = Thread.context_id t
            ∧ (Booking.requester_id b = u
               ∨ ∃ r, r ∈ tbl_resources s
                      ∧ Resource.resource_id r = Booking.resource_id b
                      ∧ Resource.owner_id r = u)).

(** What an entry of the inbox shows for a row of the listing. *)
Definition shows (user : User.t) (s : Store) (row : ThreadSummary.t)
    (item : controllers_messaging.InboxItem) : Prop :=
  let thread := controllers_messaging.item_thread item in
  let last_message := controllers_messaging.item_last_message item in
  Thread.thread_id thread = Thread.thread_id (ThreadSummary.thread row)
  ∧ controllers_messaging.item_message_count item = ThreadSummary.message_count row
  ∧ messages_dao.get_last_message (Thread.thread_id (ThreadSummary.thread row)) s
    = (Ok last_message, s)
  ∧ controllers_messaging._resolve_context thread s
    = (Ok (controllers_messaging.item_context item), s)
  ∧ controllers_messaging.item_has_unread item
    = match last_message with
      | Some m => negb (bool_decide (Message.sender_id m = User.user_id user))
      | None => false
      end.


(** What an entry of the administrator's inbox shows for a row of the
    listing. *)
Definition lists (s : Store) (row : ThreadSummary.t)
    (item : controllers_admin.ThreadItem) : Prop :=
  let tid := Thread.thread_id (ThreadSummary.thread row) in
  let thread := controllers_admin.titem_thread item in
  messages_dao.get_thread tid s = (Ok (Some thread), s)
  ∧ controllers_admin.titem_message_count item = ThreadSummary.message_count row
  ∧ messages_dao.get_last_message tid s = (Ok (controllers_admin.titem_last_message item), s)
  ∧ controllers_messaging._resolve_context thread s
    = (Ok (controllers_admin.titem_context item), s).

(** The ranges of the fields of a [datetime]: years have at most four
    digits, the other fields two. *)
Definition in_range (d : DateTime.t) : Prop :=
  1 ≤ DateTime.year d ≤ 9999 ∧ 1 ≤ DateTime.month d ≤ 12 ∧ 1 ≤ DateTime.day d ≤ 31
  ∧ 0 ≤ DateTime.hour d ≤ 23 ∧ 0 ≤ DateTime.minute d ≤ 59.

(** The text is the [isoformat()] of the instant [d]. *)
Definition written_as (text : string) (d : DateTime.t) : Prop :=
  in_range d ∧ text = DateTime.isoformat d.

(** The half-open overlap test on instants, [NOT (existing.end <= start
    OR existing.start >= end)], for a booking from [a] to [e]. *)
Definition instants_overlap (a e start end_ : DateTime.t) : Prop :=
  ¬ (DateTime.geb start e = true ∨ DateTime.geb a end_ = true).

(** * Properties *)

(** ** Text order *)

Lemma text_le_refl (a : string) : Sql.text_le a a.
Proof.
  unfold Sql.text_le. by destruct (String.leb_total a a) as [-> | ->].
Qed.

Global Instance text_le_total : Total Sql.text_le.
Proof.
  intros a b. unfold Sql.text_le.
  destruct (String.leb_total a b) as [-> | ->]; simpl; auto.
Qed.

(** ** Rowids *)

Section ordering.
Context {A} (R : relation A) `{∀ x y, Decision (R x y)}.

Lemma insert_row_Permutation (x : A) (rows : list A) :
  Sql.insert_row R x rows ≡ₚ x :: rows.
Proof.
  induction rows as [| y rows IH]; simpl; [done |].
  destruct (decide (R x y)); [done |]. by rewrite IH, Permutation_swap.
Qed.

Lemma order_by_Permutation (rows : list A) : Sql.order_by R rows ≡ₚ rows.
Proof.
  induction rows as [| x rows IH]; simpl; [done |].
  by rewrite insert_row_Permutation, IH.
Qed.

Lemma insert_row_Sorted `{!Total R} (x : A) (rows : list A) :
  Sorted R rows → Sorted R (Sql.insert_row R x rows).
Proof.
  induction 1 as [| y rows Hsorted IH Hhead]; simpl.
  { by repeat constructor. }
  destruct (decide (R x y)) as [Hxy | Hxy].
  { by repeat constructor. }
  constructor; [done |].
  destruct (total R x y) as [? | Hyx]; [done |].
  destruct Hhead as [| z rows Hyz]; simpl; [by constructor |].
  destruct (decide (R x z)); by constructor.
Qed.

Lemma Sorted_order_by `{!Total R} (rows : list A) : Sorted R (Sql.order_by R rows).
Proof.
  induction rows as [| x rows IH]; simpl; [constructor | by apply insert_row_Sorted].
Qed.

(** Rows with equal keys keep their order: a row that goes before every
    row of an ordered listing is put in front of it. *)
Lemma insert_row_first (x : A) (rows : list A) :
  Forall (R x) rows → Sql.insert_row R x rows = x :: rows.
Proof. destruct 1 as [| y rows Hxy _]; simpl; [done |]. by rewrite decide_True. Qed.

End ordering.

Lemma next_rowid_gt (ids : list Z) (i : Z) : i ∈ ids → i < Sql.next_rowid ids.
Proof.
  unfold Sql.next_rowid. induction 1 as [i ids | i j ids _ IH]; simpl; lia.
Qed.

Lemma next_rowid_pos (ids : list Z) : 0 < Sql.next_rowid ids.
Proof.
  unfold Sql.next_rowid. induction ids as [| i ids IH]; simpl; lia.
Qed.

Lemma next_rowid_fresh (ids : list Z) : Sql.next_rowid ids ∉ ids.
Proof. intros H%next_rowid_gt. lia. Qed.

(** ** Queries on lists of rows *)

Lemma filter_none {A} (P : A → Prop) `{∀ x, Decision (P x)} (rows : list A) :
  Forall (λ r, ¬ P r) rows → filter P rows = [].
Proof.
  induction 1 as [| r rows Hr _ IH]; [done |].
  by rewrite filter_cons_False.
Qed.

(** ** Booking engine *)

Section booking_engine.
Import Booking bookings_dao.

Lemma conflict_rows_spec rid start_value end_value rows b :
  b ∈ conflict_rows rid start_value end_value None rows
  ↔ b ∈ rows ∧ clashes rid start_value end_value b.
Proof.
  unfold conflict_rows, clashes, is_active, overlaps, not_excluded, Sql.text_le.
  rewrite list_elem_of_filter.
  rewrite andb_true_r, !andb_True, orb_True, negb_True, orb_True.
  rewrite !bool_decide_spec. tauto.
Qed.

Lemma has_conflict_run rid start_value end_value exclude s :
  has_conflict rid start_value end_value exclude s
  = (Ok (bool_decide
           (Sql.fetchone (conflict_rows rid start_value end_value exclude (tbl_bookings s))
            ≠ None)), s).
Proof. reflexivity. Qed.

Lemma fetchone_is_row {A} (rows : list A) :
  Sql.fetchone rows ≠ None ↔ ∃ r, r ∈ rows.
Proof.
  destruct rows as [| r rows]; simpl.
  - split; [congruence | intros [r Hr]; by apply elem_of_nil in Hr].
  - split; [intros _; exists r; left | congruence].
Qed.

Lemma has_conflict_true rid start_value end_value s :
  (has_conflict rid start_value end_value None s).1 = Ok true
  ↔ ∃ b, b ∈ tbl_bookings s ∧ clashes rid start_value end_value b.
Proof.
  rewrite has_conflict_run. simpl.
  split.
  - intros [= H%bool_decide_eq_true]. apply fetchone_is_row in H as [b Hb].
    exists b. by apply conflict_rows_spec.
  - intros [b Hb]. f_equal. apply bool_decide_eq_true, fetchone_is_row.
    exists b. by apply conflict_rows_spec.
Qed.

Lemma get_booking_by_id_run bid s :
  get_booking_by_id bid s
  = (Ok (_row_to_booking <$> Sql.fetchone (filter (λ b, booking_id b = bid) (tbl_bookings s))), s).
Proof. reflexivity. Qed.

Lemma _row_to_booking_id (row : Booking.t) : _row_to_booking row = row.
Proof. by destruct row. Qed.

Lemma create_booking_run now rid uid start_value end_value ra notes s :
  create_booking now rid uid start_value end_value ra notes s
  = if bool_decide
         (Sql.fetchone (conflict_rows rid start_value end_value None (tbl_bookings s)) ≠ None)
    then (Raise (ValueError conflict_message), s)
    else
      let row := new_booking_row now (tbl_bookings s) rid uid start_value end_value
                   (if ra then "pending" else "approved") notes in
      (Ok (Some row), set_bookings (λ rows, rows ++ [row]) s).
Proof.
  unfold create_booking. unfold mbind, M_bind, bind at 1. rewrite has_conflict_run.
  case_bool_decide as Hc; [reflexivity |].
  cbv zeta.
  unfold mbind, M_bind, bind, insert_booking, gets, modify, mret, M_ret, ret. simpl.
  rewrite get_booking_by_id_run. simpl. f_equal. f_equal.
  set (row := new_booking_row _ _ _ _ _ _ _ _).
  rewrite filter_app, filter_cons_True, filter_nil by done.
  rewrite (filter_none _ (tbl_bookings s)).
  - simpl. by rewrite _row_to_booking_id.
  - apply Forall_forall. intros b Hb Heq.
    apply (next_rowid_fresh (booking_id <$> tbl_bookings s)).
    rewrite <- Heq. by apply list_elem_of_fmap_2.
Qed.

Lemma update_rows {A} (where_ : A → bool) (set : A → A) (rows : list A) :
  Forall2 (λ r r', r' = if where_ r then set r else r) rows (Sql.update where_ set rows).
Proof. unfold Sql.update. induction rows; constructor; auto. Qed.

Lemma create_booking_cases now rid uid start_value end_value (ra : bool) notes (s : Store) :
  let row := new_booking_row now (tbl_bookings s) rid uid start_value end_value
               (if ra then "pending" else "approved") notes in
  ((∃ b, b ∈ tbl_bookings s ∧ clashes rid start_value end_value b)
   ∧ create_booking now rid uid start_value end_value ra notes s
     = (Raise (ValueError conflict_message), s))
  ∨ ((¬ ∃ b, b ∈ tbl_bookings s ∧ clashes rid start_value end_value b)
     ∧ create_booking now rid uid start_value end_value ra notes s
       = (Ok (Some row), set_bookings (λ rows, rows ++ [row]) s)).
Proof.
  intros row. rewrite create_booking_run. fold row.
  assert (Hiff : Sql.fetchone (conflict_rows rid start_value end_value None (tbl_bookings s))
                 ≠ None
                 ↔ ∃ b, b ∈ tbl_bookings s ∧ clashes rid start_value end_value b).
  { rewrite fetchone_is_row. by setoid_rewrite conflict_rows_spec. }
  case_bool_decide as Hc; [left | right]; (split; [| reflexivity]).
  - by apply Hiff.
  - intros Hb%Hiff. done.
Qed.

(** C1 fails on [create_booking]: the overlap test orders the ISO texts
    byte by byte, not the instants they denote.  An approved booking holds
    the resource from 09:00 to 11:00 UTC.  A request from 10:00 to 10:30
    UTC is turned down when it is written with the same offset, but the
    same request written with the offset +02:00, 12:00 to 12:30, is
    stored, since its text is above that of 11:00 UTC; so is a request
    from 09:15 to 10:15 whose text has the separator [T] where the stored
    booking has a space. *)
Theorem create_booking_admits_overlapping_request :
  let now := "2025-03-01 09:00:00" in
  let held := Booking.mk 1 7 3 "2025-03-02T09:00:00+00:00" "2025-03-02T11:00:00+00:00"
                         "approved" None "2025-03-01 08:00:00" "2025-03-01 08:00:00" in
  let s := mkStore [held] [] (Some []) (Some []) [] [] in
  let same_offset := create_booking now 7 4 "2025-03-02T10:00:00+00:00"
                       "2025-03-02T10:30:00+00:00" true None s in
  let other_offset := create_booking now 7 4 "2025-03-02T12:00:00+02:00"
                        "2025-03-02T12:30:00+02:00" true None s in
  let spaced := Booking.mk 1 7 3 "2025-03-02 09:00:00" "2025-03-02 11:00:00"
                           "approved" None "2025-03-01 08:00:00" "2025-03-01 08:00:00" in
  let s' := mkStore [spaced] [] (Some []) (Some []) [] [] in
  let other_separator := create_booking now 7 4 "2025-03-02T09:15:00"
                           "2025-03-02T10:15:00" true None s' in
  same_offset = (Raise (ValueError conflict_message), s)
  ∧ other_offset.1
    = Ok (Some (Booking.mk 2 7 4 "2025-03-02T12:00:00+02:00" "2025-03-02T12:30:00+02:00"
                           "pending" None now now))
  ∧ tbl_bookings other_offset.2
    = [held; Booking.mk 2 7 4 "2025-03-02T12:00:00+02:00" "2025-03-02T12:30:00+02:00"
                        "pending" None now now]
  ∧ other_separator.1
    = Ok (Some (Booking.mk 2 7 4 "2025-03-02T09:15:00" "2025-03-02T10:15:00"
                           "pending" None now now))
  ∧ tbl_bookings other_separator.2
    = [spaced; Booking.mk 2 7 4 "2025-03-02T09:15:00" "2025-03-02T10:15:00"
                          "pending" None now now].
Proof. repeat split; vm_compute; reflexivity. Qed.

(** X2: the overlap law of the bookings table, on the stored texts as
    the store compares them, is kept by [create_booking]: if of every two
    distinct active bookings of a resource one has its end text at or
    below the start text of the other before the call, so it is after it,
    whether the call stores the booking or raises the conflict error. *)
Lemma create_booking_no_overlap now rid uid start_value end_value ra notes (s : Store) :
  no_overlap (tbl_bookings s) →
  no_overlap (tbl_bookings (create_booking now rid uid start_value end_value ra notes s).2).
Proof.
  intros Hold.
  pose proof (create_booking_cases now rid uid start_value end_value ra notes s) as Hrun.
  cbv zeta in Hrun. destruct Hrun as [[_ ->] | [Hfree ->]]; [done |]. simpl.
  set (row := new_booking_row _ _ _ _ _ _ _ _).
  assert (Hrow : ∀ b, b ∈ tbl_bookings s → resource_id b = rid →
            status b = "pending" ∨ status b = "approved" →
            Sql.text_le (end_datetime b) start_value
            ∨ Sql.text_le end_value (start_datetime b)).
  { intros b Hb Hrid Hact.
    destruct (decide (Sql.text_le (end_datetime b) start_value)); [by left |].
    destruct (decide (Sql.text_le end_value (start_datetime b))); [by right |].
    destruct Hfree. exists b. unfold clashes. tauto. }
  intros i j a b Hij Hi Hj Hres Ha Hb.
  apply lookup_app_Some in Hi as [Hi | [Hlen Hi]];
    apply lookup_app_Some in Hj as [Hj | [Hlen' Hj]].
  - by apply (Hold i j a b).
  - apply list_lookup_singleton_Some in Hj as [_ <-].
    apply list_elem_of_lookup_2 in Hi.
    destruct (Hrow a Hi Hres Ha); [by left | by right].
  - apply list_lookup_singleton_Some in Hi as [_ <-].
    apply list_elem_of_lookup_2 in Hj.
    destruct (Hrow b Hj (eq_sym Hres) Hb); [by right | by left].
  - apply list_lookup_singleton_Some in Hi as [Hi _].
    apply list_lookup_singleton_Some in Hj as [Hj _]. lia.
Qed.

(** Scenario 2 of the booking engine: an approved booking 09:00-11:00
    blocks 09:15-10:15 and admits 11:00-12:00. *)
Example create_booking_scenario :
  let held := Booking.mk 1 7 3 "2025-03-02T09:00:00" "2025-03-02T11:00:00"
                         "approved" None "2025-03-01 08:00:00" "2025-03-01 08:00:00" in
  let s := mkStore [held] [] (Some []) (Some []) [] [] in
  create_booking "2025-03-01 09:00:00" 7 4 "2025-03-02T09:15:00" "2025-03-02T10:15:00"
                 true None s
  = (Raise (ValueError conflict_message), s)
  ∧ (create_booking "2025-03-01 09:00:00" 7 4 "2025-03-02T11:00:00" "2025-03-02T12:00:00"
                    true None s).1
    = Ok (Some (Booking.mk 2 7 4 "2025-03-02T11:00:00" "2025-03-02T12:00:00"
                           "pending" None "2025-03-01 09:00:00" "2025-03-01 09:00:00")).
Proof. split; reflexivity. Qed.

(** C5: a successful [create_booking] returns a booking that is pending
    when approval is required and approved otherwise, that carries the
    arguments of the call, and that is the row just appended to the
    table: reading it back by its id gives the same entity. *)
Theorem create_booking_initial_status now rid uid start_value end_value ra notes
    (s s' : Store) (r : option Booking.t) :
  create_booking now rid uid start_value end_value ra notes s = (Ok r, s') →
  ∃ bk, r = Some bk
    ∧ status bk = (if ra then "pending" else "approved")
    ∧ (status bk = "pending" ∨ status bk = "approved")
    ∧ resource_id bk = rid ∧ requester_id bk = uid
    ∧ start_datetime bk = start_value ∧ end_datetime bk = end_value
    ∧ approval_notes bk = notes
    ∧ (booking_id bk ∉ booking_id <$> tbl_bookings s)
    ∧ tbl_bookings s' = tbl_bookings s ++ [bk]
    ∧ get_booking_by_id (booking_id bk) s' = (Ok (Some bk), s').
Proof.
  rewrite create_booking_run. case_bool_decide as Hc; [discriminate |].
  cbv zeta. intros [= <- <-].
  eexists. split; [reflexivity |]. simpl.
  repeat split; try done.
  - destruct ra; auto.
  - apply next_rowid_fresh.
  - rewrite get_booking_by_id_run. simpl. f_equal. f_equal.
    rewrite filter_app, filter_cons_True, filter_nil by done.
    rewrite (filter_none _ (tbl_bookings s)); [done |].
    apply Forall_forall. intros b Hb Heq.
    apply (next_rowid_fresh (booking_id <$> tbl_bookings s)).
    simpl in Heq. rewrite <- Heq. by apply list_elem_of_fmap_2.
Qed.

Lemma create_booking_initial_status_witness :
  let made := Booking.mk 1 7 4 "2025-03-02T11:00:00" "2025-03-02T12:00:00" "approved"
                         (Some "Auto-approved")
                         "2025-03-01 09:00:00" "2025-03-01 09:00:00" in
  let after := mkStore [made] [] (Some []) (Some []) [] [] in
  ∃ bk, Some made = Some bk
    ∧ status bk = "approved"
    ∧ (status bk = "pending" ∨ status bk = "approved")
    ∧ resource_id bk = 7 ∧ requester_id bk = 4
    ∧ start_datetime bk = "2025-03-02T11:00:00" ∧ end_datetime bk = "2025-03-02T12:00:00"
    ∧ approval_notes bk = Some "Auto-approved"
    ∧ (booking_id bk ∉ booking_id <$> tbl_bookings Sample.empty)
    ∧ tbl_bookings after = tbl_bookings Sample.empty ++ [bk]
    ∧ get_booking_by_id (booking_id bk) after = (Ok (Some bk), after).
Proof.
  apply (create_booking_initial_status "2025-03-01 09:00:00" 7 4
           "2025-03-02T11:00:00" "2025-03-02T12:00:00" false (Some "Auto-approved")
           Sample.empty).
  reflexivity.
Defined.

Lemma decided_rows st notes now bid (rows : list Booking.t) :
  Forall2 (decided st notes now bid) rows
    (Sql.update (λ b, bool_decide (booking_id b = bid) && bool_decide (status b = "pending"))
                (with_decision st notes now) rows).
Proof.
  eapply Forall2_impl; [apply update_rows |].
  intros b b' ->. unfold decided.
  destruct (decide (booking_id b = bid ∧ status b = "pending")) as [[Hid Hst] | Hno].
  - rewrite !bool_decide_eq_true_2 by done. simpl.
    split; [intros _; by repeat split | tauto].
  - destruct (bool_decide (booking_id b = bid) && bool_decide (status b = "pending")) eqn:Hw.
    + apply andb_true_iff in Hw as [?%bool_decide_eq_true ?%bool_decide_eq_true]. tauto.
    + tauto.
Qed.

Lemma forced_rows st now bid (rows : list Booking.t) :
  Forall2 (forced st now bid) rows
    (Sql.update (λ b, bool_decide (booking_id b = bid)) (with_status st now) rows).
Proof.
  eapply Forall2_impl; [apply update_rows |].
  intros b b' ->. unfold forced. case_bool_decide; simpl.
  - split; [intros _; by repeat split | tauto].
  - tauto.
Qed.

Lemma decision_is_final st st' notes notes' now now' bid (rows : list Booking.t) :
  st ≠ "pending" →
  Sql.update (λ b, bool_decide (booking_id b = bid) && bool_decide (status b = "pending"))
             (with_decision st' notes' now')
    (Sql.update (λ b, bool_decide (booking_id b = bid) && bool_decide (status b = "pending"))
                (with_decision st notes now) rows)
  = Sql.update (λ b, bool_decide (booking_id b = bid) && bool_decide (status b = "pending"))
               (with_decision st notes now) rows.
Proof.
  intros Hst. unfold Sql.update. rewrite <- list_fmap_compose.
  apply list_fmap_ext. intros _ b _. simpl.
  destruct (bool_decide (booking_id b = bid) && bool_decide (status b = "pending")) eqn:Hw.
  - simpl. by rewrite (bool_decide_eq_false_2 (st = "pending")), andb_false_r.
  - by rewrite Hw.
Qed.

(** C4: [approve_booking] never raises; it turns the booking [bid] into
    an approved one carrying the notes only when that booking is pending
    and leaves every other row, and [bid] itself in any other status, as
    it was; a second approval changes no booking.  [reject_booking] does
    the same with the status rejected. *)
Theorem approve_booking_conditional now bid approver notes (s : Store) :
  let a := approve_booking now bid approver notes s in
  let r := reject_booking now bid approver notes s in
  (a.1 = Ok tt
   ∧ Forall2 (decided "approved" notes now bid) (tbl_bookings s) (tbl_bookings a.2)
   ∧ ∀ now' approver' notes',
       (approve_booking now' bid approver' notes' a.2).1 = Ok tt
       ∧ tbl_bookings (approve_booking now' bid approver' notes' a.2).2 = tbl_bookings a.2)
  ∧ (r.1 = Ok tt
     ∧ Forall2 (decided "rejected" notes now bid) (tbl_bookings s) (tbl_bookings r.2)
     ∧ ∀ now' approver' notes',
         (reject_booking now' bid approver' notes' r.2).1 = Ok tt
         ∧ tbl_bookings (reject_booking now' bid approver' notes' r.2).2 = tbl_bookings r.2).
Proof.
  simpl. split; (split; [reflexivity | split; [apply decided_rows |]]).
  - intros now' approver' notes'. split; [reflexivity |]. by apply decision_is_final.
  - intros now' approver' notes'. split; [reflexivity |]. by apply decision_is_final.
Qed.

(** Scenario 1 of the booking engine: a pending booking is approved with
    notes, and approving it again leaves it as it is. *)
Example approve_booking_scenario :
  let asked := Booking.mk 1 7 3 "2025-03-02T09:00:00" "2025-03-02T11:00:00"
                          "pending" None "2025-03-01 08:00:00" "2025-03-01 08:00:00" in
  let s := mkStore [asked] [] (Some []) (Some []) [] [] in
  let s1 := (approve_booking "2025-03-01 09:00:00" 1 5 (Some "ok") s).2 in
  let s2 := (approve_booking "2025-03-01 10:00:00" 1 5 None s1).2 in
  tbl_bookings s1
  = [Booking.mk 1 7 3 "2025-03-02T09:00:00" "2025-03-02T11:00:00"
                "approved" (Some "ok") "2025-03-01 08:00:00" "2025-03-01 09:00:00"]
  ∧ tbl_bookings s2 = tbl_bookings s1
  ∧ length (tbl_admin_logs s2) = 2%nat.
Proof. repeat split. Qed.

(** C8: [cancel_booking] and [complete_booking] never raise; whatever the
    status of the booking [bid], they set it to cancelled, respectively
    completed, and refresh [updated_at]; the other fields of that booking,
    every other booking and every other table stay as they were. *)
Theorem cancel_complete_unconditional now bid (s : Store) :
  let c := cancel_booking now bid s in
  let d := complete_booking now bid s in
  (c.1 = Ok tt
   ∧ Forall2 (forced "cancelled" now bid) (tbl_bookings s) (tbl_bookings c.2)
   ∧ tbl_resources c.2 = tbl_resources s ∧ tbl_threads c.2 = tbl_threads s
   ∧ tbl_messages c.2 = tbl_messages s ∧ tbl_admin_logs c.2 = tbl_admin_logs s
   ∧ tbl_users c.2 = tbl_users s)
  ∧ (d.1 = Ok tt
     ∧ Forall2 (forced "completed" now bid) (tbl_bookings s) (tbl_bookings d.2)
     ∧ tbl_resources d.2 = tbl_resources s ∧ tbl_threads d.2 = tbl_threads s
     ∧ tbl_messages d.2 = tbl_messages s ∧ tbl_admin_logs d.2 = tbl_admin_logs s
     ∧ tbl_users d.2 = tbl_users s).
Proof.
  simpl. split; (split; [reflexivity | split; [apply forced_rows | done]]).
Qed.

(** A rejected booking can still be cancelled and then completed. *)
Example cancel_terminal_booking :
  let gone := Booking.mk 1 7 3 "2025-03-02T09:00:00" "2025-03-02T11:00:00"
                         "rejected" (Some "no") "2025-03-01 08:00:00" "2025-03-01 08:30:00" in
  let s := mkStore [gone] [] (Some []) (Some []) [] [] in
  let s1 := (cancel_booking "2025-03-01 09:00:00" 1 s).2 in
  let s2 := (complete_booking "2025-03-01 10:00:00" 1 s1).2 in
  status <$> tbl_bookings s1 = ["cancelled"]
  ∧ status <$> tbl_bookings s2 = ["completed"]
  ∧ approval_notes <$> tbl_bookings s2 = [Some "no"].
Proof. repeat split. Qed.

End booking_engine.

(** ** Computations that only read *)

Lemma read_only_ret {S A} (a : A) : read_only (mret a : M S A).
Proof. by intros s. Qed.

Lemma read_only_raise {S A} (e : Exn) : read_only (raise e : M S A).
Proof. by intros s. Qed.

Lemma read_only_gets {S A} (f : S → A) : read_only (gets f).
Proof. by intros s. Qed.

Lemma read_only_bind {S A B} (m : M S A) (k : A → M S B) :
  read_only m → (∀ a, read_only (k a)) → read_only (m ≫= k).
Proof.
  intros Hm Hk s. unfold mbind, M_bind, bind.
  specialize (Hm s). destruct (m s) as [[a | e] s']; simpl in *; subst; [apply Hk | done].
Qed.

Lemma read_only_try_except {S A} (m : M S A) (h : Exn → option (M S A)) :
  read_only m → (∀ e k, h e = Some k → read_only k) → read_only (try_except m h).
Proof.
  intros Hm Hh s. unfold try_except.
  specialize (Hm s). destruct (m s) as [[a | e] s']; simpl in *; subst; [done |].
  destruct (h e) as [k |] eqn:He; [by apply (Hh e k) | done].
Qed.

Lemma read_only_schema_guard {A} (m : M Store A) :
  read_only m → read_only (messages_dao.schema_guard m).
Proof.
  intros Hm. apply read_only_try_except; [done |].
  intros [] k [= <-]. apply read_only_raise.
Qed.

Lemma read_only_threads_table : read_only threads_table.
Proof. intros s. unfold threads_table. by destruct (tbl_threads s). Qed.

Lemma read_only_messages_table : read_only messages_table.
Proof. intros s. unfold messages_table. by destruct (tbl_messages s). Qed.

Create HintDb read_only.
#[export] Hint Resolve read_only_ret read_only_raise read_only_gets
  read_only_threads_table read_only_messages_table : read_only.
#[export] Hint Extern 2 (read_only (_ ≫= _)) =>
  apply read_only_bind; [| intros ?] : read_only.
#[export] Hint Extern 2 (read_only (messages_dao.schema_guard _)) =>
  apply read_only_schema_guard : read_only.
#[export] Hint Extern 3 (read_only (match ?x with _ => _ end)) => destruct x : read_only.
#[export] Hint Extern 1 (read_only (abort _)) => apply read_only_raise : read_only.

Lemma read_only_get_thread tid : read_only (messages_dao.get_thread tid).
Proof. unfold messages_dao.get_thread. auto 10 with read_only. Qed.

Lemma read_only_get_messages tid : read_only (messages_dao.get_messages tid).
Proof. unfold messages_dao.get_messages. auto 10 with read_only. Qed.

Lemma read_only_get_booking_by_id bid : read_only (bookings_dao.get_booking_by_id bid).
Proof. unfold bookings_dao.get_booking_by_id. auto 10 with read_only. Qed.

Lemma read_only_get_resource_by_id rid unpublished :
  read_only (resources_dao.get_resource_by_id rid unpublished).
Proof. unfold resources_dao.get_resource_by_id. auto 10 with read_only. Qed.

#[export] Hint Resolve read_only_get_thread read_only_get_messages
  read_only_get_booking_by_id read_only_get_resource_by_id : read_only.

Lemma read_only__thread_participants tid :
  read_only (controllers_messaging._thread_participants tid).
Proof. unfold controllers_messaging._thread_participants. auto 20 with read_only. Qed.

#[export] Hint Resolve read_only__thread_participants : read_only.

Lemma read_only__ensure_thread_access user tid :
  read_only (controllers_messaging._ensure_thread_access user tid).
Proof. unfold controllers_messaging._ensure_thread_access. auto 20 with read_only. Qed.

Lemma read_only__resolve_context thread :
  read_only (controllers_messaging._resolve_context thread).
Proof. unfold controllers_messaging._resolve_context. auto 20 with read_only. Qed.

#[export] Hint Resolve read_only__ensure_thread_access read_only__resolve_context : read_only.

(** ** Handlers that leave the store alone *)

Lemma keeps_db_ret {A} (a : A) : keeps_db (mret a).
Proof. by intros a'. Qed.

Lemma keeps_db_raise {A} (e : Exn) : keeps_db (raise e : M App A).
Proof. by intros a. Qed.

Lemma keeps_db_flash message category : keeps_db (flash message category).
Proof. by intros a. Qed.

Lemma keeps_db_lift {A} (m : M Store A) : read_only m → keeps_db (lift_db m).
Proof.
  intros Hm a. unfold lift_db. specialize (Hm (db a)).
  destruct (m (db a)) as [r s']. simpl in *. by subst.
Qed.

Lemma keeps_db_bind {A B} (m : M App A) (k : A → M App B) :
  keeps_db m → (∀ a, keeps_db (k a)) → keeps_db (m ≫= k).
Proof.
  intros Hm Hk a. unfold mbind, M_bind, bind.
  specialize (Hm a). destruct (m a) as [[x | e] a']; simpl in *; [| done].
  by rewrite Hk.
Qed.

Lemma keeps_db_try_except {A} (m : M App A) (h : Exn → option (M App A)) :
  keeps_db m → (∀ e k, h e = Some k → keeps_db k) → keeps_db (try_except m h).
Proof.
  intros Hm Hh a. unfold try_except.
  specialize (Hm a). destruct (m a) as [[x | e] a']; simpl in *; [done |].
  destruct (h e) as [k |] eqn:He; [| done].
  by rewrite (Hh e k He).
Qed.

Lemma keeps_db_warn_schema {A} (fallback : A) e k :
  controllers_messaging.warn_schema fallback e = Some k → keeps_db k.
Proof.
  destruct e; intros [= <-].
  apply keeps_db_bind; [apply keeps_db_flash | intros; apply keeps_db_ret].
Qed.

Create HintDb keeps_db.
#[export] Hint Resolve keeps_db_ret keeps_db_raise keeps_db_flash : keeps_db.
#[export] Hint Extern 2 (keeps_db (_ ≫= _)) =>
  apply keeps_db_bind; [| intros ?] : keeps_db.
#[export] Hint Extern 2 (keeps_db (lift_db _)) =>
  apply keeps_db_lift; auto 20 with read_only : keeps_db.
#[export] Hint Extern 2 (keeps_db (try_except _ (controllers_messaging.warn_schema _))) =>
  apply keeps_db_try_except; [| apply keeps_db_warn_schema] : keeps_db.
#[export] Hint Extern 3 (keeps_db (match ?x with _ => _ end)) => destruct x : keeps_db.
#[export] Hint Extern 1 (keeps_db (abort _)) => apply keeps_db_raise : keeps_db.

(** ** Thread registry *)

Section thread_registry.
Import messages_dao controllers_messaging.

Lemma validators_content (content : option string) :
  InputRequired content && Length_max 2000 content = true →
  ∃ c, content = Some c ∧ c ≠ "" ∧ (Utf8.len c ≤ 2000)%nat.
Proof.
  unfold InputRequired, Length_max.
  destruct content as [[| ch c] |]; try discriminate.
  intros Hlen%bool_decide_eq_true. eexists. repeat split; [done | exact Hlen].
Qed.

Lemma validators_reject (content : option string) :
  invalid_content content → InputRequired content && Length_max 2000 content = false.
Proof.
  intros Hbad.
  destruct (InputRequired content && Length_max 2000 content) eqn:Hv; [| done].
  apply validators_content in Hv as (c & Hc & Hne & Hlen).
  destruct Hbad as [Hbad | [Hbad | (c' & Hbad & Hlong)]];
    rewrite Hc in Hbad; simplify_eq; lia.
Qed.

Lemma validate_on_submit_rejects (form : MessageForm) :
  invalid_content (content form) → validate_on_submit form = false.
Proof.
  intros Hbad%validators_reject. unfold validate_on_submit.
  by rewrite <- andb_assoc, Hbad, andb_false_r.
Qed.

Lemma start_validate_on_submit_rejects (form : ThreadStartForm) :
  invalid_content (start_content form) → start_validate_on_submit form = false.
Proof.
  intros Hbad%validators_reject. unfold start_validate_on_submit.
  by rewrite <- andb_assoc, Hbad, andb_false_r.
Qed.

(** C9, as the code has it: the three views that post a message, the
    reply view [thread], the administrator's [thread_detail] and the view
    [start], validate the content first; for a content that is missing,
    empty or longer than 2000 characters they post nothing and leave the
    store as it was. *)
Theorem views_reject_invalid_content int now user referrer tid
    (form : MessageForm) (opening : ThreadStartForm) (app : App) :
  invalid_content (content form) →
  invalid_content (start_content opening) →
  validate_on_submit form = false
  ∧ start_validate_on_submit opening = false
  ∧ db (thread now user form tid app).2 = db app
  ∧ db (controllers_admin.thread_detail now user form tid app).2 = db app
  ∧ (start int now user referrer opening app).1
    = Ok (redirect (or_else referrer "resources.list_resources") [])
  ∧ db (start int now user referrer opening app).2 = db app.
Proof.
  intros Hform%validate_on_submit_rejects Hopening%start_validate_on_submit_rejects.
  split; [done | split; [done |]].
  split; [| split].
  - revert app. change (keeps_db (thread now user form tid)).
    unfold thread. rewrite Hform. auto 20 with keeps_db.
  - revert app. change (keeps_db (controllers_admin.thread_detail now user form tid)).
    unfold controllers_admin.thread_detail. rewrite Hform. auto 20 with keeps_db.
  - unfold start. rewrite Hopening. done.
Qed.

Lemma views_reject_invalid_content_witness :
  let form := mkMessageForm true true (Some "") in
  let opening := mkThreadStartForm true true (Some "4") (Some "booking") (Some "1")
                                   (Some Sample.long_text) in
  let user := User.mk 3 "student" in
  let app := mkApp Sample.campus [] in
  validate_on_submit form = false
  ∧ start_validate_on_submit opening = false
  ∧ db (thread "2025-03-01 12:00:00" user form 1 app).2 = db app
  ∧ db (controllers_admin.thread_detail "2025-03-01 12:00:00" user form 1 app).2 = db app
  ∧ (start (λ _, None) "2025-03-01 12:00:00" user None opening app).1
    = Ok (redirect (or_else None "resources.list_resources") [])
  ∧ db (start (λ _, None) "2025-03-01 12:00:00" user None opening app).2 = db app.
Proof.
  apply (views_reject_invalid_content (λ _, None) "2025-03-01 12:00:00"
           (User.mk 3 "student") None 1
           (mkMessageForm true true (Some ""))
           (mkThreadStartForm true true (Some "4") (Some "booking") (Some "1")
                              (Some Sample.long_text))
           (mkApp Sample.campus [])).
  - right. left. reflexivity.
  - right. right. exists Sample.long_text. split; [reflexivity | vm_compute; lia].
Defined.

(** The requester opens a second thread about the booking. *)
Example start_view_opens_thread :
  let out := start Sample.decimal "2025-03-01 12:00:00" (User.mk 3 "student") None
               (mkThreadStartForm true true (Some "4") (Some "booking") (Some "1")
                                  (Some "One more question."))
               (mkApp Sample.campus []) in
  out.1 = Ok (redirect "messaging.thread" [("thread_id", 2)])
  ∧ tbl_threads (db out.2)
    = Some [Sample.about_booking; Thread.mk 2 "booking" (Some 1) 3 "2025-03-01 12:00:00"]
  ∧ tbl_messages (db out.2)
    = Some [Sample.question; Sample.answer;
            MessageRow.mk 3 (Some 2) 3 4 "One more question." "2025-03-01 12:00:00"]
  ∧ flashes out.2 = [("Conversation started.", "success")].
Proof. repeat split; vm_compute; reflexivity. Qed.

(** A reply with a proper content is appended to the thread. *)
Example thread_view_posts_reply :
  let out := thread "2025-03-01 12:00:00" (User.mk 4 "staff")
                    (mkMessageForm true true (Some "Yes, it is.")) 1
                    (mkApp Sample.campus []) in
  out.1 = Ok (redirect "messaging.thread" [("thread_id", 1)])
  ∧ tbl_messages (db out.2)
    = Some [Sample.question; Sample.answer;
            MessageRow.mk 3 (Some 1) 4 9 "Yes, it is." "2025-03-01 12:00:00"].
Proof. split; vm_compute; reflexivity. Qed.

(** The bound is on characters: a reply of 1001 accented letters, 2002
    bytes long, validates and is stored, and 2001 letters are turned
    down whatever their width. *)
Example thread_view_counts_characters :
  let form := mkMessageForm true true (Some Sample.accented) in
  let out := thread "2025-03-01 12:00:00" (User.mk 4 "staff") form 1
                    (mkApp Sample.campus []) in
  String.length Sample.accented = 2002%nat
  ∧ Utf8.len Sample.accented = 1001%nat
  ∧ validate_on_submit form = true
  ∧ out.1 = Ok (redirect "messaging.thread" [("thread_id", 1)])
  ∧ tbl_messages (db out.2)
    = Some [Sample.question; Sample.answer;
            MessageRow.mk 3 (Some 1) 4 9 Sample.accented "2025-03-01 12:00:00"]
  ∧ validate_on_submit
      (mkMessageForm true true (Some (Sample.accented +:+ Sample.accented))) = false.
Proof. repeat split; vm_compute; reflexivity. Qed.

(** C9, as stated, fails on [post_message]: it stores an empty content
    and a content of 2001 characters. *)
Lemma post_message_accepts_any_content :
  let blank := post_message "2025-03-01 12:00:00" 1 3 4 "" Sample.campus in
  let long := post_message "2025-03-01 12:00:00" 1 3 4 Sample.long_text Sample.campus in
  blank.1 = Ok (Some (Message.mk 3 1 3 4 "" "2025-03-01 12:00:00"))
  ∧ tbl_messages blank.2
    = Some [Sample.question; Sample.answer;
            MessageRow.mk 3 (Some 1) 3 4 "" "2025-03-01 12:00:00"]
  ∧ Utf8.len Sample.long_text = 2001%nat
  ∧ long.1 = Ok (Some (Message.mk 3 1 3 4 Sample.long_text "2025-03-01 12:00:00"))
  ∧ tbl_messages long.2
    = Some [Sample.question; Sample.answer;
            MessageRow.mk 3 (Some 1) 3 4 Sample.long_text "2025-03-01 12:00:00"].
Proof. repeat split; vm_compute; reflexivity. Qed.

End thread_registry.

(** ** Message ordering *)

Section message_order.
Import messages_dao.

Global Instance by_timestamp_total : Total by_timestamp.
Proof. intros a b. apply text_le_total. Qed.

Lemma get_messages_run tid rows (s : Store) :
  tbl_messages s = Some rows →
  get_messages tid s
  = (Ok (_row_to_message <$>
           Sql.order_by by_timestamp (filter (λ m, MessageRow.thread_id m = Some tid) rows)), s).
Proof.
  intros Hrows. unfold get_messages, schema_guard, try_except, messages_table,
    mbind, M_bind, bind, mret, M_ret, ret.
  by rewrite Hrows.
Qed.

Lemma get_messages_since_run tid ts rows (s : Store) :
  tbl_messages s = Some rows →
  get_messages_since tid ts s
  = (Ok (_row_to_message <$>
           Sql.order_by by_timestamp
             (filter (λ m, MessageRow.thread_id m = Some tid
                           ∧ Sql.text_lt ts (MessageRow.timestamp m)) rows)), s).
Proof.
  intros Hrows. unfold get_messages_since, schema_guard, try_except, messages_table,
    mbind, M_bind, bind, mret, M_ret, ret.
  by rewrite Hrows.
Qed.

Lemma sorted_messages (rows : list MessageRow.t) :
  Sorted ascending (_row_to_message <$> Sql.order_by by_timestamp rows).
Proof.
  apply (Sorted_fmap _ by_timestamp ascending); [by intros [] [] |].
  apply (Sorted_order_by by_timestamp).
Qed.

Lemma since_of_history tid ts (rows : list MessageRow.t) :
  _row_to_message <$>
    filter (λ m, MessageRow.thread_id m = Some tid
                 ∧ Sql.text_lt ts (MessageRow.timestamp m)) rows
  = filter (λ m, Sql.text_lt ts (Message.timestamp m))
      (_row_to_message <$> filter (λ m, MessageRow.thread_id m = Some tid) rows).
Proof.
  induction rows as [| m rows IH]; [done |].
  rewrite !filter_cons.
  destruct (decide (MessageRow.thread_id m = Some tid)) as [Hin | Hout].
  - rewrite fmap_cons, filter_cons.
    destruct (decide (Sql.text_lt ts (MessageRow.timestamp m))) as [Hlt | Hge].
    + rewrite decide_True by done. rewrite decide_True by exact Hlt.
      by rewrite fmap_cons, IH.
    + rewrite decide_False by tauto. rewrite decide_False by exact Hge. done.
  - by rewrite decide_False by tauto.
Qed.

(** With the messages table in place, [get_messages] returns every
    message of the thread, each once, in non-decreasing order of the
    timestamp texts, and [get_messages_since] returns, in the same order,
    exactly those of them whose timestamp text is above the text given,
    byte by byte. *)
Lemma get_messages_ordered tid ts rows (s : Store) :
  tbl_messages s = Some rows →
  ∃ history recent,
    get_messages tid s = (Ok history, s)
    ∧ history ≡ₚ _row_to_message <$> filter (λ m, MessageRow.thread_id m = Some tid) rows
    ∧ Sorted ascending history
    ∧ get_messages_since tid ts s = (Ok recent, s)
    ∧ recent ≡ₚ filter (λ m, Sql.text_lt ts (Message.timestamp m)) history
    ∧ Sorted ascending recent.
Proof.
  intros Hrows. eexists _, _.
  split; [by apply get_messages_run |].
  split; [by rewrite order_by_Permutation |].
  split; [apply sorted_messages |].
  split; [by apply get_messages_since_run |].
  split; [| apply sorted_messages].
  by rewrite !order_by_Permutation, since_of_history.
Qed.

(** C3 fails on [get_messages_since]: the comparison is on the stored
    texts.  The thread has a message of 10:00 and one of 11:00, stored
    with a space after the date.  Asked for the messages after 10:00 in
    the ISO form with the separator [T], the form in which the view
    [thread_since] hands the timestamps to its client, the function
    returns nothing, and so does the view: the message of 11:00 is
    missed.  Asked in the stored form it returns that message. *)
Theorem get_messages_since_misses_later_message :
  (get_messages 1 Sample.campus).1
  = Ok [Message.mk 1 1 3 4 "Is the lab free?" "2025-03-01 10:00:00";
        Message.mk 2 1 9 3 "Checking with the owner." "2025-03-01 11:00:00"]
  ∧ get_messages_since 1 "2025-03-01T10:00:00" Sample.campus = (Ok [], Sample.campus)
  ∧ controllers_messaging.thread_since (User.mk 4 "staff") (Some "2025-03-01T10:00:00") 1
      Sample.campus
    = (Ok [], Sample.campus)
  ∧ get_messages_since 1 "2025-03-01 10:00:00" Sample.campus
    = (Ok [Message.mk 2 1 9 3 "Checking with the owner." "2025-03-01 11:00:00"],
       Sample.campus).
Proof. repeat split; vm_compute; reflexivity. Qed.

End message_order.

(** ** Participants of a thread *)

Section participants.
Import messages_dao controllers_messaging.

Lemma get_booking_by_id_found bid (b : Booking.t) (s : Store) :
  bookings_dao.get_booking_by_id bid s = (Ok (Some b), s) →
  b ∈ tbl_bookings s ∧ Booking.booking_id b = bid.
Proof.
  rewrite get_booking_by_id_run. intros [= Hrow].
  destruct (Sql.fetchone _) as [row |] eqn:Hhead; [| done].
  simpl in Hrow. rewrite _row_to_booking_id in Hrow. injection Hrow as ->.
  assert (Hin : b ∈ filter (λ b0, Booking.booking_id b0 = bid) (tbl_bookings s)).
  { unfold Sql.fetchone in Hhead. destruct (filter _ _); [done |].
    injection Hhead as ->. left. }
  by apply list_elem_of_filter in Hin as [? ?].
Qed.

Lemma history_senders_receivers (messages : list Message.t) (m : Message.t) :
  m ∈ messages →
  Message.sender_id m ∈ history messages ∧ Message.receiver_id m ∈ history messages.
Proof.
  intros Hm. unfold history. rewrite !elem_of_union, !elem_of_list_to_set.
  split; [left | right]; by apply list_elem_of_fmap_2.
Qed.

(** C6: for a booking thread whose booking and resource exist, the
    derived participants contain the requester of the booking, the owner
    of the resource and every sender and receiver of a message of the
    thread. *)
Theorem thread_participants_complete tid bid (t : Thread.t) (b : Booking.t)
    (r : Resource.t) (rows : list MessageRow.t) (s : Store) :
  rowids_positive s →
  get_thread tid s = (Ok (Some t), s) →
  tbl_messages s = Some rows →
  Thread.context_type t = "booking" →
  Thread.context_id t = Some bid →
  bookings_dao.get_booking_by_id bid s = (Ok (Some b), s) →
  resources_dao.get_resource_by_id (Booking.resource_id b) true s = (Ok (Some r), s) →
  ∃ participants,
    _thread_participants tid s = (Ok participants, s)
    ∧ Booking.requester_id b ∈ participants
    ∧ Resource.owner_id r ∈ participants
    ∧ ∀ m, m ∈ rows → MessageRow.thread_id m = Some tid →
        MessageRow.sender_id m ∈ participants ∧ MessageRow.receiver_id m ∈ participants.
Proof.
  intros Hpos Hthread Hrows Htype Hctx Hbooking Hresource.
  destruct (get_booking_by_id_found _ _ _ Hbooking) as [Hb Hbid].
  assert (Hbid0 : bid ≠ 0).
  { unfold rowids_positive in Hpos. rewrite Forall_forall in Hpos.
    specialize (Hpos b Hb). lia. }
  eexists. split.
  - unfold _thread_participants. unfold mbind, M_bind. unfold bind at 1.
    rewrite Hthread. unfold bind at 1. rewrite (get_messages_run tid rows s Hrows).
    rewrite Htype, Hctx. simpl. rewrite (bool_decide_eq_false_2 (bid = 0)) by done. simpl.
    unfold bind at 1. rewrite Hbooking. unfold bind at 1. rewrite Hresource.
    reflexivity.
  - split; [set_solver | split; [set_solver |]].
    intros m Hm Htid.
    assert (Hmsg : _row_to_message m ∈ _row_to_message <$>
              Sql.order_by by_timestamp (filter (λ m, MessageRow.thread_id m = Some tid) rows)).
    { apply list_elem_of_fmap_2. rewrite order_by_Permutation.
      by apply list_elem_of_filter. }
    apply history_senders_receivers in Hmsg as [Hsend Hrecv].
    rewrite !elem_of_union. auto.
Qed.

Lemma thread_participants_complete_witness :
  ∃ participants,
    _thread_participants 1 Sample.quiet = (Ok participants, Sample.quiet)
    ∧ Booking.requester_id Sample.asked ∈ participants
    ∧ Resource.owner_id Sample.lab ∈ participants
    ∧ ∀ m, m ∈ [] → MessageRow.thread_id m = Some 1 →
        MessageRow.sender_id m ∈ participants ∧ MessageRow.receiver_id m ∈ participants.
Proof.
  apply (thread_participants_complete 1 1 Sample.about_booking Sample.asked Sample.lab
           [] Sample.quiet); try reflexivity.
  repeat constructor.
Defined.

(** The invariant on rowids holds in a store without bookings and is
    kept by every write of the booking engine. *)
Lemma rowids_positive_create_booking now rid uid start_value end_value ra notes (s : Store) :
  rowids_positive s →
  rowids_positive (bookings_dao.create_booking now rid uid start_value end_value ra notes s).2.
Proof.
  intros Hpos.
  pose proof (create_booking_cases now rid uid start_value end_value ra notes s) as Hrun.
  cbv zeta in Hrun. destruct Hrun as [[_ ->] | [_ ->]]; [done |].
  unfold rowids_positive. simpl. apply Forall_app. split; [done |].
  repeat constructor. simpl. apply next_rowid_pos.
Qed.

Lemma rowids_positive_update where_ set (s : Store) :
  (∀ b, Booking.booking_id (set b) = Booking.booking_id b) →
  rowids_positive s → rowids_positive (set_bookings (Sql.update where_ set) s).
Proof.
  intros Hset. unfold rowids_positive, Sql.update. simpl.
  rewrite Forall_fmap. intros Hpos. eapply Forall_impl; [exact Hpos |].
  intros b Hb. simpl. destruct (where_ b); [by rewrite Hset | done].
Qed.

Lemma rowids_positive_transitions now bid approver notes (s : Store) :
  rowids_positive s →
  rowids_positive (bookings_dao.approve_booking now bid approver notes s).2
  ∧ rowids_positive (bookings_dao.reject_booking now bid approver notes s).2
  ∧ rowids_positive (bookings_dao.cancel_booking now bid s).2
  ∧ rowids_positive (bookings_dao.complete_booking now bid s).2.
Proof.
  intros Hpos. repeat split; by apply rowids_positive_update.
Qed.

End participants.

(** ** Missing messaging tables *)

Section schema.
Import messages_dao controllers_admin.

Lemma list_threads_for_admin_missing (s : Store) :
  tbl_threads s = None ∨ tbl_messages s = None →
  list_threads_for_admin s = (Raise (MessagingSchemaError _SCHEMA_INSTRUCTIONS), s).
Proof.
  unfold list_threads_for_admin, schema_guard, try_except, threads_table, messages_table,
    mbind, M_bind, bind, raise.
  destruct (tbl_threads s), (tbl_messages s); intros [? | ?]; done.
Qed.

(** C7 fails on the view [threads]: with the messaging tables missing,
    [list_threads_for_admin] raises [MessagingSchemaError] with the schema
    instructions, and the view [dashboard] catches it, flashes the
    instructions as a warning and renders with no recent thread; but the
    view [threads], the other caller, has no such guard, and the error
    leaves it with nothing flashed. *)
Theorem admin_threads_view_propagates_schema_error :
  let admin := User.mk 9 "admin" in
  let app := mkApp Sample.unprovisioned [] in
  list_threads_for_admin Sample.unprovisioned
  = (Raise (MessagingSchemaError _SCHEMA_INSTRUCTIONS), Sample.unprovisioned)
  ∧ dashboard admin app
    = (Ok (render_template "admin_dashboard.html" (mkDashboard 3 0 0 0 0 [] [])),
       mkApp Sample.unprovisioned [(_SCHEMA_INSTRUCTIONS, "warning")])
  ∧ threads admin app = (Raise (MessagingSchemaError _SCHEMA_INSTRUCTIONS), app).
Proof. repeat split; vm_compute; reflexivity. Qed.

(** With the tables in place the dashboard lists the booking and the
    thread. *)
Example dashboard_lists_threads :
  ∃ page,
    (dashboard (User.mk 9 "admin") (mkApp Sample.campus [])).1
    = Ok (render_template "admin_dashboard.html" page)
    ∧ recent_bookings page
      = [mkRecentBooking 1 "pending" "2025-03-01 08:00:00" "Maker lab" "Sam"]
    ∧ recent_threads page
      = [mkRecentThread 1 "Maker lab (Booking #1)" (Some "2025-03-01 11:00:00")
           (Some "Checking with the owner.") 2].
Proof. eexists. repeat split; vm_compute; reflexivity. Qed.

End schema.

(** ** Thread listings *)

Section listings.
Import messages_dao.

Global Instance by_last_activity_total : Total by_last_activity.
Proof.
  intros a b. unfold by_last_activity.
  destruct (ThreadSummary.last_activity a), (ThreadSummary.last_activity b); auto.
  apply text_le_total.
Qed.

(** What [list_threads_for_user] does: it lists, by descending last
    activity, exactly the threads in which the user sent or received a
    message, each summarised over the user's own messages. *)
Lemma list_threads_for_user_listing user_id ts ms (s : Store) :
  tbl_threads s = Some ts →
  tbl_messages s = Some ms →
  ∃ listing,
    list_threads_for_user user_id s = (Ok listing, s)
    ∧ Sorted by_last_activity listing
    ∧ ∀ x, x ∈ listing ↔
        ∃ t, t ∈ ts
          ∧ (∃ m, m ∈ ms ∧ MessageRow.thread_id m = Some (Thread.thread_id t)
                  ∧ (MessageRow.sender_id m = user_id ∨ MessageRow.receiver_id m = user_id))
          ∧ x = summarise t (own_messages user_id ms t).
Proof.
  intros Hts Hms. eexists. split; [| split].
  - unfold list_threads_for_user, schema_guard, try_except, threads_table, messages_table,
      mbind, M_bind, bind, mret, M_ret, ret.
    rewrite Hts, Hms. reflexivity.
  - apply (Sorted_order_by by_last_activity).
  - intros x. rewrite order_by_Permutation, list_elem_of_omap.
    split.
    + intros (t & Ht & Hx). exists t. split; [done |].
      fold (own_messages user_id ms t) in Hx.
      destruct (own_messages user_id ms t) as [| m group] eqn:Hgroup; [done |].
      injection Hx as <-. split; [| done].
      exists m. assert (Hin : m ∈ own_messages user_id ms t) by (rewrite Hgroup; left).
      apply list_elem_of_filter in Hin. tauto.
    + intros (t & Ht & (m & Hm) & ->). exists t. split; [done |].
      assert (Hin : m ∈ own_messages user_id ms t).
      { apply list_elem_of_filter. tauto. }
      fold (own_messages user_id ms t).
      destruct (own_messages user_id ms t); [by apply elem_of_nil in Hin | done].
Qed.

(** C10, as stated, fails on [list_threads_for_user]: the owner 4 took
    part in one of the two messages of the thread, and the listing pairs
    the thread with that message's timestamp and the count 1, while the
    thread's latest message is the answer of 11:00 and it has two
    messages, as the listing for administrators says. *)
Theorem list_threads_for_user_counts_own_messages :
  (list_threads_for_user 4 Sample.campus).1
  = Ok [ThreadSummary.mk Sample.about_booking (Some "2025-03-01 10:00:00") 1]
  ∧ (get_last_message 1 Sample.campus).1 = Ok (Some (_row_to_message Sample.answer))
  ∧ (get_messages 1 Sample.campus).1
    = Ok [_row_to_message Sample.question; _row_to_message Sample.answer]
  ∧ (list_threads_for_admin Sample.campus).1
    = Ok [ThreadSummary.mk Sample.about_booking (Some "2025-03-01 11:00:00") 2].
Proof. repeat split; vm_compute; reflexivity. Qed.

End listings.

(** ** Booking requests *)

Section booking_requests.
Import controllers_bookings.




(** A request with a proper interval reaches [create_booking]: it is
    stored when nothing overlaps and turned down with the conflict
    warning otherwise. *)
Example create_view_books :
  let free := create "2025-03-01 12:00:00" (User.mk 5 "student")
                (valid_form (DateTime.mk 2025 3 2 11 0) (DateTime.mk 2025 3 2 12 0)) 7
                (mkApp Sample.campus []) in
  let taken := create "2025-03-01 12:00:00" (User.mk 5 "student")
                 (valid_form (DateTime.mk 2025 3 2 10 0) (DateTime.mk 2025 3 2 12 0)) 7
                 (mkApp Sample.campus []) in
  free.1 = Ok (redirect "bookings.my_bookings" [])
  ∧ tbl_bookings (db free.2)
    = [Sample.asked;
       Booking.mk 2 7 5 "2025-03-02T11:00:00" "2025-03-02T12:00:00" "pending" None
                  "2025-03-01 12:00:00" "2025-03-01 12:00:00"]
  ∧ taken.1 = Ok (redirect "resources.detail" [("resource_id", 7)])
  ∧ taken.2 = mkApp Sample.campus [("This time conflicts with an existing booking.", "warning")].
Proof. repeat split; vm_compute; reflexivity. Qed.

End booking_requests.

(** * Further properties of the data-access layer *)

(** ** Text order, continued *)

Lemma ascii_compare_spec (a b : ascii) :
  CompareSpec (a = b) (N_of_ascii a < N_of_ascii b)%N (N_of_ascii b < N_of_ascii a)%N
              (Ascii.compare a b).
Proof.
  unfold Ascii.compare.
  destruct (N.compare_spec (N_of_ascii a) (N_of_ascii b)) as [Heq | |];
    constructor; try done.
  rewrite <- (ascii_N_embedding a), <- (ascii_N_embedding b). by rewrite Heq.
Qed.

Lemma string_compare_refl (a : string) : String.compare a a = Eq.
Proof.
  induction a as [| c a IH]; [done |]. simpl.
  destruct (ascii_compare_spec c c); [done | lia | lia].
Qed.

Lemma string_compare_trans (a b c : string) (o : comparison) :
  String.compare a b = o → String.compare b c = o → String.compare a c = o.
Proof.
  revert b c. induction a as [| x a IH]; intros [| y b] [| z c] Hab Hbc;
    simpl in *; try congruence.
  destruct (ascii_compare_spec x y) as [Exy | Hxy | Hxy];
    destruct (ascii_compare_spec y z) as [Eyz | Hyz | Hyz];
    destruct (ascii_compare_spec x z) as [Exz | Hxz | Hxz]; subst;
    try lia; try congruence; eauto.
Qed.

Global Instance text_le_trans : Transitive Sql.text_le.
Proof.
  intros a b c. unfold Sql.text_le, String.leb. intros Hab Hbc.
  destruct (String.compare a b) eqn:Eab; [| | done].
  - apply String.compare_eq_iff in Eab as ->. done.
  - destruct (String.compare b c) eqn:Ebc; [| | done].
    + apply String.compare_eq_iff in Ebc as ->. by rewrite Eab.
    + by rewrite (string_compare_trans a b c Lt).
Qed.

Lemma text_lt_not_le (a b : string) : Sql.text_lt a b ↔ ¬ Sql.text_le b a.
Proof.
  unfold Sql.text_lt, Sql.text_le, String.ltb, String.leb.
  rewrite (String.compare_antisym b a).
  destruct (String.compare a b); simpl; tauto.
Qed.

Lemma text_le_antisym (a b : string) : Sql.text_le a b → Sql.text_le b a → a = b.
Proof.
  unfold Sql.text_le. intros Hab%Is_true_true Hba%Is_true_true.
  by apply String.leb_antisym.
Qed.

(** ** Conflict check with an excluded booking *)

Section conflict_check.
Import Booking bookings_dao.

(** X1: [has_conflict] with a booking to exclude answers [True] exactly
    when an active booking of the resource other than the excluded one
    overlaps the interval; an excluded id that is [None] or [0] excludes
    nothing; the check writes nothing. *)
Theorem has_conflict_excluding rid start_value end_value (x : Z) (s : Store) :
  x ≠ 0 →
  ((has_conflict rid start_value end_value (Some x) s).1 = Ok true
     ↔ ∃ b, b ∈ tbl_bookings s ∧ clashes rid start_value end_value b ∧ booking_id b ≠ x)
  ∧ (∃ answer, has_conflict rid start_value end_value (Some x) s = (Ok answer, s))
  ∧ has_conflict rid start_value end_value (Some 0) s
    = has_conflict rid start_value end_value None s.
Proof.
  intros Hx. split; [| split; [by eexists | done]].
  rewrite has_conflict_run. simpl.
  assert (Hrows : ∀ b, b ∈ conflict_rows rid start_value end_value (Some x) (tbl_bookings s)
                       ↔ b ∈ tbl_bookings s ∧ clashes rid start_value end_value b
                         ∧ booking_id b ≠ x).
  { intros b. unfold conflict_rows, clashes, is_active, overlaps, not_excluded, Sql.text_le.
    rewrite list_elem_of_filter.
    rewrite (bool_decide_eq_false_2 (x = 0)) by done.
    rewrite !andb_True, orb_True, !negb_True, orb_True.
    rewrite !bool_decide_spec. tauto. }
  split.
  - intros [= H%bool_decide_eq_true]. apply fetchone_is_row in H as [b Hb].
    exists b. by apply Hrows.
  - intros [b Hb]. f_equal. apply bool_decide_eq_true, fetchone_is_row.
    exists b. by apply Hrows.
Qed.

Lemma has_conflict_excluding_witness :
  ((has_conflict 7 "2025-03-02T09:30:00" "2025-03-02T10:30:00" (Some 1) Sample.campus).1
   = Ok true
     ↔ ∃ b, b ∈ tbl_bookings Sample.campus
            ∧ clashes 7 "2025-03-02T09:30:00" "2025-03-02T10:30:00" b ∧ booking_id b ≠ 1)
  ∧ (∃ answer, has_conflict 7 "2025-03-02T09:30:00" "2025-03-02T10:30:00" (Some 1)
                 Sample.campus = (Ok answer, Sample.campus))
  ∧ has_conflict 7 "2025-03-02T09:30:00" "2025-03-02T10:30:00" (Some 0) Sample.campus
    = has_conflict 7 "2025-03-02T09:30:00" "2025-03-02T10:30:00" None Sample.campus.
Proof.
  apply (has_conflict_excluding 7 "2025-03-02T09:30:00" "2025-03-02T10:30:00" 1
           Sample.campus).
  lia.
Defined.

(** Moving the only booking of the lab inside its own slot: a conflict
    unless the booking itself is excluded. *)
Example has_conflict_on_edit :
  (has_conflict 7 "2025-03-02T09:30:00" "2025-03-02T10:30:00" None Sample.campus).1 = Ok true
  ∧ (has_conflict 7 "2025-03-02T09:30:00" "2025-03-02T10:30:00" (Some 1) Sample.campus).1
    = Ok false.
Proof. split; reflexivity. Qed.

End conflict_check.

(** ** The overlap law and the status transitions *)

Section overlap_law.
Import Booking bookings_dao.

Lemma no_overlap_single (b : Booking.t) : no_overlap [b].
Proof.
  intros [| i] [| j] a c Hij Hi Hj; simpl in *; done.
Qed.

Lemma create_booking_no_overlap_witness :
  no_overlap
    (tbl_bookings (create_booking "2025-03-01 09:00:00" 7 4 "2025-03-02T12:00:00"
                     "2025-03-02T13:00:00" true None Sample.busy).2).
Proof.
  apply (create_booking_no_overlap "2025-03-01 09:00:00" 7 4 "2025-03-02T12:00:00"
           "2025-03-02T13:00:00" true None Sample.busy).
  intros [| [| i]] [| [| j]] a b Hij Hi Hj Hres Ha Hb; simpl in Hi, Hj; simplify_eq;
    try done; vm_compute; auto.
Defined.

(** The call of the witness stores a third booking of the lab, and a
    request that overlaps the second one is turned down. *)
Example create_booking_on_busy_lab :
  tbl_bookings (create_booking "2025-03-01 09:00:00" 7 4 "2025-03-02T12:00:00"
                  "2025-03-02T13:00:00" true None Sample.busy).2
  = [Sample.asked; Sample.booked;
     Booking.mk 3 7 4 "2025-03-02T12:00:00" "2025-03-02T13:00:00" "pending" None
                "2025-03-01 09:00:00" "2025-03-01 09:00:00"]
  ∧ create_booking "2025-03-01 09:00:00" 7 4 "2025-03-02T11:30:00"
      "2025-03-02T13:00:00" true None Sample.busy
    = (Raise (ValueError conflict_message), Sample.busy).
Proof. split; vm_compute; reflexivity. Qed.

Lemma no_overlap_update (where_ : Booking.t → bool) (set : Booking.t → Booking.t)
    (rows : list Booking.t) :
  (∀ b, resource_id (set b) = resource_id b
        ∧ start_datetime (set b) = start_datetime b
        ∧ end_datetime (set b) = end_datetime b) →
  (∀ b, where_ b = true →
        status (set b) = "pending" ∨ status (set b) = "approved" →
        status b = "pending" ∨ status b = "approved") →
  no_overlap rows → no_overlap (Sql.update where_ set rows).
Proof.
  intros Hsame Hactive Hold i j a' b' Hij Hi Hj Hres Ha Hb.
  unfold Sql.update in Hi, Hj. rewrite list_lookup_fmap in Hi, Hj.
  destruct (rows !! i) as [a |] eqn:Hai; [| done].
  destruct (rows !! j) as [b |] eqn:Hbj; [| done].
  simpl in Hi, Hj. injection Hi as <-. injection Hj as <-.
  destruct (Hsame a) as (Har & Has & Hae). destruct (Hsame b) as (Hbr & Hbs & Hbe).
  assert (Hgoal : Sql.text_le (end_datetime a) (start_datetime b)
                  ∨ Sql.text_le (end_datetime b) (start_datetime a)).
  { apply (Hold i j a b Hij Hai Hbj).
    - destruct (where_ a), (where_ b); congruence.
    - destruct (where_ a) eqn:Hwa; [by apply Hactive | done].
    - destruct (where_ b) eqn:Hwb; [by apply Hactive | done]. }
  destruct (where_ a), (where_ b); by rewrite ?Has, ?Hae, ?Hbs, ?Hbe.
Qed.

(** X3: the overlap law of the bookings table, on the stored texts, is
    kept by [approve_booking], [reject_booking], [cancel_booking] and
    [complete_booking]: none of them moves a booking or brings an
    inactive booking back to an active status. *)
Theorem transitions_keep_no_overlap now bid approver notes (s : Store) :
  no_overlap (tbl_bookings s) →
  no_overlap (tbl_bookings (approve_booking now bid approver notes s).2)
  ∧ no_overlap (tbl_bookings (reject_booking now bid approver notes s).2)
  ∧ no_overlap (tbl_bookings (cancel_booking now bid s).2)
  ∧ no_overlap (tbl_bookings (complete_booking now bid s).2).
Proof.
  intros Hold. simpl. repeat split; apply no_overlap_update; try done.
  - intros b [_ Hst%bool_decide_eq_true]%andb_true_iff _. by left.
  - intros b [_ Hst%bool_decide_eq_true]%andb_true_iff _. by left.
  - intros b _ [Hst | Hst]; discriminate Hst.
  - intros b _ [Hst | Hst]; discriminate Hst.
Qed.

Lemma transitions_keep_no_overlap_witness :
  no_overlap (tbl_bookings (approve_booking "2025-03-01 09:00:00" 1 4 None Sample.busy).2)
  ∧ no_overlap (tbl_bookings (reject_booking "2025-03-01 09:00:00" 1 4 None Sample.busy).2)
  ∧ no_overlap (tbl_bookings (cancel_booking "2025-03-01 09:00:00" 1 Sample.busy).2)
  ∧ no_overlap (tbl_bookings (complete_booking "2025-03-01 09:00:00" 1 Sample.busy).2).
Proof.
  apply (transitions_keep_no_overlap "2025-03-01 09:00:00" 1 4 None Sample.busy).
  intros [| [| i]] [| [| j]] a b Hij Hi Hj Hres Ha Hb; simpl in Hi, Hj; simplify_eq;
    try done; vm_compute; auto.
Defined.

(** On the lab with its two active bookings, the approval of the first
    leaves two approved bookings that touch at 11:00. *)
Example approve_on_busy_lab :
  tbl_bookings (approve_booking "2025-03-01 09:00:00" 1 4 None Sample.busy).2
  = [Booking.mk 1 7 3 "2025-03-02T09:00:00" "2025-03-02T11:00:00" "approved" None
                "2025-03-01 08:00:00" "2025-03-01 09:00:00";
     Sample.booked].
Proof. vm_compute. reflexivity. Qed.

Lemma pending_queue_rows (s : Store) (b : Booking.t) :
  b ∈ pending_queue s ↔ b ∈ tbl_bookings s ∧ status b = "pending".
Proof.
  unfold pending_queue, list_pending_approvals. simpl.
  rewrite list_elem_of_fmap. split.
  - intros (row & -> & Hrow). rewrite _row_to_booking_id.
    rewrite order_by_Permutation in Hrow. by apply list_elem_of_filter in Hrow as [? ?].
  - intros [Hb Hst]. exists b. rewrite _row_to_booking_id. split; [done |].
    rewrite order_by_Permutation. by apply list_elem_of_filter.
Qed.

Lemma leaves_queue_update bid (where_ : Booking.t → bool) (set : Booking.t → Booking.t)
    (s : Store) :
  (∀ a, where_ a = true → status (set a) ≠ "pending") →
  (∀ a, where_ a = false → status a = "pending" → booking_id a ≠ bid) →
  (∀ a, booking_id a ≠ bid → where_ a = false) →
  leaves_queue bid (pending_queue s) (pending_queue (set_bookings (Sql.update where_ set) s)).
Proof.
  intros Hset Hkept Hother b. rewrite !pending_queue_rows. simpl.
  unfold Sql.update. rewrite list_elem_of_fmap. split.
  - intros [(a & -> & Ha) Hst]. destruct (where_ a) eqn:Hw.
    + by destruct (Hset a Hw).
    + split; [done | by apply Hkept].
  - intros [[Hb Hst] Hid]. split; [| done].
    exists b. by rewrite (Hother b Hid).
Qed.

(** X4: once [approve_booking], [reject_booking], [cancel_booking] or
    [complete_booking] has run for a booking, [list_pending_approvals] no
    longer reports that booking, and it reports every other booking
    exactly as before. *)
Theorem decided_booking_leaves_queue now bid approver notes (s : Store) :
  leaves_queue bid (pending_queue s)
    (pending_queue (approve_booking now bid approver notes s).2)
  ∧ leaves_queue bid (pending_queue s)
      (pending_queue (reject_booking now bid approver notes s).2)
  ∧ leaves_queue bid (pending_queue s) (pending_queue (cancel_booking now bid s).2)
  ∧ leaves_queue bid (pending_queue s) (pending_queue (complete_booking now bid s).2).
Proof.
  assert (Hqueue : ∀ f s, pending_queue (set_admin_logs f s) = pending_queue s) by done.
  unfold approve_booking, reject_booking, cancel_booking, complete_booking,
    _log_admin_action, mbind, M_bind, bind, modify. simpl. rewrite !Hqueue.
  split; [| split; [| split]]; apply leaves_queue_update.
  all: try (intros a _; simpl; discriminate).
  all: try (intros a Hw Hst Hid; rewrite bool_decide_eq_true_2 in Hw by done;
            try rewrite bool_decide_eq_true_2 in Hw by done; discriminate).
  all: intros a Hid; by rewrite (bool_decide_eq_false_2 (booking_id a = bid)).
Qed.

(** A pending request leaves the queue when it is approved. *)
Example approved_booking_leaves_queue :
  pending_queue Sample.campus = [Sample.asked]
  ∧ pending_queue (approve_booking "2025-03-01 09:00:00" 1 4 None Sample.campus).2 = [].
Proof. split; reflexivity. Qed.

End overlap_law.

(** ** Listings of bookings *)

Section booking_listings.
Import Booking bookings_dao.

Global Instance by_start_desc_total : Total by_start_desc.
Proof. intros a b. apply text_le_total. Qed.

Global Instance by_created_at_total : Total by_created_at.
Proof. intros a b. apply text_le_total. Qed.

Lemma _row_to_booking_rows (rows : list Booking.t) : _row_to_booking <$> rows = rows.
Proof.
  rewrite <- (list_fmap_id rows) at 2. apply list_fmap_ext.
  intros _ b _. apply _row_to_booking_id.
Qed.

(** X5: [list_bookings_for_user] returns the bookings of the requester,
    each once, latest start first; [list_bookings_for_resource] does the
    same for the bookings of a resource; neither writes. *)
Theorem list_bookings_sorted uid rid (s : Store) :
  ∃ mine here,
    list_bookings_for_user uid s = (Ok mine, s)
    ∧ mine ≡ₚ filter (λ b, requester_id b = uid) (tbl_bookings s)
    ∧ Sorted by_start_desc mine
    ∧ list_bookings_for_resource rid s = (Ok here, s)
    ∧ here ≡ₚ filter (λ b, resource_id b = rid) (tbl_bookings s)
    ∧ Sorted by_start_desc here.
Proof.
  eexists _, _. unfold list_bookings_for_user, list_bookings_for_resource.
  split; [reflexivity |]. rewrite !_row_to_booking_rows.
  split; [apply order_by_Permutation |].
  split; [apply (Sorted_order_by by_start_desc) |].
  split; [reflexivity |]. rewrite !_row_to_booking_rows.
  split; [apply order_by_Permutation | apply (Sorted_order_by by_start_desc)].
Qed.

(** X6: [list_pending_for_owner] reports, oldest first, exactly the
    pending bookings whose resource row exists and belongs to the owner;
    all of them are in [list_pending_approvals]. *)
Theorem list_pending_for_owner_spec owner (s : Store) :
  ∃ queue,
    list_pending_for_owner owner s = (Ok queue, s)
    ∧ Sorted by_created_at queue
    ∧ (∀ b, b ∈ queue ↔
         b ∈ tbl_bookings s ∧ status b = "pending"
         ∧ ∃ r, r ∈ tbl_resources s ∧ Resource.resource_id r = resource_id b
                ∧ Resource.owner_id r = owner)
    ∧ ∀ b, b ∈ queue → b ∈ pending_queue s.
Proof.
  eexists. unfold list_pending_for_owner.
  split; [reflexivity |]. rewrite _row_to_booking_rows.
  split; [apply (Sorted_order_by by_created_at) |].
  assert (Hin : ∀ b,
    b ∈ Sql.order_by by_created_at
          (b ← tbl_bookings s;
           r ← filter (λ r, Resource.resource_id r = resource_id b
                            ∧ status b = "pending" ∧ Resource.owner_id r = owner)
                      (tbl_resources s);
           [b])
    ↔ b ∈ tbl_bookings s ∧ status b = "pending"
      ∧ ∃ r, r ∈ tbl_resources s ∧ Resource.resource_id r = resource_id b
             ∧ Resource.owner_id r = owner).
  { intros b. rewrite order_by_Permutation, list_elem_of_bind. split.
    - intros (a & Hb & Ha). apply list_elem_of_bind in Hb as (r & Hb & Hr).
      apply list_elem_of_singleton in Hb as ->.
      apply list_elem_of_filter in Hr as [(Hid & Hst & Hown) Hr]. eauto 10.
    - intros (Hb & Hst & r & Hr & Hid & Hown). exists b. split; [| done].
      apply list_elem_of_bind. exists r. split; [by apply list_elem_of_singleton |].
      by apply list_elem_of_filter. }
  split; [exact Hin |].
  intros b (Hb & Hst & _)%Hin. by apply pending_queue_rows.
Qed.

End booking_listings.

(** ** Threads and messages: writes and reads *)

Section messaging_store.
Import messages_dao.

Lemma _row_to_thread_id (row : Thread.t) : _row_to_thread row = row.
Proof. by destruct row. Qed.

Lemma get_thread_run tid ts (s : Store) :
  tbl_threads s = Some ts →
  get_thread tid s
  = (Ok (Sql.fetchone (filter (λ t, Thread.thread_id t = tid) ts)), s).
Proof.
  intros Hts. unfold get_thread, schema_guard, try_except, threads_table,
    mbind, M_bind, bind, mret, M_ret, ret.
  rewrite Hts. simpl. f_equal. f_equal.
  destruct (Sql.fetchone _) as [row |]; [| done]. simpl. by rewrite _row_to_thread_id.
Qed.

Lemma get_message_by_id_run mid rows (s : Store) :
  tbl_messages s = Some rows →
  get_message_by_id mid s
  = (Ok (_row_to_message <$>
           Sql.fetchone (filter (λ m, MessageRow.message_id m = mid) rows)), s).
Proof.
  intros Hrows. unfold get_message_by_id, schema_guard, try_except, messages_table,
    mbind, M_bind, bind, mret, M_ret, ret.
  by rewrite Hrows.
Qed.

Lemma fetchone_fresh {A} (key : A → Z) (rows : list A) (row : A) :
  key row ∉ key <$> rows →
  Sql.fetchone (filter (λ r, key r = key row) (rows ++ [row])) = Some row.
Proof.
  intros Hfresh. rewrite filter_app, filter_cons_True, filter_nil by done.
  rewrite (filter_none _ rows); [done |].
  apply Forall_forall. intros r Hr Heq. apply Hfresh. rewrite <- Heq.
  by apply list_elem_of_fmap_2.
Qed.

Lemma fetchone_older {A} (key : A → Z) (rows : list A) (row found : A) (k : Z) :
  Sql.fetchone (filter (λ r, key r = k) rows) = Some found →
  Sql.fetchone (filter (λ r, key r = k) (rows ++ [row])) = Some found.
Proof.
  intros Hfound. rewrite filter_app. unfold Sql.fetchone in *.
  by destruct (filter _ rows).
Qed.

(** X7: with the threads table in place, [create_thread] stores one new
    row under a fresh positive id, with the context, the creator and the
    time of the insert as given, whatever the context type is, and
    returns it; [get_thread] on the new id gives the same thread, every
    thread found before is still found, and no other table changes. *)
Theorem create_thread_round_trip now context_type context_id created_by ts (s : Store) :
  tbl_threads s = Some ts →
  ∃ t s',
    create_thread now context_type context_id created_by s = (Ok (Some t), s')
    ∧ t = Thread.mk (Thread.thread_id t) context_type context_id created_by now
    ∧ 0 < Thread.thread_id t
    ∧ (Thread.thread_id t ∉ Thread.thread_id <$> ts)
    ∧ tbl_threads s' = Some (ts ++ [t])
    ∧ get_thread (Thread.thread_id t) s' = (Ok (Some t), s')
    ∧ (∀ tid old, get_thread tid s = (Ok (Some old), s) →
                  get_thread tid s' = (Ok (Some old), s'))
    ∧ tbl_bookings s' = tbl_bookings s ∧ tbl_resources s' = tbl_resources s
    ∧ tbl_messages s' = tbl_messages s ∧ tbl_admin_logs s' = tbl_admin_logs s
    ∧ tbl_users s' = tbl_users s.
Proof.
  intros Hts.
  set (t := new_thread_row now ts context_type context_id created_by).
  set (s' := set_threads (ts ++ [t]) s).
  assert (Hfresh : Thread.thread_id t ∉ Thread.thread_id <$> ts)
    by apply next_rowid_fresh.
  assert (Hnew : get_thread (Thread.thread_id t) s' = (Ok (Some t), s')).
  { rewrite (get_thread_run _ (ts ++ [t])) by done.
    by rewrite (fetchone_fresh Thread.thread_id). }
  exists t, s'. split.
  - unfold create_thread. unfold mbind, M_bind. unfold bind at 1.
    unfold schema_guard, try_except, threads_table, bind, modify, mret, M_ret, ret.
    rewrite Hts. exact Hnew.
  - split; [done |]. split; [apply next_rowid_pos |]. split; [done |].
    split; [done |]. split; [done |]. split; [| done].
    intros tid old. rewrite (get_thread_run _ ts), (get_thread_run _ (ts ++ [t])) by done.
    intros [= Hold]. by rewrite (fetchone_older Thread.thread_id ts t old).
Qed.

Lemma create_thread_round_trip_witness :
  ∃ t s',
    create_thread "2025-03-01 12:00:00" "seminar" None 9 Sample.campus = (Ok (Some t), s')
    ∧ t = Thread.mk (Thread.thread_id t) "seminar" None 9 "2025-03-01 12:00:00"
    ∧ 0 < Thread.thread_id t
    ∧ (Thread.thread_id t ∉ Thread.thread_id <$> [Sample.about_booking])
    ∧ tbl_threads s' = Some ([Sample.about_booking] ++ [t])
    ∧ get_thread (Thread.thread_id t) s' = (Ok (Some t), s')
    ∧ (∀ tid old, get_thread tid Sample.campus = (Ok (Some old), Sample.campus) →
                  get_thread tid s' = (Ok (Some old), s'))
    ∧ tbl_bookings s' = tbl_bookings Sample.campus
    ∧ tbl_resources s' = tbl_resources Sample.campus
    ∧ tbl_messages s' = tbl_messages Sample.campus
    ∧ tbl_admin_logs s' = tbl_admin_logs Sample.campus
    ∧ tbl_users s' = tbl_users Sample.campus.
Proof.
  apply (create_thread_round_trip "2025-03-01 12:00:00" "seminar" None 9
           [Sample.about_booking] Sample.campus).
  reflexivity.
Defined.

Lemma post_message_run now tid sender receiver text rows (s : Store) :
  tbl_messages s = Some rows →
  let row := new_message_row now rows tid sender receiver text in
  post_message now tid sender receiver text s
  = (Ok (Some (_row_to_message row)), set_messages (rows ++ [row]) s).
Proof.
  intros Hrows row.
  unfold post_message. unfold mbind, M_bind. unfold bind at 1.
  unfold schema_guard, try_except, messages_table, bind, modify, mret, M_ret, ret.
  rewrite Hrows.
  rewrite (get_message_by_id_run _ (rows ++ [row])) by done.
  by rewrite (fetchone_fresh MessageRow.message_id) by apply next_rowid_fresh.
Qed.

(** X8: with the messages table in place, [post_message] stores one new
    row under a fresh id, with thread, sender, receiver and content as
    given and the time of the insert, and returns it as a message;
    [get_message_by_id] gives it back, [get_messages] of its thread is
    the former history with the new message added, and the history of
    every other thread is what it was. *)
Theorem post_message_round_trip now tid sender receiver text rows (s : Store) :
  tbl_messages s = Some rows →
  ∃ m s',
    post_message now tid sender receiver text s = (Ok (Some m), s')
    ∧ m = Message.mk (Message.message_id m) tid sender receiver text now
    ∧ (Message.message_id m ∉ MessageRow.message_id <$> rows)
    ∧ tbl_messages s'
      = Some (rows ++ [MessageRow.mk (Message.message_id m) (Some tid) sender receiver
                                     text now])
    ∧ get_message_by_id (Message.message_id m) s' = (Ok (Some m), s')
    ∧ (∃ before after,
         get_messages tid s = (Ok before, s)
         ∧ get_messages tid s' = (Ok after, s')
         ∧ after ≡ₚ m :: before)
    ∧ (∀ other, other ≠ tid → (get_messages other s').1 = (get_messages other s).1)
    ∧ tbl_bookings s' = tbl_bookings s ∧ tbl_resources s' = tbl_resources s
    ∧ tbl_threads s' = tbl_threads s ∧ tbl_admin_logs s' = tbl_admin_logs s
    ∧ tbl_users s' = tbl_users s.
Proof.
  intros Hrows.
  set (row := new_message_row now rows tid sender receiver text).
  set (s' := set_messages (rows ++ [row]) s).
  assert (Hfresh : MessageRow.message_id row ∉ MessageRow.message_id <$> rows)
    by apply next_rowid_fresh.
  assert (Hnew : get_message_by_id (MessageRow.message_id row) s'
                 = (Ok (Some (_row_to_message row)), s')).
  { rewrite (get_message_by_id_run _ (rows ++ [row])) by done.
    by rewrite (fetchone_fresh MessageRow.message_id). }
  exists (_row_to_message row), s'. split.
  - unfold post_message. unfold mbind, M_bind. unfold bind at 1.
    unfold schema_guard, try_except, messages_table, bind, modify, mret, M_ret, ret.
    rewrite Hrows. exact Hnew.
  - split; [done |]. split; [done |]. split; [done |]. split; [done |].
    split; [| split; [| done]].
    + eexists _, _. split; [by apply get_messages_run |].
      split; [by apply (get_messages_run tid (rows ++ [row])) |].
      rewrite !order_by_Permutation, filter_app, filter_cons_True, filter_nil by done.
      rewrite fmap_app. simpl. by rewrite <- Permutation_cons_append.
    + intros other Hother.
      rewrite (get_messages_run other rows s), (get_messages_run other (rows ++ [row]) s')
        by done.
      simpl. rewrite filter_app, filter_cons_False, filter_nil; [| simpl; congruence].
      by rewrite app_nil_r.
Qed.

Lemma post_message_round_trip_witness :
  ∃ m s',
    post_message "2025-03-01 12:00:00" 1 4 3 "It is free." Sample.campus = (Ok (Some m), s')
    ∧ m = Message.mk (Message.message_id m) 1 4 3 "It is free." "2025-03-01 12:00:00"
    ∧ (Message.message_id m ∉ MessageRow.message_id <$> [Sample.question; Sample.answer])
    ∧ tbl_messages s'
      = Some ([Sample.question; Sample.answer]
              ++ [MessageRow.mk (Message.message_id m) (Some 1) 4 3 "It is free."
                                "2025-03-01 12:00:00"])
    ∧ get_message_by_id (Message.message_id m) s' = (Ok (Some m), s')
    ∧ (∃ before after,
         get_messages 1 Sample.campus = (Ok before, Sample.campus)
         ∧ get_messages 1 s' = (Ok after, s')
         ∧ after ≡ₚ m :: before)
    ∧ (∀ other, other ≠ 1 → (get_messages other s').1 = (get_messages other Sample.campus).1)
    ∧ tbl_bookings s' = tbl_bookings Sample.campus
    ∧ tbl_resources s' = tbl_resources Sample.campus
    ∧ tbl_threads s' = tbl_threads Sample.campus
    ∧ tbl_admin_logs s' = tbl_admin_logs Sample.campus
    ∧ tbl_users s' = tbl_users Sample.campus.
Proof.
  apply (post_message_round_trip "2025-03-01 12:00:00" 1 4 3 "It is free."
           [Sample.question; Sample.answer] Sample.campus).
  reflexivity.
Defined.

End messaging_store.

(** ** Failure of the messaging layer without its tables *)

Section messaging_failure.
Import messages_dao.

(** X9: every function of the messaging layer that touches a missing
    table raises [MessagingSchemaError] with the schema instructions and
    leaves the store as it was: the functions on threads when [threads]
    is missing, the functions on messages when [messages] is missing. *)
Theorem messaging_fails_without_tables now tid mid ts ctype cid uid receiver text (s : Store) :
  let failure {A} : Result A * Store :=
    (Raise (MessagingSchemaError _SCHEMA_INSTRUCTIONS), s) in
  (tbl_threads s = None →
     create_thread now ctype cid uid s = failure
     ∧ get_thread tid s = failure
     ∧ list_threads_for_user uid s = failure)
  ∧ (tbl_messages s = None →
       post_message now tid uid receiver text s = failure
       ∧ get_message_by_id mid s = failure
       ∧ get_messages tid s = failure
       ∧ get_messages_since tid ts s = failure
       ∧ get_last_message tid s = failure
       ∧ list_threads_for_user uid s = failure).
Proof.
  intros failure. subst failure.
  unfold create_thread, get_thread, list_threads_for_user, post_message, get_message_by_id,
    get_messages, get_messages_since, get_last_message,
    schema_guard, try_except, threads_table, messages_table,
    mbind, M_bind, bind, raise.
  split; intros Hmissing; repeat split; rewrite ?Hmissing; try done.
  destruct (tbl_threads s); simpl; by rewrite ?Hmissing.
Qed.

Lemma messaging_fails_without_tables_witness :
  create_thread "2025-03-01 12:00:00" "general" None 9 Sample.unprovisioned
  = (Raise (MessagingSchemaError _SCHEMA_INSTRUCTIONS), Sample.unprovisioned)
  ∧ post_message "2025-03-01 12:00:00" 1 9 3 "Hello" Sample.unprovisioned
    = (Raise (MessagingSchemaError _SCHEMA_INSTRUCTIONS), Sample.unprovisioned).
Proof.
  pose proof (messaging_fails_without_tables "2025-03-01 12:00:00" 1 1 "" "general" None 9 3
                "Hello" Sample.unprovisioned) as [Hthreads Hmessages].
  split; [apply Hthreads | apply Hmessages]; reflexivity.
Defined.

End messaging_failure.

(** ** The latest message of a thread *)

Section latest_message.
Import messages_dao.

Global Instance by_timestamp_trans : Transitive by_timestamp.
Proof. intros a b c. apply text_le_trans. Qed.

Global Instance by_timestamp_desc_total : Total by_timestamp_desc.
Proof. intros a b. apply text_le_total. Qed.

Global Instance by_timestamp_desc_trans : Transitive by_timestamp_desc.
Proof. intros a b c Hab Hbc. unfold by_timestamp_desc in *. by etrans. Qed.

Lemma get_last_message_run tid rows (s : Store) :
  tbl_messages s = Some rows →
  get_last_message tid s
  = (Ok (_row_to_message <$>
           Sql.fetchone (Sql.order_by by_timestamp_desc
                           (filter (λ m, MessageRow.thread_id m = Some tid) rows))), s).
Proof.
  intros Hrows. unfold get_last_message, schema_guard, try_except, messages_table,
    mbind, M_bind, bind, mret, M_ret, ret.
  by rewrite Hrows.
Qed.

(** The first row of a listing in descending order is a row of the
    listing that no other row exceeds. *)
Lemma first_of_descending (group : list MessageRow.t) :
  match Sql.fetchone (Sql.order_by by_timestamp_desc group) with
  | None => group = []
  | Some top => top ∈ group ∧ ∀ m, m ∈ group → by_timestamp m top
  end.
Proof.
  pose proof (order_by_Permutation by_timestamp_desc group) as Hperm.
  pose proof (Sorted_order_by by_timestamp_desc group) as Hsorted.
  apply Sorted_StronglySorted in Hsorted; [| apply _].
  destruct (Sql.order_by by_timestamp_desc group) as [| top sorted]; simpl.
  - by apply Permutation_nil_l in Hperm.
  - split; [rewrite <- Hperm; left |].
    intros m Hm. rewrite <- Hperm in Hm.
    apply StronglySorted_inv in Hsorted as [_ Hall].
    apply elem_of_cons in Hm as [-> | Hm]; [apply text_le_refl |].
    rewrite Forall_forall in Hall. by apply Hall.
Qed.

(** X10: with the messages table in place, [get_last_message] answers
    [None] exactly for a thread without messages; otherwise it answers a
    message of the thread whose timestamp no message of the thread
    exceeds. *)
Theorem get_last_message_latest tid rows (s : Store) :
  tbl_messages s = Some rows →
  ∃ latest,
    get_last_message tid s = (Ok latest, s)
    ∧ (latest = None ↔ ∀ row, row ∈ rows → MessageRow.thread_id row ≠ Some tid)
    ∧ ∀ m, latest = Some m →
        (∃ row, row ∈ rows ∧ MessageRow.thread_id row = Some tid ∧ m = _row_to_message row)
        ∧ ∀ row, row ∈ rows → MessageRow.thread_id row = Some tid →
            Sql.text_le (MessageRow.timestamp row) (Message.timestamp m).
Proof.
  intros Hrows. eexists. split; [by apply get_last_message_run |].
  pose proof (first_of_descending (filter (λ m, MessageRow.thread_id m = Some tid) rows))
    as Hfirst.
  destruct (Sql.fetchone _) as [top |]; simpl.
  - destruct Hfirst as [Htop Hmax]. apply list_elem_of_filter in Htop as [Htid Htop].
    split.
    + split; [done |]. intros Hnone. by destruct (Hnone top Htop).
    + intros m [= <-]. split; [by exists top |].
      intros row Hrow Hin. apply (Hmax row). by apply list_elem_of_filter.
  - split; [| done]. split; [| done]. intros _ row Hrow Hin.
    assert (Hmem : row ∈ filter (λ m, MessageRow.thread_id m = Some tid) rows)
      by by apply list_elem_of_filter.
    rewrite Hfirst in Hmem. by apply elem_of_nil in Hmem.
Qed.

Lemma get_last_message_latest_witness :
  ∃ latest,
    get_last_message 1 Sample.campus = (Ok latest, Sample.campus)
    ∧ (latest = None
       ↔ ∀ row, row ∈ [Sample.question; Sample.answer] → MessageRow.thread_id row ≠ Some 1)
    ∧ ∀ m, latest = Some m →
        (∃ row, row ∈ [Sample.question; Sample.answer]
                ∧ MessageRow.thread_id row = Some 1 ∧ m = _row_to_message row)
        ∧ ∀ row, row ∈ [Sample.question; Sample.answer] →
            MessageRow.thread_id row = Some 1 →
            Sql.text_le (MessageRow.timestamp row) (Message.timestamp m).
Proof.
  apply (get_last_message_latest 1 [Sample.question; Sample.answer] Sample.campus).
  reflexivity.
Defined.

End latest_message.

(** ** The listing of all threads *)

Section admin_listing.
Import messages_dao.

Lemma text_le_of_not_lt (a b : string) : ¬ Sql.text_lt b a → Sql.text_le a b.
Proof.
  rewrite text_lt_not_le. intros Hnn.
  destruct (decide (Sql.text_le a b)); [done | by destruct Hnn].
Qed.

Lemma text_lt_le (a b : string) : Sql.text_lt a b → Sql.text_le a b.
Proof.
  rewrite text_lt_not_le. intros Hn. by destruct (text_le_total a b).
Qed.

(** [max_text] picks an element that no element exceeds. *)
Lemma max_text_spec (xs : list string) :
  match max_text xs with
  | None => xs = []
  | Some top => top ∈ xs ∧ ∀ x, x ∈ xs → Sql.text_le x top
  end.
Proof.
  induction xs as [| x xs IH]; [done |]. simpl.
  destruct (max_text xs) as [y |].
  - destruct IH as [Hy Hmax].
    destruct (String.ltb y x) eqn:Hlt.
    + split; [left |]. intros z [-> | Hz]%elem_of_cons; [apply text_le_refl |].
      trans y; [by apply Hmax |]. apply text_lt_le. unfold Sql.text_lt. by rewrite Hlt.
    + split; [by right |]. intros z [-> | Hz]%elem_of_cons; [| by apply Hmax].
      apply text_le_of_not_lt. unfold Sql.text_lt. rewrite Hlt. simpl. tauto.
  - subst xs. split; [left |]. intros z [-> | Hz]%elem_of_cons; [apply text_le_refl |].
    by apply elem_of_nil in Hz.
Qed.

Lemma last_activity_is_latest (group : list MessageRow.t) :
  max_text (MessageRow.timestamp <$> group)
  = MessageRow.timestamp <$> Sql.fetchone (Sql.order_by by_timestamp_desc group).
Proof.
  pose proof (first_of_descending group) as Hfirst.
  pose proof (max_text_spec (MessageRow.timestamp <$> group)) as Hmax.
  destruct (Sql.fetchone _) as [top |]; simpl.
  - destruct Hfirst as [Htop Hall].
    destruct (max_text _) as [mx |].
    + destruct Hmax as [Hmx Hbound]. f_equal.
      apply list_elem_of_fmap in Hmx as (m & -> & Hm).
      apply text_le_antisym; [by apply Hall |].
      apply Hbound. by apply list_elem_of_fmap_2.
    + apply fmap_nil_inv in Hmax. subst group. by apply elem_of_nil in Htop.
  - subst group. done.
Qed.

(** X11: with both tables in place, [list_threads_for_admin] lists every
    thread once, threads with the latest activity first and threads
    without messages last; each thread comes with the number of its
    messages, and its last activity is the timestamp of the message that
    [get_last_message] returns for it ([None] when it has none). *)
Theorem list_threads_for_admin_complete ts ms (s : Store) :
  tbl_threads s = Some ts →
  tbl_messages s = Some ms →
  ∃ listing,
    list_threads_for_admin s = (Ok listing, s)
    ∧ ThreadSummary.thread <$> listing ≡ₚ ts
    ∧ Sorted by_last_activity listing
    ∧ ∀ x, x ∈ listing →
        ThreadSummary.message_count x
        = Z.of_nat (length (filter (λ m, MessageRow.thread_id m
                                         = Some (Thread.thread_id (ThreadSummary.thread x)))
                                   ms))
        ∧ ∃ latest,
            get_last_message (Thread.thread_id (ThreadSummary.thread x)) s = (Ok latest, s)
            ∧ ThreadSummary.last_activity x = Message.timestamp <$> latest.
Proof.
  intros Hts Hms. eexists. split; [| split; [| split]].
  - unfold list_threads_for_admin, schema_guard, try_except, threads_table, messages_table,
      mbind, M_bind, bind, mret, M_ret, ret.
    rewrite Hts, Hms. reflexivity.
  - rewrite order_by_Permutation, <- list_fmap_compose.
    rewrite <- (list_fmap_id ts) at 2.
    assert (Heq : ∀ l : list Thread.t,
              ThreadSummary.thread
              ∘ (λ t, summarise t (filter (λ m, MessageRow.thread_id m
                                               = Some (Thread.thread_id t)) ms)) <$> l
              = id <$> l)
      by (intros l; by apply list_fmap_ext).
    by rewrite Heq.
  - apply (Sorted_order_by by_last_activity).
  - intros x. rewrite order_by_Permutation, list_elem_of_fmap.
    intros (t & -> & Ht). simpl. split; [done |].
    eexists. split; [by apply get_last_message_run |].
    rewrite last_activity_is_latest.
    by destruct (Sql.fetchone _) as [[] |].
Qed.

Lemma list_threads_for_admin_complete_witness :
  ∃ listing,
    list_threads_for_admin Sample.campus = (Ok listing, Sample.campus)
    ∧ ThreadSummary.thread <$> listing ≡ₚ [Sample.about_booking]
    ∧ Sorted by_last_activity listing
    ∧ ∀ x, x ∈ listing →
        ThreadSummary.message_count x
        = Z.of_nat (length (filter (λ m, MessageRow.thread_id m
                                         = Some (Thread.thread_id (ThreadSummary.thread x)))
                                   [Sample.question; Sample.answer]))
        ∧ ∃ latest,
            get_last_message (Thread.thread_id (ThreadSummary.thread x)) Sample.campus
            = (Ok latest, Sample.campus)
            ∧ ThreadSummary.last_activity x = Message.timestamp <$> latest.
Proof.
  apply (list_threads_for_admin_complete [Sample.about_booking]
           [Sample.question; Sample.answer] Sample.campus); reflexivity.
Defined.

End admin_listing.

(** ** Polling with an ISO timestamp *)

Section polling.
Import messages_dao.

Lemma compare_common_prefix (p a b : string) :
  String.compare (p +:+ a) (p +:+ b) = String.compare a b.
Proof.
  induction p as [| c p IH]; [done |]. simpl.
  destruct (ascii_compare_spec c c); [done | lia | lia].
Qed.

(** X12: [get_messages_since] compares texts, so a timestamp written
    with the ISO separator [T] after the date never selects a message
    whose stored timestamp has the same date followed by a space: polling
    with such a timestamp misses every later message of that day. *)
Theorem get_messages_since_iso_separator tid date time rows (s : Store) :
  tbl_messages s = Some rows →
  ∃ recent,
    get_messages_since tid (date +:+ "T" +:+ time) s = (Ok recent, s)
    ∧ ∀ m rest, m ∈ recent → Message.timestamp m ≠ date +:+ " " +:+ rest.
Proof.
  intros Hrows. eexists. split; [by apply get_messages_since_run |].
  intros m rest Hm Hstamp.
  apply list_elem_of_fmap in Hm as (row & -> & Hrow).
  rewrite order_by_Permutation in Hrow.
  apply list_elem_of_filter in Hrow as [[_ Hlt] _].
  destruct row as [mid thread from to text stamp]. simpl in *. subst stamp.
  unfold Sql.text_lt, String.ltb in Hlt.
  by rewrite compare_common_prefix in Hlt.
Qed.

Lemma get_messages_since_iso_separator_witness :
  ∃ recent,
    get_messages_since 1 ("2025-03-01" +:+ "T" +:+ "10:00:00") Sample.campus
    = (Ok recent, Sample.campus)
    ∧ ∀ m rest, m ∈ recent → Message.timestamp m ≠ "2025-03-01" +:+ " " +:+ rest.
Proof.
  apply (get_messages_since_iso_separator 1 "2025-03-01" "10:00:00"
           [Sample.question; Sample.answer] Sample.campus).
  reflexivity.
Defined.

End polling.

(** * Further properties of the request handlers *)

(** ** Access to a thread *)

Section thread_access.
Import messages_dao controllers_messaging.

Lemma fetchone_filter_found {A} (P : A → Prop) `{∀ x, Decision (P x)}
    (rows : list A) (row : A) :
  Sql.fetchone (filter P rows) = Some row → row ∈ rows ∧ P row.
Proof.
  intros Hhead.
  assert (Hin : row ∈ filter P rows).
  { unfold Sql.fetchone in Hhead. destruct (filter P rows); [done |].
    injection Hhead as ->. left. }
  by apply list_elem_of_filter in Hin as [? ?].
Qed.

Lemma get_resource_by_id_found rid unpublished (r : Resource.t) (s s' : Store) :
  resources_dao.get_resource_by_id rid unpublished s = (Ok (Some r), s') →
  r ∈ tbl_resources s ∧ Resource.resource_id r = rid.
Proof.
  unfold resources_dao.get_resource_by_id, mbind, M_bind, bind, gets, mret, M_ret, ret.
  intros [= Hrow _].
  apply fetchone_filter_found in Hrow as [? [? _]]. done.
Qed.

Lemma get_thread_found tid (t : Thread.t) (s s' : Store) :
  get_thread tid s = (Ok (Some t), s') → Thread.thread_id t = tid.
Proof.
  unfold get_thread, schema_guard, try_except, threads_table,
    mbind, M_bind, bind, mret, M_ret, ret.
  destruct (tbl_threads s) as [ts |]; [| done]. simpl.
  intros [= Hrow _].
  destruct (Sql.fetchone _) as [row |] eqn:Hhead; [| done].
  simpl in Hrow. rewrite _row_to_thread_id in Hrow. injection Hrow as ->.
  by apply fetchone_filter_found in Hhead as [_ ?].
Qed.

Lemma history_members (messages : list Message.t) (u : Z) :
  u ∈ history messages →
  ∃ m, m ∈ messages ∧ (Message.sender_id m = u ∨ Message.receiver_id m = u).
Proof.
  unfold history. rewrite elem_of_union, !elem_of_list_to_set, !list_elem_of_fmap.
  intros [(m & -> & Hm) | (m & -> & Hm)]; exists m; auto.
Qed.

(** Everyone [_thread_participants] names is related to the thread. *)
Lemma _thread_participants_related tid (t : Thread.t) (ps : gset Z) (s s' : Store) :
  get_thread tid s = (Ok (Some t), s) →
  _thread_participants tid s = (Ok ps, s') →
  ∀ u, u ∈ ps → related s t u.
Proof.
  intros Hthread. unfold _thread_participants. unfold mbind, M_bind. unfold bind at 1.
  rewrite Hthread. unfold bind at 1.
  assert (Htid : Thread.thread_id t = tid) by by apply (get_thread_found tid t s s).
  destruct (tbl_messages s) as [ms |] eqn:Hms.
  2:{ unfold get_messages, schema_guard, try_except, messages_table,
        mbind, M_bind, bind. rewrite Hms. simpl. done. }
  rewrite (get_messages_run tid ms s Hms).
  assert (Hhist : ∀ u,
    u ∈ history (_row_to_message <$>
                   Sql.order_by by_timestamp
                     (filter (λ m, MessageRow.thread_id m = Some tid) ms)) →
    related s t u).
  { intros u (m & Hm & Hu)%history_members. left.
    apply list_elem_of_fmap in Hm as (row & -> & Hrow).
    rewrite order_by_Permutation in Hrow.
    apply list_elem_of_filter in Hrow as [Hrow_tid Hrow].
    exists ms, row. rewrite Htid. by destruct row. }
  unfold mret, M_ret, ret.
  destruct (truthy (Thread.context_id t)) eqn:Htruthy.
  2:{ rewrite !andb_false_r. simpl. intros Heq; injection Heq as <- <-; exact Hhist. }
  rewrite !andb_true_r.
  destruct (Thread.context_id t) as [cid |] eqn:Hcid; [| done]. simpl default.
  unfold resources_dao.get_resource_by_id, bookings_dao.get_booking_by_id,
    mbind, M_bind, bind, gets, mret, M_ret, ret. simpl.
  destruct (bool_decide (Thread.context_type t = "resource")) eqn:Hres.
  - apply bool_decide_eq_true in Hres.
    destruct (Sql.fetchone _) as [r |] eqn:Hr; intros Heq; injection Heq as <- <-;
      [| exact Hhist].
    apply fetchone_filter_found in Hr as [Hr [Hrid _]].
    intros u [Hu | ->%elem_of_singleton]%elem_of_union; [by apply Hhist |].
    right. left. split; [done |]. exists r. by rewrite Hrid.
  - destruct (bool_decide (Thread.context_type t = "booking")) eqn:Hbook;
      [| intros Heq; injection Heq as <- <-; exact Hhist].
    apply bool_decide_eq_true in Hbook.
    destruct (Sql.fetchone (filter (λ b, Booking.booking_id b = cid) (tbl_bookings s)))
      as [b |] eqn:Hb; simpl; [| intros Heq; injection Heq as <- <-; exact Hhist].
    apply fetchone_filter_found in Hb as [Hb Hbid].
    destruct (Sql.fetchone _) as [r |] eqn:Hr; intros Heq; injection Heq as <- <-.
    + apply fetchone_filter_found in Hr as [Hr [Hrid _]].
      intros u [[Hu | ->%elem_of_singleton]%elem_of_union | ->%elem_of_singleton]%elem_of_union;
        [by apply Hhist | |]; right; right; (split; [done |]); exists b;
        rewrite Hbid; eauto 10.
    + intros u [Hu | ->%elem_of_singleton]%elem_of_union; [by apply Hhist |].
      right. right. split; [done |]. exists b. rewrite Hbid. eauto.
Qed.

(** X13: [_ensure_thread_access] lets through only an administrator or
    a user related to the thread: a sender or receiver of one
    of its messages, the owner of its resource, or the requester or the
    resource owner of its booking.  It never writes. *)
Theorem thread_access_only_for_related user tid (t : Thread.t) (ps : gset Z) (s s' : Store) :
  _ensure_thread_access user tid s = (Ok (t, ps), s') →
  s' = s
  ∧ Thread.thread_id t = tid
  ∧ (User.is_admin user = true ∨ related s t (User.user_id user)).
Proof.
  intros Hrun.
  assert (Hs : s' = s).
  { pose proof (read_only__ensure_thread_access user tid s) as Hro.
    by rewrite Hrun in Hro. }
  subst s'. split; [done |].
  unfold _ensure_thread_access in Hrun. unfold mbind, M_bind in Hrun.
  unfold bind at 1 in Hrun.
  destruct (get_thread tid s) as [[[t' |] | e] s1] eqn:Hthread; try done.
  assert (Hs1 : s1 = s).
  { pose proof (read_only_get_thread tid s) as Hro. by rewrite Hthread in Hro. }
  subst s1. unfold bind in Hrun.
  destruct (_thread_participants tid s) as [[ps' | e] s2] eqn:Hps; [| done].
  assert (Hrel := _thread_participants_related tid t' ps' s s2 Hthread Hps).
  destruct (bool_decide (User.user_id user ∉ ps')) eqn:Hout; simpl in Hrun.
  - destruct (User.is_admin user); simpl in Hrun; [| done].
    injection Hrun as -> -> ->. split; [| by left].
    by apply (get_thread_found tid t s s).
  - injection Hrun as -> -> ->. apply bool_decide_eq_false in Hout.
    assert (Hin : User.user_id user ∈ ps).
    { destruct (decide (User.user_id user ∈ ps)); [done | by destruct Hout]. }
    split; [| right; by apply Hrel].
    by apply (get_thread_found tid t s s).
Qed.

Lemma thread_access_only_for_related_witness :
  Sample.campus = Sample.campus
  ∧ Thread.thread_id Sample.about_booking = 1
  ∧ (User.is_admin (User.mk 4 "staff") = true
     ∨ related Sample.campus Sample.about_booking (User.user_id (User.mk 4 "staff"))).
Proof.
  eapply (thread_access_only_for_related (User.mk 4 "staff") 1 Sample.about_booking _
            Sample.campus Sample.campus).
  reflexivity.
Defined.

(** A student who has nothing to do with the booking is refused; the
    administrator is let through. *)
Example thread_access_scenario :
  (_ensure_thread_access (User.mk 5 "student") 1 Sample.campus).1
  = Raise (HTTPException 403)
  ∧ (∃ ps, (_ensure_thread_access (User.mk 9 "admin") 1 Sample.campus).1
           = Ok (Sample.about_booking, ps))
  ∧ (_ensure_thread_access (User.mk 9 "admin") 2 Sample.campus).1
    = Raise (HTTPException 404).
Proof. split; [| split]; [| eexists |]; vm_compute; reflexivity. Qed.

Lemma lift_db_run {A} (m : M Store A) (app : App) :
  lift_db m app = ((m (db app)).1, mkApp (m (db app)).2 (flashes app)).
Proof. unfold lift_db. by destruct (m (db app)). Qed.

Lemma app_eta (app : App) : mkApp (db app) (flashes app) = app.
Proof. by destruct app. Qed.

(** X14: when the user has access, the thread has messages and the form
    validates, the view [thread] appends exactly one message, from the
    user to the other party of the latest message, with the submitted
    content, flashes the confirmation and redirects to the thread; on a
    thread without messages it aborts with 400 and writes nothing. *)
Theorem thread_view_reply now user (form : MessageForm) tid (t : Thread.t) (ps : gset Z)
    rows history (s : Store) shown :
  _ensure_thread_access user tid s = (Ok (t, ps), s) →
  tbl_messages s = Some rows →
  get_messages tid s = (Ok history, s) →
  validate_on_submit form = true →
  match last history with
  | None =>
      thread now user form tid (mkApp s shown)
      = (Raise (HTTPException 400), mkApp s shown)
  | Some latest =>
      let recipient :=
        if bool_decide (Message.sender_id latest = User.user_id user)
        then Message.receiver_id latest
        else Message.sender_id latest in
      thread now user form tid (mkApp s shown)
      = (Ok (redirect "messaging.thread" [("thread_id", tid)]),
         mkApp (set_messages
                  (rows ++ [new_message_row now rows tid (User.user_id user) recipient
                              (content_data form)]) s)
               (shown ++ [("Message sent.", "success")]))
  end.
Proof.
  intros Haccess Hrows Hhistory Hvalid.
  pose proof (post_message_run now tid (User.user_id user)) as Hpost.
  destruct (last history) as [latest |] eqn:Hlast.
  - intros recipient. subst recipient.
    specialize (Hpost (if bool_decide (Message.sender_id latest = User.user_id user)
                       then Message.receiver_id latest else Message.sender_id latest)
                      (content_data form) rows s Hrows).
    cbv zeta in Hpost.
    unfold thread, mbind, M_bind, bind, try_except, lift_db, warn_schema, flash, modify,
      mret, M_ret, ret.
    cbn -[_ensure_thread_access get_messages post_message new_message_row].
    rewrite Haccess, Hhistory, Hvalid, Hlast.
    cbn [db flashes]. by rewrite Hpost.
  - unfold thread, mbind, M_bind, bind, try_except, lift_db, warn_schema, abort, raise,
      mret, M_ret, ret.
    cbn -[_ensure_thread_access get_messages post_message].
    by rewrite Haccess, Hhistory, Hvalid, Hlast.
Qed.

Lemma thread_view_reply_witness :
  thread "2025-03-01 12:00:00" (User.mk 4 "staff")
         (mkMessageForm true true (Some "Yes, it is.")) 1 (mkApp Sample.campus [])
  = (Ok (redirect "messaging.thread" [("thread_id", 1)]),
     mkApp (set_messages
              ([Sample.question; Sample.answer]
               ++ [new_message_row "2025-03-01 12:00:00" [Sample.question; Sample.answer]
                     1 4 9 "Yes, it is."]) Sample.campus)
           ([] ++ [("Message sent.", "success")])).
Proof.
  eapply (thread_view_reply "2025-03-01 12:00:00" (User.mk 4 "staff")
            (mkMessageForm true true (Some "Yes, it is.")) 1 Sample.about_booking _
            [Sample.question; Sample.answer]
            [_row_to_message Sample.question; _row_to_message Sample.answer]
            Sample.campus []);
    reflexivity.
Defined.

End thread_access.

(** ** The views on a booking *)

Section booking_views.
Import controllers_bookings.

(** X15: the views [approve], [reject] and [complete] act for the owner
    of the booked resource or an administrator, the view [cancel] for the
    requester or an administrator; they then run the transition of the
    data-access layer, flash their message and redirect.  Any other user
    gets 403, and nothing is written or flashed. *)
Theorem booking_views_check_the_user now user notes referrer bid
    (b : Booking.t) (r : Resource.t) (app : App) :
  bookings_dao.get_booking_by_id bid (db app) = (Ok (Some b), db app) →
  resources_dao.get_resource_by_id (Booking.resource_id b) true (db app)
  = (Ok (Some r), db app) →
  let manager := bool_decide (User.user_id user = Resource.owner_id r)
                 || User.is_admin user in
  let requester := bool_decide (User.user_id user = Booking.requester_id b)
                   || User.is_admin user in
  let back := redirect (or_else referrer "bookings.my_bookings") [] in
  let refused {A} : Result A * App := (Raise (HTTPException 403), app) in
  approve now user notes referrer bid app
  = (if manager
     then (Ok back,
           mkApp (bookings_dao.approve_booking now bid (User.user_id user)
                    (notes_of notes) (db app)).2
                 (flashes app ++ [("Booking approved.", "success")]))
     else refused)
  ∧ reject now user notes referrer bid app
    = (if manager
       then (Ok back,
             mkApp (bookings_dao.reject_booking now bid (User.user_id user)
                      (notes_of notes) (db app)).2
                   (flashes app ++ [("Booking rejected.", "info")]))
       else refused)
  ∧ complete now user referrer bid app
    = (if manager
       then (Ok back,
             mkApp (bookings_dao.complete_booking now bid (db app)).2
                   (flashes app ++ [("Booking marked as completed.", "success")]))
       else refused)
  ∧ cancel now user bid app
    = (if requester
       then (Ok (redirect "bookings.my_bookings" []),
             mkApp (bookings_dao.cancel_booking now bid (db app)).2
                   (flashes app ++ [("Booking cancelled.", "info")]))
       else refused).
Proof.
  intros Hbooking Hresource manager requester back refused.
  subst manager requester back refused. destruct app as [s shown]. simpl in *.
  unfold approve, reject, complete, cancel, _ensure_owner_or_admin,
    mbind, M_bind, bind, lift_db, flash, modify, abort, raise, mret, M_ret, ret.
  cbn -[bookings_dao.get_booking_by_id resources_dao.get_resource_by_id
        bookings_dao.approve_booking bookings_dao.reject_booking
        bookings_dao.complete_booking bookings_dao.cancel_booking].
  rewrite Hbooking. cbn -[resources_dao.get_resource_by_id
        bookings_dao.approve_booking bookings_dao.reject_booking
        bookings_dao.complete_booking bookings_dao.cancel_booking].
  rewrite Hresource.
  destruct (User.is_admin user);
    destruct (decide (User.user_id user = Resource.owner_id r)) as [Howner | Howner];
    destruct (decide (User.user_id user = Booking.requester_id b)) as [Hreq | Hreq];
    rewrite ?(bool_decide_eq_true_2 _ Howner), ?(bool_decide_eq_false_2 _ Howner),
      ?(bool_decide_eq_true_2 _ Hreq), ?(bool_decide_eq_false_2 _ Hreq);
    rewrite ?(bool_decide_eq_false_2 (User.user_id user ≠ Resource.owner_id r)) by tauto;
    rewrite ?(bool_decide_eq_true_2 (User.user_id user ≠ Resource.owner_id r)) by tauto;
    rewrite ?(bool_decide_eq_false_2 (Booking.requester_id b ≠ User.user_id user))
      by (intros Hne; by apply Hne);
    rewrite ?(bool_decide_eq_true_2 (Booking.requester_id b ≠ User.user_id user))
      by (intros Heq; by apply Hreq);
    done.
Qed.

Lemma booking_views_check_the_user_witness :
  approve "2025-03-01 12:00:00" (User.mk 4 "staff") (Some "See you then.") None 1
          (mkApp Sample.campus [])
  = (Ok (redirect "bookings.my_bookings" []),
     mkApp (bookings_dao.approve_booking "2025-03-01 12:00:00" 1 4 (Some "See you then.")
              Sample.campus).2
           [("Booking approved.", "success")])
  ∧ cancel "2025-03-01 12:00:00" (User.mk 4 "staff") 1 (mkApp Sample.campus [])
    = (Raise (HTTPException 403), mkApp Sample.campus []).
Proof.
  pose proof (booking_views_check_the_user "2025-03-01 12:00:00" (User.mk 4 "staff")
                (Some "See you then.") None 1 Sample.asked Sample.lab
                (mkApp Sample.campus []) eq_refl eq_refl) as (Happrove & _ & _ & Hcancel).
  split; [exact Happrove | exact Hcancel].
Defined.

(** A booking that does not exist gives 404 in all four views, and blank
    approval notes are stored as no notes. *)
Example booking_views_edge_cases :
  (approve "2025-03-01 12:00:00" (User.mk 9 "admin") None None 5 (mkApp Sample.campus [])).1
  = Raise (HTTPException 404)
  ∧ (cancel "2025-03-01 12:00:00" (User.mk 9 "admin") 5 (mkApp Sample.campus [])).1
    = Raise (HTTPException 404)
  ∧ Booking.approval_notes <$>
      tbl_bookings (db (approve "2025-03-01 12:00:00" (User.mk 4 "staff") (Some "") None 1
                          (mkApp Sample.campus [])).2)
    = [None].
Proof. repeat split. Qed.

Lemma admin_role_only (user : User.t) {A} (view : M App A) (app : App) :
  controllers_auth.role_required ["admin"] view user app
  = if User.is_admin user then view app else (Raise (HTTPException 403), app).
Proof.
  unfold controllers_auth.role_required, User.is_admin.
  change (filter _ ["admin"]) with ["admin"].
  rewrite (bool_decide_eq_true_2 (["admin"] ≠ [])) by done. simpl.
  destruct (decide (User.role user = "admin")) as [Hadmin | Hother].
  - rewrite (bool_decide_eq_true_2 (User.role user = "admin")) by done.
    by rewrite andb_false_r.
  - rewrite (bool_decide_eq_false_2 (User.role user = "admin")) by done.
    rewrite (bool_decide_eq_true_2 (User.role user ∉ ["admin"])); [done |].
    by intros ?%list_elem_of_singleton.
Qed.

(** X16: the administrator's views [approve_booking], [reject_booking]
    and [threads] refuse every user whose role is not admin with 403 and
    write nothing; for an administrator the two booking views run the
    transition on whatever booking id they are given, without looking
    the booking up, flash and redirect to the list of bookings. *)
Theorem admin_views_need_admin now user notes bid (app : App) :
  (User.is_admin user = false →
     controllers_admin.approve_booking now user notes bid app
     = (Raise (HTTPException 403), app)
     ∧ controllers_admin.reject_booking now user notes bid app
       = (Raise (HTTPException 403), app)
     ∧ controllers_admin.threads user app = (Raise (HTTPException 403), app))
  ∧ (User.is_admin user = true →
       controllers_admin.approve_booking now user notes bid app
       = (Ok (redirect "admin.bookings" []),
          mkApp (bookings_dao.approve_booking now bid (User.user_id user)
                   (notes_of notes) (db app)).2
                (flashes app ++ [("Booking approved.", "success")]))
       ∧ controllers_admin.reject_booking now user notes bid app
         = (Ok (redirect "admin.bookings" []),
            mkApp (bookings_dao.reject_booking now bid (User.user_id user)
                     (notes_of notes) (db app)).2
                  (flashes app ++ [("Booking rejected.", "info")]))).
Proof.
  unfold controllers_admin.approve_booking, controllers_admin.reject_booking,
    controllers_admin.threads.
  rewrite !admin_role_only.
  split; intros ->; [done |]. by destruct app.
Qed.

Lemma admin_views_need_admin_witness :
  controllers_admin.threads (User.mk 4 "staff") (mkApp Sample.campus [])
  = (Raise (HTTPException 403), mkApp Sample.campus [])
  ∧ controllers_admin.approve_booking "2025-03-01 12:00:00" (User.mk 9 "admin") None 1
      (mkApp Sample.campus [])
    = (Ok (redirect "admin.bookings" []),
       mkApp (bookings_dao.approve_booking "2025-03-01 12:00:00" 1 9 None Sample.campus).2
             [("Booking approved.", "success")]).
Proof.
  pose proof (admin_views_need_admin "2025-03-01 12:00:00" (User.mk 4 "staff") None 1
                (mkApp Sample.campus [])) as [Hstaff _].
  pose proof (admin_views_need_admin "2025-03-01 12:00:00" (User.mk 9 "admin") None 1
                (mkApp Sample.campus [])) as [_ Hadmin].
  split; [apply Hstaff | apply Hadmin]; reflexivity.
Defined.

End booking_views.

(** ** The queue of pending approvals *)

Section approval_queue.
Import controllers_bookings.

Lemma staff_or_admin_only (user : User.t) {A} (view : M App A) (app : App) :
  controllers_auth.role_in ["staff"; "admin"] view user app
  = if bool_decide (User.role user = "staff") || User.is_admin user
    then view app
    else (Raise (HTTPException 403), app).
Proof.
  unfold controllers_auth.role_in, controllers_auth.role_required, User.is_admin.
  change (filter _ (filter _ ["staff"; "admin"])) with ["staff"; "admin"].
  rewrite (bool_decide_eq_true_2 (["staff"; "admin"] ≠ [])) by done. simpl.
  destruct (decide (User.role user = "admin")) as [Hadmin | Hadmin].
  { rewrite (bool_decide_eq_true_2 (User.role user = "admin")) by done.
    by rewrite andb_false_r, orb_true_r. }
  rewrite (bool_decide_eq_false_2 (User.role user = "admin")) by done.
  rewrite andb_true_r, orb_false_r.
  destruct (decide (User.role user = "staff")) as [Hstaff | Hstaff].
  - rewrite (bool_decide_eq_true_2 (User.role user = "staff")) by done.
    rewrite bool_decide_eq_false_2; [done |].
    intros Hout. apply Hout. rewrite Hstaff. left.
  - rewrite (bool_decide_eq_false_2 (User.role user = "staff")) by done.
    rewrite bool_decide_eq_true_2; [done |].
    intros [? | [? | ?%elem_of_nil]%elem_of_cons]%elem_of_cons; done.
Qed.

Lemma enrich_run (pending : list Booking.t) (app : App) :
  ∃ enriched,
    enrich pending app = (Ok enriched, app)
    ∧ enriched.*1 = pending
    ∧ Forall (λ entry, resources_dao.get_resource_by_id
                         (Booking.resource_id entry.1) true (db app)
                       = (Ok entry.2, db app)) enriched.
Proof.
  induction pending as [| b pending (enriched & Hrun & Hfst & Hres)].
  - exists []. destruct app. repeat split. constructor.
  - eexists ((b, _) :: enriched). simpl.
    unfold mbind, M_bind, bind. rewrite lift_db_run. simpl. rewrite app_eta, Hrun.
    split; [reflexivity |]. split; [by rewrite <- Hfst |].
    constructor; [done | exact Hres].
Qed.

(** X17: the view [pending_approvals] refuses with 403 a user who is
    neither staff nor administrator; it shows an administrator the whole
    queue of [list_pending_approvals] and a staff member the queue of
    [list_pending_for_owner] for the resources they own, each booking
    with the resource that [get_resource_by_id] finds for it; it writes
    nothing. *)
Theorem pending_approvals_by_role user (app : App) :
  (User.role user ≠ "staff" → User.is_admin user = false →
     pending_approvals user app = (Raise (HTTPException 403), app))
  ∧ (User.role user = "staff" ∨ User.is_admin user = true →
       ∃ page,
         pending_approvals user app
         = (Ok (render_template "bookings_pending.html" page), app)
         ∧ (if User.is_admin user
            then bookings_dao.list_pending_approvals (db app)
            else bookings_dao.list_pending_for_owner (User.user_id user) (db app))
           = (Ok page.*1, db app)
         ∧ Forall (λ entry, resources_dao.get_resource_by_id
                              (Booking.resource_id entry.1) true (db app)
                            = (Ok entry.2, db app)) page).
Proof.
  unfold pending_approvals. rewrite staff_or_admin_only. split.
  - intros Hstaff ->. by rewrite (bool_decide_eq_false_2 (User.role user = "staff")).
  - intros Hrole.
    assert (Hpass : bool_decide (User.role user = "staff") || User.is_admin user = true).
    { destruct Hrole as [Hstaff | ->]; [| by rewrite orb_true_r].
      by rewrite (bool_decide_eq_true_2 (User.role user = "staff")). }
    rewrite Hpass. unfold mbind, M_bind. unfold bind at 1. rewrite lift_db_run.
    assert (Hlist : ∃ pending,
      (if User.is_admin user
       then bookings_dao.list_pending_approvals
       else bookings_dao.list_pending_for_owner (User.user_id user)) (db app)
      = (Ok pending, db app)).
    { destruct (User.is_admin user); by eexists. }
    destruct Hlist as [pending Hlist]. rewrite Hlist. simpl. rewrite app_eta.
    destruct (enrich_run pending app) as (enriched & Hrun & Hfst & Hres).
    unfold bind. rewrite Hrun. exists enriched.
    split; [done |]. split; [| done]. rewrite Hfst.
    by destruct (User.is_admin user).
Qed.

Lemma pending_approvals_by_role_witness :
  ∃ page,
    pending_approvals (User.mk 4 "staff") (mkApp Sample.campus [])
    = (Ok (render_template "bookings_pending.html" page), mkApp Sample.campus [])
    ∧ (if User.is_admin (User.mk 4 "staff")
       then bookings_dao.list_pending_approvals (db (mkApp Sample.campus []))
       else bookings_dao.list_pending_for_owner (User.user_id (User.mk 4 "staff"))
              (db (mkApp Sample.campus [])))
      = (Ok page.*1, db (mkApp Sample.campus []))
    ∧ Forall (λ entry, resources_dao.get_resource_by_id
                         (Booking.resource_id entry.1) true (db (mkApp Sample.campus []))
                       = (Ok entry.2, db (mkApp Sample.campus []))) page.
Proof.
  apply (pending_approvals_by_role (User.mk 4 "staff") (mkApp Sample.campus [])).
  left. reflexivity.
Defined.

(** The staff member who owns the lab sees the request for it; a student
    is turned away. *)
Example pending_approvals_scenario :
  (pending_approvals (User.mk 4 "staff") (mkApp Sample.campus [])).1
  = Ok (render_template "bookings_pending.html" [(Sample.asked, Some Sample.lab)])
  ∧ (pending_approvals (User.mk 8 "staff") (mkApp Sample.campus [])).1
    = Ok (render_template "bookings_pending.html" [])
  ∧ (pending_approvals (User.mk 3 "student") (mkApp Sample.campus [])).1
    = Raise (HTTPException 403).
Proof. repeat split; vm_compute; reflexivity. Qed.

End approval_queue.

(** ** The inbox *)

Section inbox_view.
Import messages_dao controllers_messaging.

Lemma guarded_read {A} (m : M Store A) (x : A) (app : App) :
  m (db app) = (Ok x, db app) →
  try_except (bind (lift_db m) (λ y, mret (Some y))) (warn_schema None) app
  = (Ok (Some x), app).
Proof.
  intros Hrun. unfold try_except, bind.
  rewrite lift_db_run, Hrun. simpl. by rewrite app_eta.
Qed.

Lemma guarded_read_missing {A} (m : M Store A) (message : string) (app : App) :
  m (db app) = (Raise (MessagingSchemaError message), db app) →
  try_except (bind (lift_db m) (λ y, mret (Some y))) (warn_schema None) app
  = (Ok None, mkApp (db app) (flashes app ++ [(message, "warning")])).
Proof.
  intros Hrun. unfold try_except, bind.
  rewrite lift_db_run, Hrun. reflexivity.
Qed.

Lemma list_threads_for_user_missing user_id (s : Store) :
  tbl_threads s = None ∨ tbl_messages s = None →
  list_threads_for_user user_id s = (Raise (MessagingSchemaError _SCHEMA_INSTRUCTIONS), s).
Proof.
  unfold list_threads_for_user, schema_guard, try_except, threads_table, messages_table,
    mbind, M_bind, bind, raise.
  destruct (tbl_threads s), (tbl_messages s); intros [? | ?]; done.
Qed.

Lemma fetchone_filter_some {A} (P : A → Prop) `{∀ x, Decision (P x)}
    (rows : list A) (row : A) :
  row ∈ rows → P row → ∃ found, Sql.fetchone (filter P rows) = Some found.
Proof.
  intros Hin Hrow.
  assert (Hfound : row ∈ filter P rows) by (by apply list_elem_of_filter).
  unfold Sql.fetchone. destruct (filter P rows) as [| found ?]; [| by eexists].
  by apply elem_of_nil in Hfound.
Qed.

Lemma _resolve_context_run (t : Thread.t) (s : Store) :
  ∃ context, _resolve_context t s = (Ok context, s).
Proof.
  unfold _resolve_context.
  destruct (bool_decide (Thread.context_type t = "resource") && truthy (Thread.context_id t));
    [by eexists |].
  destruct (bool_decide (Thread.context_type t = "booking") && truthy (Thread.context_id t));
    [| by eexists].
  unfold mbind, M_bind, bind. rewrite get_booking_by_id_run.
  destruct (_ <$> Sql.fetchone _); by eexists.
Qed.

Lemma inbox_loop_run user ts ms (rows : list ThreadSummary.t) (threads : list InboxItem)
    (app : App) :
  tbl_threads (db app) = Some ts →
  tbl_messages (db app) = Some ms →
  Forall (λ row, ThreadSummary.thread row ∈ ts) rows →
  ∃ items,
    inbox_loop user rows threads app = (Ok (threads ++ items), app)
    ∧ Forall2 (shows user (db app)) rows items.
Proof.
  intros Hts Hms Hrows. revert threads.
  induction Hrows as [| row rows Hrow _ IH]; intros threads.
  { exists []. rewrite app_nil_r. split; [done | constructor]. }
  destruct (fetchone_filter_some
              (λ t, Thread.thread_id t = Thread.thread_id (ThreadSummary.thread row))
              ts _ Hrow eq_refl) as [t Ht].
  pose proof (get_thread_run (Thread.thread_id (ThreadSummary.thread row)) ts (db app) Hts)
    as Hthread.
  rewrite Ht in Hthread.
  pose proof (get_last_message_run (Thread.thread_id t) ms (db app) Hms) as Hlast.
  destruct (_resolve_context_run t (db app)) as [context Hcontext].
  simpl. unfold mbind, M_bind. unfold bind at 1.
  rewrite (guarded_read _ _ app Hthread).
  unfold bind at 1. rewrite (guarded_read _ _ app Hlast).
  unfold bind at 1. rewrite lift_db_run, Hcontext. simpl. rewrite app_eta.
  destruct (IH (threads ++ [mkInboxItem t context
    (_row_to_message <$>
       Sql.fetchone (Sql.order_by by_timestamp_desc
                       (filter (λ m, MessageRow.thread_id m = Some (Thread.thread_id t)) ms)))
    (ThreadSummary.message_count row)
    match _row_to_message <$>
            Sql.fetchone (Sql.order_by by_timestamp_desc
                            (filter (λ m, MessageRow.thread_id m = Some (Thread.thread_id t)) ms))
    with
    | Some m => negb (bool_decide (Message.sender_id m = User.user_id user))
    | None => false
    end])) as (items & Hrun & Hitems).
  eexists (_ :: items). rewrite Hrun, <- app_assoc. split; [reflexivity |].
  constructor; [| done].
  apply fetchone_filter_found in Ht as [_ Hid].
  unfold shows. simpl. rewrite <- Hid. done.
Qed.

(** X18: the view [inbox] always answers with the inbox page and never
    writes to the store.  When [list_threads_for_user] fails (a messaging
    table is missing) the page is empty and the instructions are flashed
    as a warning.  Otherwise nothing is flashed and the page has one entry
    per row of the listing, in its order, with the row's thread and its
    message count (so the count of the user's own messages), but with the
    latest message of the whole thread from [get_last_message], which
    also decides the unread mark. *)
Theorem inbox_entries user (app : App) :
  ∃ items app',
    inbox user app = (Ok (render_template "messaging_inbox.html" items), app')
    ∧ db app' = db app
    ∧ match (list_threads_for_user (User.user_id user) (db app)).1 with
      | Ok rows =>
          flashes app' = flashes app ∧ Forall2 (shows user (db app)) rows items
      | Raise _ =>
          items = [] ∧ flashes app' = flashes app ++ [(_SCHEMA_INSTRUCTIONS, "warning")]
      end.
Proof.
  destruct (tbl_threads (db app)) as [ts |] eqn:Hts;
    [destruct (tbl_messages (db app)) as [ms |] eqn:Hms |].
  - destruct (list_threads_for_user_listing (User.user_id user) ts ms (db app) Hts Hms)
      as (rows & Hrun & _ & Hrows).
    destruct (inbox_loop_run user ts ms rows [] app Hts Hms) as (items & Hloop & Hitems).
    { apply Forall_forall. intros row (t & Ht & _ & ->)%Hrows. done. }
    exists items, app. unfold inbox, mbind, M_bind. unfold bind at 1.
    rewrite (guarded_read _ _ app Hrun). unfold bind. rewrite Hloop, Hrun. done.
  - pose proof (list_threads_for_user_missing (User.user_id user) (db app) (or_intror Hms))
      as Hrun.
    eexists [], _. unfold inbox, mbind, M_bind. unfold bind at 1.
    rewrite (guarded_read_missing _ _ app Hrun), Hrun. done.
  - pose proof (list_threads_for_user_missing (User.user_id user) (db app) (or_introl Hts))
      as Hrun.
    eexists [], _. unfold inbox, mbind, M_bind. unfold bind at 1.
    rewrite (guarded_read_missing _ _ app Hrun), Hrun. done.
Qed.

(** The owner's inbox shows the thread with the count of the one message
    the owner took part in and the administrator's answer as latest
    message. *)
Example inbox_scenario :
  ∃ item,
    (inbox (User.mk 4 "staff") (mkApp Sample.campus [])).1
    = Ok (render_template "messaging_inbox.html" [item])
    ∧ item_message_count item = 1
    ∧ item_last_message item = Some (_row_to_message Sample.answer)
    ∧ item_has_unread item = true.
Proof. eexists. repeat split; vm_compute; reflexivity. Qed.

End inbox_view.

(** ** The administrator's views of the threads *)

Section admin_threads.
Import messages_dao controllers_admin.

Lemma list_threads_for_admin_run ts ms (s : Store) :
  tbl_threads s = Some ts →
  tbl_messages s = Some ms →
  ∃ rows,
    list_threads_for_admin s = (Ok rows, s)
    ∧ Forall (λ row, ThreadSummary.thread row ∈ ts) rows.
Proof.
  intros Hts Hms. eexists. split.
  - unfold list_threads_for_admin, schema_guard, try_except, threads_table, messages_table,
      mbind, M_bind, bind, mret, M_ret, ret.
    rewrite Hts, Hms. reflexivity.
  - apply Forall_forall. intros row.
    rewrite order_by_Permutation, list_elem_of_fmap. by intros (t & -> & Ht).
Qed.

Lemma get_resource_by_id_run rid unpublished (s : Store) :
  ∃ resource, resources_dao.get_resource_by_id rid unpublished s = (Ok resource, s).
Proof. by eexists. Qed.



Lemma thread_items_run ts ms (rows : list ThreadSummary.t) (items : list ThreadItem)
    (app : App) :
  tbl_threads (db app) = Some ts →
  tbl_messages (db app) = Some ms →
  Forall (λ row, ThreadSummary.thread row ∈ ts) rows →
  ∃ listed,
    thread_items rows items app = (Ok (items ++ listed), app)
    ∧ Forall2 (lists (db app)) rows listed.
Proof.
  intros Hts Hms Hrows. revert items.
  induction Hrows as [| row rows Hrow _ IH]; intros items.
  { exists []. rewrite app_nil_r. split; [done | constructor]. }
  destruct (fetchone_filter_some
              (λ t, Thread.thread_id t = Thread.thread_id (ThreadSummary.thread row))
              ts _ Hrow eq_refl) as [t Ht].
  pose proof (get_thread_run (Thread.thread_id (ThreadSummary.thread row)) ts (db app) Hts)
    as Hthread.
  rewrite Ht in Hthread.
  pose proof (get_last_message_run (Thread.thread_id t) ms (db app) Hms) as Hlast.
  destruct (_resolve_context_run t (db app)) as [context Hcontext].
  simpl. unfold mbind, M_bind.
  unfold bind at 1. rewrite lift_db_run, Hthread. simpl. rewrite app_eta.
  unfold bind at 1. rewrite lift_db_run, Hlast. simpl. rewrite app_eta.
  unfold bind at 1. rewrite lift_db_run, Hcontext. simpl. rewrite app_eta.
  match goal with
  | |- ∃ _, thread_items _ (_ ++ [?item]) _ = _ ∧ _ =>
      destruct (IH (items ++ [item])) as (listed & Hrun & Hlisted);
      exists (item :: listed)
  end.
  rewrite Hrun, <- app_assoc. split; [reflexivity |].
  constructor; [| done].
  apply fetchone_filter_found in Ht as [_ Hid].
  unfold lists. simpl. rewrite <- Hid in Hthread |- *. done.
Qed.


(** X20: for an administrator the view [threads] does not guard its
    reads: when [list_threads_for_admin] fails (a messaging table is
    missing) the [MessagingSchemaError] leaves the view, with nothing
    flashed or written.  Otherwise it renders one entry per row of the
    listing, in its order, with the thread, the row's message count, the
    thread's latest message and its context, and writes nothing. *)
Theorem admin_threads_unguarded (user : User.t) (app : App) :
  User.is_admin user = true →
  match (list_threads_for_admin (db app)).1 with
  | Ok rows =>
      ∃ items,
        threads user app = (Ok (render_template "admin_threads.html" items), app)
        ∧ Forall2 (lists (db app)) rows items
  | Raise e =>
      threads user app = (Raise e, app) ∧ e = MessagingSchemaError _SCHEMA_INSTRUCTIONS
  end.
Proof.
  intros Hadmin. unfold threads. rewrite admin_role_only, Hadmin.
  destruct (tbl_threads (db app)) as [ts |] eqn:Hts;
    [destruct (tbl_messages (db app)) as [ms |] eqn:Hms |].
  - destruct (list_threads_for_admin_run ts ms (db app) Hts Hms) as (rows & Hrun & Hrows).
    destruct (thread_items_run ts ms rows [] app Hts Hms Hrows) as (items & Hloop & Hitems).
    rewrite Hrun. exists items. unfold mbind, M_bind, bind.
    rewrite lift_db_run, Hrun. cbn [fst snd]. by rewrite app_eta, Hloop.
  - rewrite (list_threads_for_admin_missing (db app) (or_intror Hms)).
    unfold mbind, M_bind, bind.
    rewrite lift_db_run, (list_threads_for_admin_missing (db app) (or_intror Hms)).
    cbn [fst snd]. by rewrite app_eta.
  - rewrite (list_threads_for_admin_missing (db app) (or_introl Hts)).
    unfold mbind, M_bind, bind.
    rewrite lift_db_run, (list_threads_for_admin_missing (db app) (or_introl Hts)).
    cbn [fst snd]. by rewrite app_eta.
Qed.

Lemma admin_threads_unguarded_witness :
  match (list_threads_for_admin (db (mkApp Sample.unprovisioned []))).1 with
  | Ok rows =>
      ∃ items,
        threads (User.mk 9 "admin") (mkApp Sample.unprovisioned [])
        = (Ok (render_template "admin_threads.html" items), mkApp Sample.unprovisioned [])
        ∧ Forall2 (lists (db (mkApp Sample.unprovisioned []))) rows items
  | Raise e =>
      threads (User.mk 9 "admin") (mkApp Sample.unprovisioned [])
      = (Raise e, mkApp Sample.unprovisioned [])
      ∧ e = MessagingSchemaError _SCHEMA_INSTRUCTIONS
  end.
Proof.
  apply (admin_threads_unguarded (User.mk 9 "admin") (mkApp Sample.unprovisioned [])).
  reflexivity.
Defined.

(** With the tables in place the administrator sees the thread with both
    of its messages counted. *)
Example admin_threads_scenario :
  ∃ item,
    (threads (User.mk 9 "admin") (mkApp Sample.campus [])).1
    = Ok (render_template "admin_threads.html" [item])
    ∧ titem_thread item = Sample.about_booking
    ∧ titem_message_count item = 2
    ∧ titem_last_message item = Some (_row_to_message Sample.answer).
Proof. eexists. repeat split; vm_compute; reflexivity. Qed.

End admin_threads.

(** ** Polling a thread *)

Section polling_view.
Import messages_dao controllers_messaging.

Lemma _thread_participants_run tid ts ms (t : Thread.t) (s : Store) :
  tbl_threads s = Some ts →
  tbl_messages s = Some ms →
  Sql.fetchone (filter (λ t, Thread.thread_id t = tid) ts) = Some t →
  ∃ participants, _thread_participants tid s = (Ok participants, s).
Proof.
  intros Hts Hms Ht. unfold _thread_participants, mbind, M_bind. unfold bind at 1.
  rewrite (get_thread_run tid ts s Hts), Ht.
  unfold bind at 1. rewrite (get_messages_run tid ms s Hms).
  destruct (bool_decide (Thread.context_type t = "resource") && truthy (Thread.context_id t)).
  { destruct (get_resource_by_id_run (default 0 (Thread.context_id t)) true s) as [r Hr].
    unfold bind. rewrite Hr. destruct r; by eexists. }
  destruct (bool_decide (Thread.context_type t = "booking") && truthy (Thread.context_id t));
    [| by eexists].
  unfold bind. rewrite get_booking_by_id_run.
  destruct (_ <$> Sql.fetchone _) as [b |]; [| by eexists].
  destruct (get_resource_by_id_run (Booking.resource_id b) true s) as [r Hr].
  rewrite Hr. destruct r; by eexists.
Qed.

Lemma get_thread_missing tid (s : Store) :
  tbl_threads s = None →
  get_thread tid s = (Raise (MessagingSchemaError _SCHEMA_INSTRUCTIONS), s).
Proof.
  intros Hts. unfold get_thread, schema_guard, try_except, threads_table,
    mbind, M_bind, bind.
  by rewrite Hts.
Qed.

Lemma get_messages_missing tid (s : Store) :
  tbl_messages s = None →
  get_messages tid s = (Raise (MessagingSchemaError _SCHEMA_INSTRUCTIONS), s).
Proof.
  intros Hms. unfold get_messages, schema_guard, try_except, messages_table,
    mbind, M_bind, bind.
  by rewrite Hms.
Qed.

(** How [_ensure_thread_access] can end. *)
Lemma _ensure_thread_access_outcomes user tid (s : Store) :
  ∃ r, _ensure_thread_access user tid s = (r, s)
       ∧ match r with
         | Ok _ => is_Some (tbl_messages s)
         | Raise e =>
             e = MessagingSchemaError _SCHEMA_INSTRUCTIONS
             ∨ e = HTTPException 404 ∨ e = HTTPException 403
         end.
Proof.
  unfold _ensure_thread_access, mbind, M_bind. unfold bind at 1.
  destruct (tbl_threads s) as [ts |] eqn:Hts.
  2:{ rewrite (get_thread_missing tid s Hts). eexists. split; [done |]. by left. }
  rewrite (get_thread_run tid ts s Hts).
  destruct (Sql.fetchone _) as [t |] eqn:Ht.
  2:{ eexists. split; [done |]. right. by left. }
  unfold bind.
  destruct (tbl_messages s) as [ms |] eqn:Hms.
  - destruct (_thread_participants_run tid ts ms t s Hts Hms Ht) as [ps Hps].
    rewrite Hps.
    destruct (bool_decide (User.user_id user ∉ ps) && negb (User.is_admin user)).
    + eexists. split; [done |]. right. by right.
    + eexists. split; [done |]. by eexists.
  - unfold _thread_participants, mbind, M_bind. unfold bind at 1.
    rewrite (get_thread_run tid ts s Hts), Ht. unfold bind at 1.
    rewrite (get_messages_missing tid s Hms).
    eexists. split; [done |]. by left.
Qed.

(** X21: the view [thread_since] never writes.  A schema error of the
    access check is answered with the empty list, its 404 and 403 leave
    the view; once access is granted a missing or empty [ts] gives 400,
    and otherwise the answer is the thread's messages with a timestamp
    after [ts], in ascending order: the guard around
    [get_messages_since] is never needed then. *)
Theorem thread_since_outcomes user ts tid (s : Store) :
  thread_since user ts tid s
  = (match (_ensure_thread_access user tid s).1, ts with
     | Raise (MessagingSchemaError _), _ => Ok []
     | Raise e, _ => Raise e
     | Ok _, Some (String _ _ as since) =>
         Ok (_row_to_message <$>
               Sql.order_by by_timestamp
                 (filter (λ m, MessageRow.thread_id m = Some tid
                               ∧ Sql.text_lt since (MessageRow.timestamp m))
                         (default [] (tbl_messages s))))
     | Ok _, _ => Raise (HTTPException 400)
     end, s)
  ∧ match (_ensure_thread_access user tid s).1 with
    | Ok _ => is_Some (tbl_messages s)
    | Raise e =>
        e = MessagingSchemaError _SCHEMA_INSTRUCTIONS
        ∨ e = HTTPException 404 ∨ e = HTTPException 403
    end.
Proof.
  destruct (_ensure_thread_access_outcomes user tid s) as (r & Hrun & Hr).
  unfold thread_since, mbind, M_bind, bind, try_except, mret, M_ret, ret. rewrite Hrun.
  cbn [fst snd]. split; [| done].
  destruct r as [access | e].
  - destruct Hr as [ms Hms]. destruct ts as [[| c since] |]; try done.
    rewrite (get_messages_since_run tid (String c since) ms s Hms), Hms. done.
  - destruct Hr as [-> | [-> | ->]]; done.
Qed.

(** The owner of the lab polls the thread about its booking. *)
Example thread_since_scenario :
  thread_since (User.mk 4 "staff") (Some "2025-03-01 10:30:00") 1 Sample.campus
  = (Ok [_row_to_message Sample.answer], Sample.campus)
  ∧ (thread_since (User.mk 4 "staff") None 1 Sample.campus).1 = Raise (HTTPException 400)
  ∧ (thread_since (User.mk 7 "student") (Some "2025-03-01 10:30:00") 1 Sample.campus).1
    = Raise (HTTPException 403)
  ∧ (thread_since (User.mk 4 "staff") (Some "2025-03-01 10:30:00") 2 Sample.campus).1
    = Raise (HTTPException 404)
  ∧ (thread_since (User.mk 4 "staff") (Some "2025-03-01 10:30:00") 1 Sample.unprovisioned).1
    = Ok [].
Proof. repeat split; vm_compute; reflexivity. Qed.

End polling_view.

(** ** Requesting a booking *)

Section booking_request_view.
Import bookings_dao controllers_bookings.

(** X22: for a resource the user may see and an interval whose start is
    before its end, the view [create] hands [create_booking] the ISO texts
    of the two instants.  If an active booking of the resource overlaps
    them it stores nothing, flashes the conflict warning and sends the user
    back to the resource.  Otherwise it appends one booking, pending when
    the resource requires approval and else approved with the notes
    [Auto-approved], flashes the matching confirmation and redirects to
    the user's bookings.  A draft resource can be booked by its owner and
    by an administrator. *)
Theorem create_view_books_valid_request now user start end_ rid (resource : Resource.t)
    (app : App) :
  resources_dao.get_resource_by_id rid true (db app) = (Ok (Some resource), db app) →
  Resource.status resource ≠ "archived" →
  (Resource.status resource = "draft" →
   Resource.owner_id resource = User.user_id user ∨ User.is_admin user = true) →
  DateTime.geb start end_ = false →
  let start_value := DateTime.isoformat start in
  let end_value := DateTime.isoformat end_ in
  let ra := Resource.requires_approval resource in
  let row := new_booking_row now (tbl_bookings (db app)) rid (User.user_id user)
               start_value end_value
               (if ra then "pending" else "approved")
               (if ra then None else Some "Auto-approved") in
  ((∃ b, b ∈ tbl_bookings (db app) ∧ clashes rid start_value end_value b)
   ∧ create now user (valid_form start end_) rid app
     = (Ok (redirect "resources.detail" [("resource_id", rid)]),
        mkApp (db app)
              (flashes app ++ [("This time conflicts with an existing booking.", "warning")])))
  ∨ ((¬ ∃ b, b ∈ tbl_bookings (db app) ∧ clashes rid start_value end_value b)
     ∧ create now user (valid_form start end_) rid app
       = (Ok (redirect "bookings.my_bookings" []),
          mkApp (set_bookings (λ rows, rows ++ [row]) (db app))
                (flashes app
                 ++ [(if ra
                      then "Booking requested. Await approval from the resource owner."
                      else "Booking confirmed and auto-approved.", "success")]))).
Proof.
  intros Hresource Harchived Hdraft Hlt start_value end_value ra row.
  assert (Hvisible :
    bool_decide (Resource.status resource = "draft")
    && negb (bool_decide (Resource.owner_id resource = User.user_id user))
    && negb (User.is_admin user) = false).
  { case_bool_decide as Hstatus; [| done].
    destruct (Hdraft Hstatus) as [Howner | ->]; [| by rewrite andb_false_r].
    by rewrite (bool_decide_eq_true_2 _ Howner). }
  destruct (create_booking_cases now rid (User.user_id user) start_value end_value ra
              (if ra then None else Some "Auto-approved") (db app))
    as [[Hclash Hrun] | [Hfree Hrun]]; [left | right]; (split; [done |]);
    unfold create, mbind, M_bind; unfold bind at 1;
    rewrite lift_db_run, Hresource; cbn [fst snd]; rewrite app_eta;
    rewrite (bool_decide_eq_false_2 _ Harchived), Hvisible, Hlt;
    fold start_value end_value ra;
    unfold bind, try_except; rewrite lift_db_run, Hrun; cbn [fst snd]; [done |].
  fold row. by destruct ra.
Qed.

Lemma create_view_books_valid_request_witness :
  let start_value := DateTime.isoformat (DateTime.mk 2025 3 2 11 0) in
  let end_value := DateTime.isoformat (DateTime.mk 2025 3 2 12 0) in
  let app := mkApp Sample.campus [] in
  let ra := Resource.requires_approval Sample.lab in
  let row := new_booking_row "2025-03-01 12:00:00" (tbl_bookings (db app)) 7 5
               start_value end_value
               (if ra then "pending" else "approved")
               (if ra then None else Some "Auto-approved") in
  ((∃ b, b ∈ tbl_bookings (db app) ∧ clashes 7 start_value end_value b)
   ∧ create "2025-03-01 12:00:00" (User.mk 5 "student")
       (valid_form (DateTime.mk 2025 3 2 11 0) (DateTime.mk 2025 3 2 12 0)) 7 app
     = (Ok (redirect "resources.detail" [("resource_id", 7)]),
        mkApp (db app)
              (flashes app ++ [("This time conflicts with an existing booking.", "warning")])))
  ∨ ((¬ ∃ b, b ∈ tbl_bookings (db app) ∧ clashes 7 start_value end_value b)
     ∧ create "2025-03-01 12:00:00" (User.mk 5 "student")
         (valid_form (DateTime.mk 2025 3 2 11 0) (DateTime.mk 2025 3 2 12 0)) 7 app
       = (Ok (redirect "bookings.my_bookings" []),
          mkApp (set_bookings (λ rows, rows ++ [row]) (db app))
                (flashes app
                 ++ [(if ra
                      then "Booking requested. Await approval from the resource owner."
                      else "Booking confirmed and auto-approved.", "success")]))).
Proof.
  apply (create_view_books_valid_request "2025-03-01 12:00:00" (User.mk 5 "student")
           (DateTime.mk 2025 3 2 11 0) (DateTime.mk 2025 3 2 12 0) 7 Sample.lab
           (mkApp Sample.campus [])).
  - reflexivity.
  - vm_compute. discriminate.
  - vm_compute. discriminate.
  - reflexivity.
Defined.

End booking_request_view.

(** ** Instants as text *)

Section iso_order.
Import DateTime bookings_dao controllers_bookings.

Lemma compare_app (a b x y : string) :
  String.length a = String.length b →
  String.compare (a +:+ x) (b +:+ y) = then_ (String.compare a b) (String.compare x y).
Proof.
  revert b. induction a as [| c a IH]; intros [| d b] Hlen; try done.
  simpl in *. destruct (Ascii.compare c d); try done. apply IH. congruence.
Qed.

Lemma string_length_app (a b : string) :
  String.length (a +:+ b) = (String.length a + String.length b)%nat.
Proof. induction a as [| c a IH]; simpl; [done | by rewrite IH]. Qed.

Lemma zfill_two_digits (n m : Z) :
  0 ≤ n < 100 → 0 ≤ m < 100 →
  String.length (zfill 2 n) = 2%nat
  ∧ String.compare (zfill 2 n) (zfill 2 m) = (n ?= m).
Proof.
  intros Hn Hm.
  assert (Hall : Forall (λ n, Forall (λ m,
            String.length (zfill 2 n) = 2%nat
            ∧ String.compare (zfill 2 n) (zfill 2 m) = (n ?= m)) (seqZ 0 100)) (seqZ 0 100))
    by compute_done.
  rewrite Forall_forall in Hall. specialize (Hall n). rewrite Forall_forall in Hall.
  apply Hall; apply elem_of_seqZ; lia.
Qed.

Lemma zfill_four_digits (y : Z) :
  0 ≤ y < 10000 → zfill 4 y = zfill 2 (y / 100) +:+ zfill 2 (y mod 100).
Proof.
  intros Hy.
  assert (Hall : Forall (λ y, zfill 4 y = zfill 2 (y / 100) +:+ zfill 2 (y mod 100))
                        (seqZ 0 10000)) by compute_done.
  rewrite Forall_forall in Hall. apply Hall, elem_of_seqZ. lia.
Qed.

Lemma compare_hundreds (y y' : Z) :
  then_ (y / 100 ?= y' / 100) (y mod 100 ?= y' mod 100) = (y ?= y').
Proof.
  pose proof (Z.div_mod y 100) as Hy. pose proof (Z.div_mod y' 100) as Hy'.
  unfold then_.
  destruct (Z.compare_spec (y / 100) (y' / 100)) as [Hq | Hq | Hq].
  - destruct (Z.compare_spec (y mod 100) (y' mod 100)); symmetry;
      [apply Z.compare_eq_iff | apply Z.compare_lt_iff | apply Z.compare_gt_iff]; lia.
  - symmetry. apply Z.compare_lt_iff.
    pose proof (Z.mod_pos_bound y 100). pose proof (Z.mod_pos_bound y' 100). lia.
  - symmetry. apply Z.compare_gt_iff.
    pose proof (Z.mod_pos_bound y 100). pose proof (Z.mod_pos_bound y' 100). lia.
Qed.

Lemma zfill_year (y y' : Z) :
  0 ≤ y < 10000 → 0 ≤ y' < 10000 →
  String.length (zfill 4 y) = 4%nat
  ∧ String.compare (zfill 4 y) (zfill 4 y') = (y ?= y').
Proof.
  intros Hy Hy'.
  assert (Hq : 0 ≤ y / 100 < 100) by (split; [apply Z.div_pos | apply Z.div_lt_upper_bound]; lia).
  assert (Hq' : 0 ≤ y' / 100 < 100) by (split; [apply Z.div_pos | apply Z.div_lt_upper_bound]; lia).
  assert (Hr : 0 ≤ y mod 100 < 100) by (apply Z.mod_pos_bound; lia).
  assert (Hr' : 0 ≤ y' mod 100 < 100) by (apply Z.mod_pos_bound; lia).
  destruct (zfill_two_digits _ _ Hq Hq') as [Hlen Hcmp].
  destruct (zfill_two_digits _ _ Hq' Hq') as [Hlen' _].
  destruct (zfill_two_digits _ _ Hr Hr') as [Hlenr Hcmpr].
  rewrite !zfill_four_digits by done. split.
  - rewrite string_length_app. lia.
  - rewrite compare_app by congruence. rewrite Hcmp, Hcmpr. apply compare_hundreds.
Qed.

Lemma compare_separator (sep x y : string) :
  String.compare (sep +:+ x) (sep +:+ y) = String.compare x y.
Proof. by rewrite compare_app, string_compare_refl. Qed.

Lemma isoformat_compare (a b : DateTime.t) :
  in_range a → in_range b →
  String.compare (isoformat a) (isoformat b) = DateTime.compare a b.
Proof.
  intros (Hy & Hm & Hd & Hh & Hmin) (Hy' & Hm' & Hd' & Hh' & Hmin').
  unfold isoformat, DateTime.compare.
  destruct (zfill_year (year a) (year b)) as [Hy1 Hy2]; [lia | lia |].
  destruct (zfill_year (year b) (year b)) as [Hy3 _]; [lia | lia |].
  destruct (zfill_two_digits (month a) (month b)) as [Hm1 Hm2]; [lia | lia |].
  destruct (zfill_two_digits (month b) (month b)) as [Hm3 _]; [lia | lia |].
  destruct (zfill_two_digits (day a) (day b)) as [Hd1 Hd2]; [lia | lia |].
  destruct (zfill_two_digits (day b) (day b)) as [Hd3 _]; [lia | lia |].
  destruct (zfill_two_digits (hour a) (hour b)) as [Hh1 Hh2]; [lia | lia |].
  destruct (zfill_two_digits (hour b) (hour b)) as [Hh3 _]; [lia | lia |].
  destruct (zfill_two_digits (minute a) (minute b)) as [Hmin1 Hmin2]; [lia | lia |].
  destruct (zfill_two_digits (minute b) (minute b)) as [Hmin3 _]; [lia | lia |].
  rewrite compare_app, Hy2, compare_separator by congruence. f_equal.
  rewrite compare_app, Hm2, compare_separator by congruence. f_equal.
  rewrite compare_app, Hd2, compare_separator by congruence. f_equal.
  rewrite compare_app, Hh2, compare_separator by congruence. f_equal.
  rewrite compare_app, Hmin2, string_compare_refl by congruence.
  by destruct (minute a ?= minute b).
Qed.

(** X23: on instants in range, [isoformat] keeps the order: the text
    comparison of the store on the ISO texts agrees with the comparison
    of the instants that the view [create] makes, so [start >= end] on
    the instants is [end <= start] on the stored texts. *)
Theorem isoformat_keeps_order (a b : DateTime.t) :
  in_range a → in_range b →
  String.compare (isoformat a) (isoformat b) = DateTime.compare a b
  ∧ (geb a b = false ↔ Sql.text_lt (isoformat a) (isoformat b))
  ∧ (geb a b = true ↔ Sql.text_le (isoformat b) (isoformat a)).
Proof.
  intros Ha Hb. pose proof (isoformat_compare a b Ha Hb) as Hcmp.
  split; [done |].
  unfold geb, Sql.text_lt, Sql.text_le, String.ltb, String.leb.
  rewrite (String.compare_antisym (isoformat b) (isoformat a)), Hcmp.
  destruct (DateTime.compare a b); simpl; split; split; done.
Qed.

Lemma isoformat_keeps_order_witness :
  String.compare (isoformat (DateTime.mk 2025 3 2 9 30)) (isoformat (DateTime.mk 2025 11 1 8 0))
  = DateTime.compare (DateTime.mk 2025 3 2 9 30) (DateTime.mk 2025 11 1 8 0)
  ∧ (geb (DateTime.mk 2025 3 2 9 30) (DateTime.mk 2025 11 1 8 0) = false
     ↔ Sql.text_lt (isoformat (DateTime.mk 2025 3 2 9 30))
                   (isoformat (DateTime.mk 2025 11 1 8 0)))
  ∧ (geb (DateTime.mk 2025 3 2 9 30) (DateTime.mk 2025 11 1 8 0) = true
     ↔ Sql.text_le (isoformat (DateTime.mk 2025 11 1 8 0))
                   (isoformat (DateTime.mk 2025 3 2 9 30))).
Proof.
  apply (isoformat_keeps_order (DateTime.mk 2025 3 2 9 30) (DateTime.mk 2025 11 1 8 0));
    unfold in_range; simpl; lia.
Defined.

(** X24: whatever the resource and the user, the view [create] leaves in
    the bookings table only the rows it found and, at most, one booking of
    the requested resource by the user whose start is before its end as
    the store compares them. *)
Theorem create_view_stores_proper_interval now user start end_ rid (app : App) :
  in_range start → in_range end_ →
  ∀ b, b ∈ tbl_bookings (db (create now user (valid_form start end_) rid app).2) →
       b ∈ tbl_bookings (db app)
       ∨ (Sql.text_lt (Booking.start_datetime b) (Booking.end_datetime b)
          ∧ Booking.resource_id b = rid
          ∧ Booking.requester_id b = User.user_id user).
Proof.
  intros Hstart Hend b.
  unfold create, mbind, M_bind. unfold bind at 1. rewrite lift_db_run.
  destruct (get_resource_by_id_run rid true (db app)) as [[resource |] ->];
    cbn [fst snd]; rewrite app_eta; [| auto].
  destruct (bool_decide (Resource.status resource = "archived")); [auto |].
  destruct (bool_decide (Resource.status resource = "draft")
            && negb (bool_decide (Resource.owner_id resource = User.user_id user))
            && negb (User.is_admin user)); [auto |].
  destruct (geb start end_) eqn:Hge; [auto |].
  unfold bind, try_except. rewrite lift_db_run, create_booking_run.
  case_bool_decide as Hconflict; [auto |].
  cbv zeta. cbn [fst snd]. destruct (Resource.requires_approval resource);
    cbn [fst snd db tbl_bookings set_bookings flash modify];
    (intros [Hold | ->%list_elem_of_singleton]%elem_of_app; [by left | right]);
    (split; [| done]); simpl;
    apply Is_true_true; unfold String.ltb;
    rewrite (isoformat_compare start end_ Hstart Hend);
    unfold geb in Hge; by destruct (DateTime.compare start end_).
Qed.

Lemma create_view_stores_proper_interval_witness :
  let b := Booking.mk 2 7 5 "2025-03-02T11:00:00" "2025-03-02T12:00:00" "pending" None
                      "2025-03-01 12:00:00" "2025-03-01 12:00:00" in
  b ∈ tbl_bookings (db (mkApp Sample.campus []))
  ∨ (Sql.text_lt (Booking.start_datetime b) (Booking.end_datetime b)
     ∧ Booking.resource_id b = 7
     ∧ Booking.requester_id b = User.user_id (User.mk 5 "student")).
Proof.
  apply (create_view_stores_proper_interval "2025-03-01 12:00:00" (User.mk 5 "student")
           (DateTime.mk 2025 3 2 11 0) (DateTime.mk 2025 3 2 12 0) 7 (mkApp Sample.campus [])).
  - unfold in_range. simpl. lia.
  - unfold in_range. simpl. lia.
  - vm_compute. right. left.
Defined.

End iso_order.

(** ** Opening a thread *)

Section start_rules.
Import messages_dao controllers_messaging.

Lemma bind_ok {S A B} (m : M S A) (k : A → M S B) (s s' : S) (y : B) :
  bind m k s = (Ok y, s') → ∃ x s1, m s = (Ok x, s1) ∧ k x s1 = (Ok y, s').
Proof.
  unfold bind. destruct (m s) as [[x | e] s1]; [| done]. intros Hk. by exists x, s1.
Qed.

Lemma lift_db_ok {A} (m : M Store A) (x : A) (app app' : App) :
  lift_db m app = (Ok x, app') → m (db app) = (Ok x, db app').
Proof. unfold lift_db. destruct (m (db app)). by intros [= -> <-]. Qed.

(** X25: the view [start] opens a thread only between two different
    users, and only about a resource with its owner, about a booking
    between its requester and the owner of its resource, or, without such
    a context, when the user is an administrator. *)
Theorem start_view_rules int now user referrer (form : ThreadStartForm) tid (app app' : App) :
  start int now user referrer form app
  = (Ok (redirect "messaging.thread" [("thread_id", tid)]), app') →
  ∃ receiver context_type,
    int (default "" (start_receiver_id form)) = Some receiver
    ∧ start_context_type form = Some context_type
    ∧ receiver ≠ User.user_id user
    ∧ ((context_type = "resource"
        ∧ ∃ r, r ∈ tbl_resources (db app) ∧ Resource.owner_id r = receiver)
       ∨ (context_type = "booking"
          ∧ ∃ b r, b ∈ tbl_bookings (db app) ∧ r ∈ tbl_resources (db app)
                   ∧ Resource.resource_id r = Booking.resource_id b
                   ∧ ((Booking.requester_id b = receiver
                       ∧ Resource.owner_id r = User.user_id user)
                      ∨ (Booking.requester_id b = User.user_id user
                         ∧ Resource.owner_id r = receiver)))
       ∨ (context_type = "general" ∧ User.is_admin user = true)).
Proof.
  unfold start. intros Hrun.
  destruct (start_validate_on_submit form) eqn:Hvalid; [| done]. simpl negb in Hrun. cbv iota in Hrun.
  case_bool_decide as Hctx; [done |].
  unfold mbind, M_bind in Hrun.
  apply bind_ok in Hrun as (parsed & app1 & Hreceiver & Hrun).
  unfold parse_int in Hreceiver.
  destruct (int (default "" (start_receiver_id form))) as [receiver |] eqn:Hint; [| done].
  injection Hreceiver as <- <-.
  apply bind_ok in Hrun as (context_id & app1 & Hcid & Hrun).
  assert (app1 = app) as ->.
  { destruct (start_context_id form) as [[| c text] |]; try by injection Hcid.
    apply bind_ok in Hcid as (? & ? & Hparse & Hret).
    unfold parse_int in Hparse. destruct (int (String c text)); [| done].
    injection Hparse as <- <-. by injection Hret. }
  clear Hcid.
  case_bool_decide as Hself; [done |].
  apply bind_ok in Hrun as ([] & app1 & Hcheck & _).
  assert (Htype : ∃ context_type, start_context_type form = Some context_type).
  { unfold start_validate_on_submit in Hvalid.
    destruct (start_context_type form); [by eexists |].
    simpl in Hvalid. by rewrite !andb_false_r in Hvalid. }
  destruct Htype as [context_type Htype]. rewrite Htype in *. simpl default in *.
  exists receiver, context_type. split; [done |]. split; [done |]. split; [done |].
  simpl default in Hcheck.
  case_bool_decide as Hres.
  { left. split; [done |].
    apply bind_ok in Hcheck as ([r |] & app2 & Hlookup & Hcheck); [| done].
    case_bool_decide as Hallowed; [done |].
    rewrite elem_of_union, !elem_of_singleton in Hallowed.
    destruct Hallowed as [Howner | ?]; [| done].
    destruct context_id as [id |]; [| done].
    apply lift_db_ok, get_resource_by_id_found in Hlookup as [Hr _].
    by exists r. }
  right. case_bool_decide as Hbook.
  { left. split; [done |].
    apply bind_ok in Hcheck as ([b |] & app2 & Hbooking & Hcheck); [| done].
    apply bind_ok in Hcheck as (resource & app3 & Hresource & Hcheck).
    destruct (truthy context_id); [| done].
    apply lift_db_ok in Hbooking. apply lift_db_ok in Hresource.
    rewrite get_booking_by_id_run in Hbooking. injection Hbooking as Hbooking Hdb.
    rewrite <- Hdb in Hresource.
    destruct (Sql.fetchone _) as [row |] eqn:Hrow; [| done].
    simpl in Hbooking. rewrite _row_to_booking_id in Hbooking. injection Hbooking as ->.
    apply fetchone_filter_found in Hrow as [Hb _].
    destruct (bool_decide (receiver ∉ _)) eqn:Hreceiver; [done |].
    destruct (bool_decide (User.user_id user ∉ _)) eqn:Huser; [done |].
    apply bool_decide_eq_false, dec_stable in Hreceiver.
    apply bool_decide_eq_false, dec_stable in Huser.
    destruct resource as [r |].
    - apply get_resource_by_id_found in Hresource as [Hr Hrid].
      rewrite elem_of_union, !elem_of_singleton in Hreceiver, Huser.
      exists b, r. split; [done |]. split; [done |]. split; [done |].
      destruct Hreceiver as [-> | ->], Huser as [Hu | Hu]; auto; by destruct Hself.
    - rewrite elem_of_union, elem_of_singleton, elem_of_empty in Hreceiver, Huser.
      destruct Hreceiver as [-> | []], Huser as [Hu | []]. by destruct Hself. }
  right.
  assert (context_type = "general") as ->.
  { unfold THREAD_CONTEXTS in Hctx.
    rewrite !elem_of_cons, elem_of_nil in Hctx. tauto. }
  split; [done |]. by destruct (User.is_admin user).
Qed.

Lemma start_view_rules_witness :
  ∃ receiver context_type,
    Sample.decimal (default "" (start_receiver_id
      (mkThreadStartForm true true (Some "4") (Some "booking") (Some "1")
                         (Some "One more question.")))) = Some receiver
    ∧ start_context_type (mkThreadStartForm true true (Some "4") (Some "booking") (Some "1")
                                            (Some "One more question."))
      = Some context_type
    ∧ receiver ≠ User.user_id (User.mk 3 "student")
    ∧ ((context_type = "resource"
        ∧ ∃ r, r ∈ tbl_resources (db (mkApp Sample.campus []))
               ∧ Resource.owner_id r = receiver)
       ∨ (context_type = "booking"
          ∧ ∃ b r, b ∈ tbl_bookings (db (mkApp Sample.campus []))
                   ∧ r ∈ tbl_resources (db (mkApp Sample.campus []))
                   ∧ Resource.resource_id r = Booking.resource_id b
                   ∧ ((Booking.requester_id b = receiver
                       ∧ Resource.owner_id r = User.user_id (User.mk 3 "student"))
                      ∨ (Booking.requester_id b = User.user_id (User.mk 3 "student")
                         ∧ Resource.owner_id r = receiver)))
       ∨ (context_type = "general" ∧ User.is_admin (User.mk 3 "student") = true)).
Proof.
  eapply (start_view_rules Sample.decimal "2025-03-01 12:00:00" (User.mk 3 "student") None
            (mkThreadStartForm true true (Some "4") (Some "booking") (Some "1")
                               (Some "One more question."))
            2 (mkApp Sample.campus [])).
  vm_compute. reflexivity.
Defined.
End start_rules.

(** ** Role checks *)

Section role_checks.
Import controllers_auth.

Lemma filter_idemp {A} (P : A → Prop) `{∀ x, Decision (P x)} (l : list A) :
  filter P (filter P l) = filter P l.
Proof.
  induction l as [| x l IH]; [done |].
  rewrite filter_cons. destruct (decide (P x)); [| done].
  by rewrite filter_cons_True, IH.
Qed.

(** X26: the decorator [role_required] lets every administrator through,
    checks nothing when none of the listed roles is a known role, lets a
    user through whose role is a listed known role and answers every
    other user with 403 without running the view; [role_in] is the same
    check. *)
Theorem role_required_spec {A} (roles : list string) (view : M App A) user (app : App) :
  role_in roles view user app = role_required roles view user app
  ∧ (User.is_admin user = true → role_required roles view user app = view app)
  ∧ ((∀ role, role ∈ roles → role ∉ ALLOWED_ROLES) →
     role_required roles view user app = view app)
  ∧ (User.role user ∈ roles → User.role user ∈ ALLOWED_ROLES →
     role_required roles view user app = view app)
  ∧ (User.is_admin user = false →
     (∃ role, role ∈ roles ∧ role ∈ ALLOWED_ROLES) →
     ¬ (User.role user ∈ roles ∧ User.role user ∈ ALLOWED_ROLES) →
     role_required roles view user app = (Raise (HTTPException 403), app)).
Proof.
  unfold role_in, role_required. rewrite filter_idemp.
  split; [done |]. split; [| split; [| split]].
  - intros ->. by rewrite andb_false_r.
  - intros Hnone.
    assert (filter (λ role, role ∈ ALLOWED_ROLES) roles = []) as ->; [| done].
    apply filter_none, Forall_forall. intros role Hrole. by apply Hnone.
  - intros Hlisted Hknown.
    rewrite (bool_decide_eq_false_2 (User.role user ∉ _)); [by rewrite andb_false_r |].
    intros Hout. apply Hout. by apply list_elem_of_filter.
  - intros -> (role & Hrole & Hknown) Hout.
    rewrite (bool_decide_eq_true_2 (_ ≠ [])), (bool_decide_eq_true_2 (User.role user ∉ _)).
    + done.
    + intros [? ?]%list_elem_of_filter. by apply Hout.
    + intros Hempty.
      assert (Hin : role ∈ filter (λ role, role ∈ ALLOWED_ROLES) roles)
        by (by apply list_elem_of_filter).
      rewrite Hempty in Hin. by apply elem_of_nil in Hin.
Qed.

Lemma role_required_spec_witness :
  role_required ["superuser"] (controllers_bookings.my_bookings (User.mk 3 "student"))
    (User.mk 3 "student") (mkApp Sample.campus [])
  = controllers_bookings.my_bookings (User.mk 3 "student") (mkApp Sample.campus [])
  ∧ role_required ["staff"; "admin"]
      (controllers_bookings.my_bookings (User.mk 3 "student"))
      (User.mk 3 "student") (mkApp Sample.campus [])
    = (Raise (HTTPException 403), mkApp Sample.campus []).
Proof.
  destruct (role_required_spec ["superuser"]
              (controllers_bookings.my_bookings (User.mk 3 "student"))
              (User.mk 3 "student") (mkApp Sample.campus []))
    as (_ & _ & Hnone & _).
  destruct (role_required_spec ["staff"; "admin"]
              (controllers_bookings.my_bookings (User.mk 3 "student"))
              (User.mk 3 "student") (mkApp Sample.campus []))
    as (_ & _ & _ & _ & Hrefused).
  split.
  - apply Hnone. intros role ->%list_elem_of_singleton. compute_done.
  - apply Hrefused.
    + reflexivity.
    + exists "staff". split; compute_done.
    + compute_done.
Defined.
End role_checks.

(** ** The administrator's view of one thread *)

Section admin_thread_detail.
Import messages_dao controllers_messaging controllers_admin.

(** X27: behind the role check, the view [thread_detail] lets an
    administrator reply in any thread that has messages: for a valid form
    it appends exactly one message, from the administrator to the other
    party of the latest message, flashes the confirmation and redirects to
    the thread.  On a thread without messages a valid form is not an error
    as in the view [thread]: the page is rendered and nothing is written. *)
Theorem admin_thread_detail_reply now user (form : MessageForm) tid (t : Thread.t)
    rows history (s : Store) shown :
  User.is_admin user = true →
  get_thread tid s = (Ok (Some t), s) →
  tbl_messages s = Some rows →
  get_messages tid s = (Ok history, s) →
  validate_on_submit form = true →
  match last history with
  | None =>
      ∃ context,
        _resolve_context t s = (Ok context, s)
        ∧ controllers_auth.role_required ["admin"] (thread_detail now user form tid) user
            (mkApp s shown)
          = (Ok (render_template "admin_thread_detail.html"
                   (mkThreadDetail t history context)), mkApp s shown)
  | Some latest =>
      let recipient :=
        if bool_decide (Message.sender_id latest = User.user_id user)
        then Message.receiver_id latest
        else Message.sender_id latest in
      controllers_auth.role_required ["admin"] (thread_detail now user form tid) user
        (mkApp s shown)
      = (Ok (redirect "admin.thread_detail" [("thread_id", tid)]),
         mkApp (set_messages
                  (rows ++ [new_message_row now rows tid (User.user_id user) recipient
                              (content_data form)]) s)
               (shown ++ [("Reply sent.", "success")]))
  end.
Proof.
  intros Hadmin Hthread Hrows Hhistory Hvalid.
  rewrite admin_role_only, Hadmin.
  pose proof (post_message_run now tid (User.user_id user)) as Hpost.
  destruct (last history) as [latest |] eqn:Hlast.
  - intros recipient. subst recipient.
    specialize (Hpost (if bool_decide (Message.sender_id latest = User.user_id user)
                       then Message.receiver_id latest else Message.sender_id latest)
                      (content_data form) rows s Hrows).
    cbv zeta in Hpost.
    unfold thread_detail, mbind, M_bind, bind, lift_db, flash, modify, mret, M_ret, ret.
    cbn -[get_thread get_messages post_message new_message_row].
    rewrite Hthread. cbn -[get_thread get_messages post_message new_message_row].
    rewrite Hhistory, Hvalid, Hlast.
    cbn -[get_thread get_messages post_message new_message_row].
    destruct (bool_decide (Message.sender_id latest = User.user_id user));
      cbn [negb]; by rewrite Hpost.
  - destruct (_resolve_context_run t s) as [context Hcontext].
    exists context. split; [done |].
    unfold thread_detail, mbind, M_bind, bind, lift_db, mret, M_ret, ret.
    cbn -[get_thread get_messages post_message _resolve_context].
    rewrite Hthread. cbn -[get_thread get_messages post_message _resolve_context].
    rewrite Hhistory, Hvalid, Hlast.
    cbn -[get_thread get_messages post_message _resolve_context].
    by rewrite Hcontext.
Qed.

Lemma admin_thread_detail_reply_witness :
  controllers_auth.role_required ["admin"]
    (thread_detail "2025-03-01 12:00:00" (User.mk 9 "admin")
                   (mkMessageForm true true (Some "Any news?")) 1)
    (User.mk 9 "admin") (mkApp Sample.campus [])
  = (Ok (redirect "admin.thread_detail" [("thread_id", 1)]),
     mkApp (set_messages
              ([Sample.question; Sample.answer]
               ++ [new_message_row "2025-03-01 12:00:00" [Sample.question; Sample.answer]
                     1 9 3 "Any news?"]) Sample.campus)
           ([] ++ [("Reply sent.", "success")])).
Proof.
  eapply (admin_thread_detail_reply "2025-03-01 12:00:00" (User.mk 9 "admin")
            (mkMessageForm true true (Some "Any news?")) 1 Sample.about_booking
            [Sample.question; Sample.answer]
            [_row_to_message Sample.question; _row_to_message Sample.answer]
            Sample.campus []);
    reflexivity.
Defined.

End admin_thread_detail.

(** ** The conflict check of a booking request *)

Section booking_conflicts.
Import Booking DateTime bookings_dao.

Lemma create_booking_raises_iff now rid uid start_value end_value ra notes (s : Store) :
  create_booking now rid uid start_value end_value ra notes s
  = (Raise (ValueError conflict_message), s)
  ↔ ∃ b, b ∈ tbl_bookings s ∧ clashes rid start_value end_value b.
Proof.
  pose proof (create_booking_cases now rid uid start_value end_value ra notes s) as Hrun.
  cbv zeta in Hrun. destruct Hrun as [[Hclash ->] | [Hfree ->]]; [done |].
  split; [discriminate | intros Hclash; destruct (Hfree Hclash)].
Qed.

(** X28: on the texts as the store compares them, [create_booking] ends
    with the conflict error, and the store as it was, exactly when an
    active booking of the resource has its end text above the start text
    of the request and its start text below the end text; a call that
    does not end with the conflict error has appended the requested
    booking, pending or approved; and a request that starts at the end
    text of every booking of the resource does not end with it. *)
Theorem create_booking_conflict_on_texts now rid uid start_value end_value ra notes
    (s : Store) :
  let out := create_booking now rid uid start_value end_value ra notes s in
  let row := new_booking_row now (tbl_bookings s) rid uid start_value end_value
               (if ra then "pending" else "approved") notes in
  (out = (Raise (ValueError conflict_message), s)
   ↔ ∃ b, b ∈ tbl_bookings s ∧ clashes rid start_value end_value b)
  ∧ (out.1 ≠ Raise (ValueError conflict_message) →
     out.2 = set_bookings (λ rows, rows ++ [row]) s)
  ∧ ((∀ b, b ∈ tbl_bookings s → resource_id b = rid → end_datetime b = start_value) →
     out.1 ≠ Raise (ValueError conflict_message)).
Proof.
  intros out row. subst out.
  pose proof (create_booking_cases now rid uid start_value end_value ra notes s) as Hrun.
  cbv zeta in Hrun. fold row in Hrun. destruct Hrun as [[Hclash ->] | [Hfree ->]].
  - split; [done |]. split; [done |].
    intros Htouch. destruct Hclash as (b & Hb & Hrid & _ & Hov).
    destruct Hov. left. rewrite (Htouch b Hb Hrid). apply text_le_refl.
  - split; [| done]. split; [discriminate | intros Hclash; destruct (Hfree Hclash)].
Qed.

Lemma geb_text_le (a b : DateTime.t) :
  in_range a → in_range b →
  geb a b = true ↔ Sql.text_le (isoformat b) (isoformat a).
Proof.
  intros Ha Hb. pose proof (isoformat_compare a b Ha Hb) as Hcmp.
  unfold geb, Sql.text_le, String.leb.
  rewrite (String.compare_antisym (isoformat b) (isoformat a)), Hcmp.
  destruct (DateTime.compare a b); simpl; split; done.
Qed.

(** X29: when the request and the active bookings of the resource are
    written by [isoformat()] from naive instants in range, as the view
    [create] writes them, the comparison of the texts is the comparison of
    the instants: [create_booking] ends with the conflict error, and the
    store as it was, exactly when an active booking of the resource
    overlaps the half-open interval of the request. *)
Theorem create_booking_conflict_on_instants now rid uid start end_ ra notes (s : Store) :
  in_range start → in_range end_ →
  (∀ b, b ∈ tbl_bookings s → resource_id b = rid →
        status b = "pending" ∨ status b = "approved" →
        ∃ a e, written_as (start_datetime b) a ∧ written_as (end_datetime b) e) →
  create_booking now rid uid (isoformat start) (isoformat end_) ra notes s
  = (Raise (ValueError conflict_message), s)
  ↔ ∃ b a e, b ∈ tbl_bookings s ∧ resource_id b = rid
             ∧ (status b = "pending" ∨ status b = "approved")
             ∧ written_as (start_datetime b) a ∧ written_as (end_datetime b) e
             ∧ instants_overlap a e start end_.
Proof.
  intros Hstart Hend Hwritten.
  rewrite create_booking_raises_iff. split.
  - intros (b & Hb & Hrid & Hactive & Hclash).
    destruct (Hwritten b Hb Hrid Hactive) as (a & e & Ha & He).
    exists b, a, e. repeat (split; [done |]).
    destruct Ha as [Ha Has], He as [He Hes]. rewrite Has, Hes in Hclash.
    unfold instants_overlap. by rewrite !geb_text_le.
  - intros (b & a & e & Hb & Hrid & Hactive & [Ha Has] & [He Hes] & Hover).
    exists b. split; [done |]. split; [done |]. split; [done |].
    rewrite Has, Hes. unfold instants_overlap in Hover.
    by rewrite !geb_text_le in Hover.
Qed.

Lemma create_booking_conflict_on_instants_witness :
  create_booking "2025-03-01 09:00:00" 7 4
    (isoformat (DateTime.mk 2025 3 2 11 30)) (isoformat (DateTime.mk 2025 3 2 13 0))
    true None Sample.busy
  = (Raise (ValueError conflict_message), Sample.busy)
  ↔ ∃ b a e, b ∈ tbl_bookings Sample.busy ∧ resource_id b = 7
             ∧ (status b = "pending" ∨ status b = "approved")
             ∧ written_as (start_datetime b) a ∧ written_as (end_datetime b) e
             ∧ instants_overlap a e (DateTime.mk 2025 3 2 11 30) (DateTime.mk 2025 3 2 13 0).
Proof.
  apply (create_booking_conflict_on_instants "2025-03-01 09:00:00" 7 4
           (DateTime.mk 2025 3 2 11 30) (DateTime.mk 2025 3 2 13 0) true None Sample.busy).
  - unfold in_range. simpl. lia.
  - unfold in_range. simpl. lia.
  - intros b [-> | [-> | []%elem_of_nil]%elem_of_cons]%elem_of_cons _ _.
    + exists (DateTime.mk 2025 3 2 9 0), (DateTime.mk 2025 3 2 11 0).
      unfold written_as, in_range. simpl. repeat split; lia || (vm_compute; reflexivity).
    + exists (DateTime.mk 2025 3 2 11 0), (DateTime.mk 2025 3 2 12 0).
      unfold written_as, in_range. simpl. repeat split; lia || (vm_compute; reflexivity).
Defined.

(** On the lab with its two bookings the request of the witness, 11:30 to
    13:00, runs into the booking from 11:00 to 12:00, and the request from
    12:00 to 13:00 is stored. *)
Example create_booking_on_instants_scenario :
  create_booking "2025-03-01 09:00:00" 7 4
    (isoformat (DateTime.mk 2025 3 2 11 30)) (isoformat (DateTime.mk 2025 3 2 13 0))
    true None Sample.busy
  = (Raise (ValueError conflict_message), Sample.busy)
  ∧ instants_overlap (DateTime.mk 2025 3 2 11 0) (DateTime.mk 2025 3 2 12 0)
      (DateTime.mk 2025 3 2 11 30) (DateTime.mk 2025 3 2 13 0)
  ∧ (create_booking "2025-03-01 09:00:00" 7 4
       (isoformat (DateTime.mk 2025 3 2 12 0)) (isoformat (DateTime.mk 2025 3 2 13 0))
       true None Sample.busy).1
    = Ok (Some (Booking.mk 3 7 4 "2025-03-02T12:00:00" "2025-03-02T13:00:00" "pending" None
                           "2025-03-01 09:00:00" "2025-03-01 09:00:00")).
Proof.
  split; [vm_compute; reflexivity |]. split; [| vm_compute; reflexivity].
  unfold instants_overlap. vm_compute. intros [? | ?]; discriminate.
Qed.

End booking_conflicts.
